(** * Cashier_System: the inventory / cart / checkout engine

    A shallow embedding of [database.py] (class [Database]) and [models.py]
    (classes [Product], [CartItem], [Cart], [CashierSystem]), together with
    the quantity guard of [ui.py]'s [_add_to_cart], followed by the
    properties of the engine.

    Conventions of the embedding:
    - Python [int] is [Z]; Python [float] is an abstract type [F] with the
      operations the code uses (class [PyFloat]); [Binary64] instantiates it
      with IEEE 754 double precision so that every definition can be run.
      The values of an INTEGER column are integers too: they are taken to
      stay within the 64 bits in which SQLite's arithmetic is exact.
    - A method of a Python object is a function in the monad [M S], where
      [S] is the state of the object: it returns a value or raises, and
      leaves a new state behind in both cases.
    - The SQLite connection is a pair of table snapshots: what has been
      committed and what the connection currently sees.  Every call into
      the storage layer ([cursor.execute], [conn.commit]) may raise; this
      is driven by [io_budget].
    - A reading of [datetime.now()] is an argument of the method that
      makes it. *)

From Stdlib Require Import ZArith List Ascii String Bool Lia.
From Stdlib Require Import Permutation Sorted.
From Stdlib Require Import SpecFloat.
Import ListNotations.
Open Scope string_scope.
Open Scope list_scope.
Open Scope Z_scope.

(** ** Python numbers *)

(** The operations on [float] that the engine performs.  They are kept
    abstract: the properties below hold for every interpretation, and
    none depends on how a float is rounded.  An [int] too large for a
    float makes Python raise [OverflowError]; quantities and stocks are
    taken to be within the range of a float, as every value that has been
    through an INTEGER column or an entry field is. *)
Class PyFloat (F : Type) : Type := {
  float_of_int : Z -> F;        (* conversion of an [int] operand *)
  float_sub : F -> F -> F;
  float_mul : F -> F -> F;
  float_lt : F -> F -> bool;
  float_round2 : F -> F;        (* [round(x, 2)] on a float *)
  float_sum : list F -> F       (* [sum(xs)] for a non-empty [xs] *)
}.

(** IEEE 754 binary64, on the Standard Library's [spec_float]. *)
Module Binary64.

Definition of_int (z : Z) : spec_float := binary_normalize 53 1024 z 0 false.

(** [a / b] rounded to the nearest integer, ties to even ([0 < b]). *)
Definition div_half_even (a b : Z) : Z :=
  let q := a / b in
  match 2 * (a mod b) ?= b with
  | Lt => q
  | Gt => q + 1
  | Eq => if Z.even q then q else q + 1
  end.

(** [round(x, 2)]: the exact value of [x] is rounded to the nearest
    multiple of 1/100 (ties to even), and the double nearest to that
    decimal is returned.  Integers, infinities and NaN round to
    themselves. *)
Definition round_hundredths (x : spec_float) : spec_float :=
  match x with
  | S754_finite s m (Zneg k) =>
      match div_half_even (Zpos m * 100) (Zpos (Pos.iter xO 1%positive k)) with
      | Zpos n => SFdiv 53 1024 (S754_finite s n 0) (S754_finite false 100 0)
      | _ => S754_zero s
      end
  | _ => x
  end.

(** The double written [n/100] in decimal, e.g. [cents 999] is [9.99]. *)
Definition cents (n : Z) : spec_float := SFdiv 53 1024 (of_int n) (of_int 100).

(** [sum(xs)] adds from left to right, starting from 0 (CPython up to
    3.11; later versions compensate the rounding errors of longer sums). *)
Definition sum_left (xs : list spec_float) : spec_float :=
  fold_left (SFadd 53 1024) xs (of_int 0).

#[export] Instance binary64 : PyFloat spec_float := {
  float_of_int := of_int;
  float_sub := SFsub 53 1024;
  float_mul := SFmul 53 1024;
  float_lt := SFltb;
  float_round2 := round_hundredths;
  float_sum := sum_left
}.

End Binary64.

(** ** Exceptions and the method monad *)

Inductive exn : Type :=
| ValueError (msg : string)
| IntegrityError          (* sqlite3: a UNIQUE constraint failed *)
| OperationalError.       (* sqlite3: the storage layer failed *)

(** The names the specification gives to the two errors of [scan_and_add]. *)
Definition ProductNotFound : exn := ValueError "Product not found.".
Definition InsufficientStock : exn := ValueError "Not enough stock.".

Inductive outcome (A : Type) : Type :=
| Returned (a : A)
| Raised (e : exn).
Arguments Returned {A} a.
Arguments Raised {A} e.

Definition M (S A : Type) : Type := S -> outcome A * S.

Definition ret {S A} (a : A) : M S A := fun s => (Returned a, s).

Definition raise {S A} (e : exn) : M S A := fun s => (Raised e, s).

Definition bind {S A B} (m : M S A) (k : A -> M S B) : M S B :=
  fun s =>
    match m s with
    | (Returned a, s') => k a s'
    | (Raised e, s') => (Raised e, s')
    end.

Definition gets {S A} (f : S -> A) : M S A := fun s => (Returned (f s), s).

Definition modify {S} (f : S -> S) : M S unit := fun s => (Returned tt, f s).

Declare Scope method_scope.
Delimit Scope method_scope with method.
Notation "x <- m ;; k" := (bind m (fun x => k))
  (at level 61, m at next level, right associativity) : method_scope.
Notation "m ;; k" := (bind m (fun _ => k))
  (at level 61, right associativity) : method_scope.
Open Scope method_scope.

(** [for x in l: body(x)] *)
Fixpoint for_each {S A} (l : list A) (body : A -> M S unit) : M S unit :=
  match l with
  | [] => ret tt
  | x :: l' => body x ;; for_each l' body
  end.

Section Engine.

Context {F : Type} {PF : PyFloat F}.

(** A Python number: [int] or [float]. *)
Inductive num : Type :=
| Int (z : Z)
| Float (x : F).

Definition to_float (n : num) : F :=
  match n with
  | Int z => float_of_int z
  | Float x => x
  end.

Definition num_sub (a b : num) : num :=
  match a, b with
  | Int x, Int y => Int (x - y)
  | _, _ => Float (float_sub (to_float a) (to_float b))
  end.

(** [a < b].  A mixed comparison converts the [int] operand, which is
    exact for the literal [0] the engine compares with. *)
Definition num_lt (a b : num) : bool :=
  match a, b with
  | Int x, Int y => x <? y
  | _, _ => float_lt (to_float a) (to_float b)
  end.

(** [round(n, 2)]: an [int] is returned as it is. *)
Definition round2 (n : num) : num :=
  match n with
  | Int z => Int z
  | Float x => Float (float_round2 x)
  end.

(** [sum(xs)] over floats: the [int] 0 when there is nothing to add. *)
Definition py_sum (xs : list F) : num :=
  match xs with
  | [] => Int 0
  | _ :: _ => Float (float_sum xs)
  end.

(** [max(a, b)]: [b] replaces [a] only when [b > a]. *)
Definition py_max (a b : num) : num := if num_lt a b then b else a.

(** ** database.py: the tables *)

Record ProductRow : Type := {
  row_id : Z;
  row_barcode : string;
  row_name : string;
  row_price : F;
  quantity_in_stock : Z
}.

Record SaleRow : Type := {
  sale_id : Z;
  sale_timestamp : string;
  sale_total : F
}.

Record SaleItemRow : Type := {
  si_sale_id : Z;
  si_product_id : Z;
  si_quantity : Z;
  si_line_total : F
}.

(** The rows of the three tables in rowid order, and the AUTOINCREMENT
    counters of [products] and [sales] (the largest id ever given). *)
Record Tables : Type := {
  products : list ProductRow;
  products_seq : Z;
  sales : list SaleRow;
  sales_seq : Z;
  sale_items : list SaleItemRow
}.

Definition set_products (ps : list ProductRow) (t : Tables) : Tables :=
  {| products := ps; products_seq := products_seq t; sales := sales t;
     sales_seq := sales_seq t; sale_items := sale_items t |}.

Definition set_stock (q : Z) (p : ProductRow) : ProductRow :=
  {| row_id := row_id p; row_barcode := row_barcode p; row_name := row_name p;
     row_price := row_price p; quantity_in_stock := q |}.

(** [_create_tables] on a new file. *)
Definition empty_tables : Tables :=
  {| products := []; products_seq := 0; sales := []; sales_seq := 0;
     sale_items := [] |}.

(** *** The SQL statements, as functions on the tables *)

(** [INSERT INTO products (barcode, name, price, quantity_in_stock)
    VALUES (?, ?, ?, ?)]; [None] when the barcode is already there. *)
Definition sql_insert_product (barcode name : string) (price : F) (qty : Z)
    (t : Tables) : option Tables :=
  if existsb (fun p => row_barcode p =? barcode)%string (products t) then None
  else
    let new_id := products_seq t + 1 in
    Some {| products := products t ++
              [{| row_id := new_id; row_barcode := barcode; row_name := name;
                  row_price := price; quantity_in_stock := qty |}];
            products_seq := new_id; sales := sales t;
            sales_seq := sales_seq t; sale_items := sale_items t |}.

(** [SELECT * FROM products WHERE barcode = ?], then [fetchone()]. *)
Definition sql_select_product_by_barcode (barcode : string) (t : Tables)
    : option ProductRow :=
  find (fun p => row_barcode p =? barcode)%string (products t).

(** [DELETE FROM products WHERE id = ?]; the result is [rowcount]. *)
Definition sql_delete_product (product_id : Z) (t : Tables) : Z * Tables :=
  let gone := filter (fun p => row_id p =? product_id) (products t) in
  let kept := filter (fun p => negb (row_id p =? product_id)) (products t) in
  (Z.of_nat (List.length gone), set_products kept t).

(** What the UPDATE of [adjust_stock] does to one row: the row is
    rewritten when it satisfies the WHERE clause and kept otherwise. *)
Definition update_row (product_id delta : Z) (p : ProductRow) : ProductRow :=
  if (row_id p =? product_id) && (0 <=? quantity_in_stock p + delta)
  then set_stock (quantity_in_stock p + delta) p
  else p.

(** [UPDATE products SET quantity_in_stock = quantity_in_stock + ?
    WHERE id = ? AND quantity_in_stock + ? >= 0] *)
Definition sql_update_stock (product_id delta : Z) (t : Tables) : Tables :=
  set_products (map (update_row product_id delta) (products t)) t.

(** [INSERT INTO sales (timestamp, total) VALUES (?, ?)]; the result is
    [lastrowid].  The REAL column stores an [int] total as a float. *)
Definition sql_insert_sale (ts : string) (total : num) (t : Tables)
    : Z * Tables :=
  let new_id := sales_seq t + 1 in
  (new_id,
   {| products := products t; products_seq := products_seq t;
      sales := sales t ++
        [{| sale_id := new_id; sale_timestamp := ts;
            sale_total := to_float total |}];
      sales_seq := new_id; sale_items := sale_items t |}).

(** [INSERT INTO sale_items (sale_id, product_id, quantity, line_total)
    VALUES (?, ?, ?, ?)] *)
Definition sql_insert_sale_item (row : SaleItemRow) (t : Tables) : Tables :=
  {| products := products t; products_seq := products_seq t;
     sales := sales t; sales_seq := sales_seq t;
     sale_items := sale_items t ++ [row] |}.

(** [SELECT * FROM sales WHERE id = ?], then [fetchone()]. *)
Definition sql_select_sale (id : Z) (t : Tables) : option SaleRow :=
  find (fun s => sale_id s =? id) (sales t).

(** A row of the join in [get_sale_details]. *)
Record SaleItemDetail : Type := {
  d_sale_id : Z;
  d_product_id : Z;
  d_quantity : Z;
  d_line_total : F;
  d_name : string;
  d_barcode : string;
  d_price : F
}.

Definition join_row (si : SaleItemRow) (p : ProductRow) : SaleItemDetail :=
  {| d_sale_id := si_sale_id si; d_product_id := si_product_id si;
     d_quantity := si_quantity si; d_line_total := si_line_total si;
     d_name := row_name p; d_barcode := row_barcode p;
     d_price := row_price p |}.

(** [SELECT si.*, p.name, p.barcode, p.price FROM sale_items si
    JOIN products p ON si.product_id = p.id WHERE si.sale_id = ?]: one row
    for each pair of a line item of the sale and a product row of its
    product id, here in the order of the line items. *)
Definition sql_select_sale_items (id : Z) (t : Tables)
    : list SaleItemDetail :=
  flat_map
    (fun si =>
       map (join_row si)
           (filter (fun p => si_product_id si =? row_id p) (products t)))
    (filter (fun si => si_sale_id si =? id) (sale_items t)).

(** *** The connection *)

(** [committed] is what is on disk, [working] what this connection sees
    (the committed rows and its own pending writes).  [io_budget] is the
    number of calls the storage layer will still serve before it starts
    failing; [None] is a storage layer that never fails. *)
Record Database : Type := {
  committed : Tables;
  working : Tables;
  io_budget : option nat
}.

Definition set_working (t : Tables) (d : Database) : Database :=
  {| committed := committed d; working := t; io_budget := io_budget d |}.

(** One call into the storage layer. *)
Definition io : M Database unit :=
  fun d =>
    match io_budget d with
    | None => (Returned tt, d)
    | Some O => (Raised OperationalError, d)
    | Some (S n) =>
        (Returned tt,
         {| committed := committed d; working := working d;
            io_budget := Some n |})
    end.

(** [cur.execute] of a query. *)
Definition query {A} (q : Tables -> A) : M Database A :=
  io ;; gets (fun d => q (working d)).

(** [cur.execute] of a statement that writes. *)
Definition execute (stmt : Tables -> Tables) : M Database unit :=
  io ;; modify (fun d => set_working (stmt (working d)) d).

(** [cur.execute] of a statement that writes and leaves a result in the
    cursor ([lastrowid], [rowcount]). *)
Definition execute_returning {A} (stmt : Tables -> A * Tables)
    : M Database A :=
  io ;;
  r <- gets (fun d => stmt (working d)) ;;
  modify (set_working (snd r)) ;;
  ret (fst r).

(** [self.conn.commit()] *)
Definition commit : M Database unit :=
  io ;;
  modify (fun d => {| committed := working d; working := working d;
                      io_budget := io_budget d |}).

(** *** class Database *)

Definition add_product (barcode name : string) (price : F) (qty : Z)
    : M Database unit :=
  io ;;
  t <- gets working ;;
  match sql_insert_product barcode name price qty t with
  | None => raise IntegrityError
  | Some t' => modify (set_working t') ;; commit
  end.

Definition get_product_by_barcode (barcode : string)
    : M Database (option ProductRow) :=
  query (sql_select_product_by_barcode barcode).

Definition delete_product (product_id : Z) : M Database bool :=
  rowcount <- execute_returning (sql_delete_product product_id) ;;
  commit ;;
  ret (0 <? rowcount).

Definition adjust_stock (product_id delta : Z) : M Database unit :=
  execute (sql_update_stock product_id delta) ;;
  commit.

(** An element of the [items] argument of [record_sale]. *)
Record LineItem : Type := {
  item_product_id : Z;
  item_quantity : Z;
  item_line_total : F
}.

Definition sale_item_row (sale : Z) (it : LineItem) : SaleItemRow :=
  {| si_sale_id := sale; si_product_id := item_product_id it;
     si_quantity := item_quantity it; si_line_total := item_line_total it |}.

(** [ts] is the reading of [datetime.now()]. *)
Definition record_sale (ts : string) (items : list LineItem) (total : num)
    : M Database unit :=
  sale <- execute_returning (sql_insert_sale ts total) ;;
  for_each items (fun it =>
    execute (sql_insert_sale_item (sale_item_row sale it)) ;;
    adjust_stock (item_product_id it) (- item_quantity it)) ;;
  commit.

Record SaleDetails : Type := {
  details_sale : SaleRow;
  details_items : list SaleItemDetail
}.

Definition get_sale_details (id : Z) : M Database (option SaleDetails) :=
  sale <- query (sql_select_sale id) ;;
  match sale with
  | None => ret None
  | Some s =>
      items <- query (sql_select_sale_items id) ;;
      ret (Some {| details_sale := s; details_items := items |})
  end.

(** ** models.py *)

(** [Product(row)]: a snapshot of a product row, taken when it is read. *)
Record Product : Type := {
  prod_id : Z;
  prod_barcode : string;
  prod_name : string;
  prod_price : F;
  prod_stock : Z
}.

Definition Product_of_row (row : ProductRow) : Product :=
  {| prod_id := row_id row; prod_barcode := row_barcode row;
     prod_name := row_name row; prod_price := row_price row;
     prod_stock := quantity_in_stock row |}.

Record CartItem : Type := {
  product : Product;
  qty : Z
}.

(** The property [CartItem.line_total]. *)
Definition line_total (ci : CartItem) : F :=
  float_round2 (float_mul (prod_price (product ci)) (float_of_int (qty ci))).

Record Cart : Type := { items : list CartItem }.

(** [Cart()] *)
Definition empty_cart : Cart := {| items := [] |}.

(** The loop of [add_item] over the lines: the first line of the same
    product id takes the quantity and the method returns; when the loop
    ends without a match the new line is appended. *)
Fixpoint merge_item (p : Product) (q : Z) (l : list CartItem)
    : list CartItem :=
  match l with
  | [] => [{| product := p; qty := q |}]
  | ci :: l' =>
      if prod_id (product ci) =? prod_id p
      then {| product := product ci; qty := qty ci + q |} :: l'
      else ci :: merge_item p q l'
  end.

Definition add_item (p : Product) (q : Z) (c : Cart) : Cart :=
  {| items := merge_item p q (items c) |}.

Definition remove_item (product_id : Z) (c : Cart) : Cart :=
  {| items := filter (fun ci => negb (prod_id (product ci) =? product_id))
                     (items c) |}.

Definition clear (c : Cart) : Cart := {| items := [] |}.

(** The property [Cart.subtotal]. *)
Definition subtotal (c : Cart) : num :=
  round2 (py_sum (map line_total (items c))).

(** [self.config] is not read by any method below and is left out. *)
Record CashierSystem : Type := {
  db : Database;
  cart : Cart
}.

(** [CashierSystem(db)] *)
Definition new_system (d : Database) : CashierSystem :=
  {| db := d; cart := empty_cart |}.

(** A call of a method of [self.db]. *)
Definition on_db {A} (m : M Database A) : M CashierSystem A :=
  fun s =>
    let (r, d) := m (db s) in
    (r, {| db := d; cart := cart s |}).

(** A call of a mutating method of [self.cart]. *)
Definition on_cart (f : Cart -> Cart) : M CashierSystem unit :=
  modify (fun s => {| db := db s; cart := f (cart s) |}).

Definition scan_and_add (barcode : string) (q : Z)
    : M CashierSystem (Product * Z) :=
  row <- on_db (get_product_by_barcode barcode) ;;
  match row with
  | None => raise (ValueError "Product not found.")
  | Some r =>
      let prod := Product_of_row r in
      if prod_stock prod <? q then raise (ValueError "Not enough stock.")
      else on_cart (add_item prod q) ;; ret (prod, q)
  end.

(** The dict returned by [apply_discount_tax]. *)
Record Totals : Type := {
  totals_subtotal : num;
  totals_taxed : num;
  totals_discount : num;
  totals_total : num
}.

Definition apply_discount_tax (discount tax_rate : num)
    : M CashierSystem Totals :=
  sub <- gets (fun s => subtotal (cart s)) ;;
  let total := round2 (num_sub sub discount) in
  ret {| totals_subtotal := sub; totals_taxed := sub;
         totals_discount := discount; totals_total := py_max total (Int 0) |}.

(** The dict returned by [checkout]; an element of [receipt_items] is
    the tuple (name, quantity, unit price, line total). *)
Record Receipt : Type := {
  receipt_items : list (string * Z * F * F);
  receipt_subtotal : num;
  receipt_taxed : num;
  receipt_discount : num;
  receipt_total : num;
  receipt_timestamp : string
}.

Definition items_data (c : Cart) : list LineItem :=
  map (fun ci => {| item_product_id := prod_id (product ci);
                    item_quantity := qty ci;
                    item_line_total := line_total ci |})
      (items c).

Definition receipt_lines (c : Cart) : list (string * Z * F * F) :=
  map (fun ci => (prod_name (product ci), qty ci, prod_price (product ci),
                  line_total ci))
      (items c).

(** [ts_sale] is the clock reading made inside [record_sale], [ts] the
    one made for the receipt. *)
Definition checkout (ts_sale ts : string) (discount tax_rate : num)
    : M CashierSystem Receipt :=
  calc <- apply_discount_tax discount (Int 0) ;;
  data <- gets (fun s => items_data (cart s)) ;;
  on_db (record_sale ts_sale data (totals_total calc)) ;;
  lines <- gets (fun s => receipt_lines (cart s)) ;;
  let receipt :=
    {| receipt_items := lines;
       receipt_subtotal := totals_subtotal calc;
       receipt_taxed := totals_taxed calc;
       receipt_discount := totals_discount calc;
       receipt_total := totals_total calc;
       receipt_timestamp := ts |} in
  on_cart clear ;;
  ret receipt.

(** ** ui.py: the guard in front of [scan_and_add] *)

(** What [_add_to_cart] shows: a warning about the input, the error of
    [scan_and_add], or the line that was added. *)
Inductive add_to_cart_result : Type :=
| InputWarning (msg : string)
| ErrorShown (e : exn)
| Added (p : Product) (q : Z).

(** [bc] is the barcode field after [strip()], [qt] the quantity field.
    Only the calls into the engine are modelled, not the widgets. *)
Definition _add_to_cart (bc : string) (qt : Z)
    : CashierSystem -> add_to_cart_result * CashierSystem :=
  fun s =>
    if (bc =? "")%string then (InputWarning "Please enter a barcode", s)
    else if qt <=? 0
    then (InputWarning "Quantity must be greater than zero", s)
    else
      match scan_and_add bc qt s with
      | (Returned (p, q), s') => (Added p q, s')
      | (Raised e, s') => (ErrorShown e, s')
      end.

(** ** Vocabulary of the properties *)

(** The storage layer serves every call. *)
Definition healthy (d : Database) : Prop := io_budget d = None.

(** The connection after a commit that leaves it on tables [t]. *)
Definition synced (t : Tables) (d : Database) : Database :=
  {| committed := t; working := t; io_budget := io_budget d |}.

Definition stocks_nonneg (t : Tables) : Prop :=
  Forall (fun p => 0 <= quantity_in_stock p) (products t).

(** A caller that issues [adjust_stock] calls one after the other and
    carries on when one of them raises. *)
Fixpoint adjust_stock_calls (calls : list (Z * Z)) (d : Database)
    : Database :=
  match calls with
  | [] => d
  | (product_id, delta) :: calls' =>
      adjust_stock_calls calls' (snd (adjust_stock product_id delta d))
  end.

(** One turn of the loop of [record_sale], on the tables. *)
Definition sale_step (sale : Z) (t : Tables) (it : LineItem) : Tables :=
  sql_update_stock (item_product_id it) (- item_quantity it)
    (sql_insert_sale_item (sale_item_row sale it) t).

(** The product rows after the stock updates of [record_sale], item by
    item. *)
Definition decrement_all (its : list LineItem) (ps : list ProductRow)
    : list ProductRow :=
  fold_left
    (fun ps it => map (update_row (item_product_id it) (- item_quantity it)) ps)
    its ps.

(** What a sale of items of pairwise different products does to one
    product row. *)
Definition sold_row (its : list LineItem) (p : ProductRow) : ProductRow :=
  match find (fun it => item_product_id it =? row_id p) its with
  | Some it =>
      if item_quantity it <=? quantity_in_stock p
      then set_stock (quantity_in_stock p - item_quantity it) p
      else p
  | None => p
  end.

(** The amount [apply_discount_tax] charges for a cart. *)
Definition charged (c : Cart) (discount : num) : num :=
  py_max (round2 (num_sub (subtotal c) discount)) (Int 0).

Definition quantities_positive (c : Cart) : Prop :=
  Forall (fun ci => 0 < qty ci) (items c).

(** The quantity a cart holds of a product id (0 without a line). *)
Definition cart_qty (product_id : Z) (c : Cart) : Z :=
  match find (fun ci => prod_id (product ci) =? product_id) (items c) with
  | Some ci => qty ci
  | None => 0
  end.

Definition cart_ids (c : Cart) : list Z :=
  map (fun ci => prod_id (product ci)) (items c).

(** The lines of a cart for one product id. *)
Definition lines_of (product_id : Z) (c : Cart) : list CartItem :=
  filter (fun ci => prod_id (product ci) =? product_id) (items c).

(** The carts a [Cart()] reaches through its methods. *)
Inductive reachable_cart : Cart -> Prop :=
| reach_new : reachable_cart empty_cart
| reach_add p q c : reachable_cart c -> reachable_cart (add_item p q c)
| reach_remove i c : reachable_cart c -> reachable_cart (remove_item i c)
| reach_clear c : reachable_cart c -> reachable_cart (clear c).

(** ** database.py: the other methods *)

(** [SELECT * FROM products WHERE id = ?], then [fetchone()]. *)
Definition sql_select_product_by_id (product_id : Z) (t : Tables)
    : option ProductRow :=
  find (fun p => row_id p =? product_id) (products t).

Definition get_product_by_id (product_id : Z)
    : M Database (option ProductRow) :=
  query (sql_select_product_by_id product_id).

(** What the UPDATE of [update_product] does to one row. *)
Definition rewrite_row (product_id : Z) (name : string) (price : F) (qty : Z)
    (p : ProductRow) : ProductRow :=
  if row_id p =? product_id
  then {| row_id := row_id p; row_barcode := row_barcode p; row_name := name;
          row_price := price; quantity_in_stock := qty |}
  else p.

(** [UPDATE products SET name = ?, price = ?, quantity_in_stock = ?
    WHERE id = ?] *)
Definition sql_update_product (product_id : Z) (name : string) (price : F)
    (qty : Z) (t : Tables) : Tables :=
  set_products (map (rewrite_row product_id name price qty) (products t)) t.

Definition update_product (product_id : Z) (name : string) (price : F)
    (qty : Z) : M Database unit :=
  execute (sql_update_product product_id name price qty) ;;
  commit.

(** [SELECT * FROM products] *)
Definition list_inventory : M Database (list ProductRow) :=
  query products.

(** *** LIKE *)

(** SQLite folds the case of the ASCII letters only. *)
Definition lower (c : ascii) : ascii :=
  let n := nat_of_ascii c in
  if ((65 <=? n) && (n <=? 90))%nat then ascii_of_nat (n + 32) else c.

(** [s LIKE pat], without ESCAPE: [%] stands for any run of characters,
    [_] for any one character, any other character for itself up to the
    case of ASCII letters.  The characters are those of [string], one
    byte each: text outside ASCII, where [_] stands for a whole UTF-8
    sequence, is not modelled. *)
Fixpoint like (pat s : string) : bool :=
  match pat with
  | EmptyString =>
      match s with
      | EmptyString => true
      | String _ _ => false
      end
  | String c pat' =>
      if (c =? "%")%char
      then (fix skip (s : string) : bool :=
              like pat' s ||
              match s with
              | EmptyString => false
              | String _ s' => skip s'
              end) s
      else
        match s with
        | EmptyString => false
        | String d s' =>
            ((c =? "_")%char || (lower c =? lower d)%char) && like pat' s'
        end
  end.

(** [kw = f"%{keyword}%"], then
    [SELECT * FROM products WHERE name LIKE ? OR barcode LIKE ?] *)
Definition sql_search_products (keyword : string) (t : Tables)
    : list ProductRow :=
  let kw := ("%" ++ keyword ++ "%")%string in
  filter (fun p => like kw (row_name p) || like kw (row_barcode p)) (products t).

Definition search_products (keyword : string) : M Database (list ProductRow) :=
  query (sql_search_products keyword).

(** *** ORDER BY *)

(** The rows in the order [le] of their keys; rows of equal keys, whose
    order SQL leaves open, stay in the order of the scan. *)
Fixpoint insert_sorted {A} (le : A -> A -> bool) (x : A) (l : list A)
    : list A :=
  match l with
  | [] => [x]
  | y :: l' => if le x y then x :: l else y :: insert_sorted le x l'
  end.

Definition order_by {A} (le : A -> A -> bool) (l : list A) : list A :=
  fold_right (insert_sorted le) [] l.

(** [SELECT * FROM products WHERE quantity_in_stock <= ?
    ORDER BY quantity_in_stock ASC] *)
Definition sql_low_stock (threshold : Z) (t : Tables) : list ProductRow :=
  order_by (fun p q => quantity_in_stock p <=? quantity_in_stock q)
    (filter (fun p => quantity_in_stock p <=? threshold) (products t)).

Definition get_low_stock_products (threshold : Z)
    : M Database (list ProductRow) :=
  query (sql_low_stock threshold).

(** The truth value of an optional [str] argument: [None] and the empty
    string are false. *)
Definition given (o : option string) : bool :=
  match o with
  | None => false
  | Some s => negb (s =? "")%string
  end.

Definition text (o : option string) : string :=
  match o with
  | None => ""
  | Some s => s
  end.

(** The query [list_sales] builds: [SELECT * FROM sales], then
    [WHERE timestamp BETWEEN ? AND ?], [WHERE timestamp >= ?] or
    [WHERE timestamp <= ?], then [ORDER BY timestamp DESC].  TEXT values
    compare byte by byte. *)
Definition sql_list_sales (date_from date_to : option string) (t : Tables)
    : list SaleRow :=
  let wanted (s : SaleRow) : bool :=
    if given date_from && given date_to
    then (text date_from <=? sale_timestamp s)%string
         && (sale_timestamp s <=? text date_to)%string
    else if given date_from then (text date_from <=? sale_timestamp s)%string
    else if given date_to then (sale_timestamp s <=? text date_to)%string
    else true in
  order_by (fun a b => (sale_timestamp b <=? sale_timestamp a)%string)
    (filter wanted (sales t)).

Definition list_sales (date_from date_to : option string)
    : M Database (list SaleRow) :=
  query (sql_list_sales date_from date_to).

(** ** ui.py: the handlers that change the cart or the products *)

(** The loop of [_edit_cart_quantity] over the lines: [None] when the
    "Stock Error" box is shown and the handler returns. *)
Fixpoint set_line_qty (item_id current_qty new_qty : Z) (l : list CartItem)
    : option (list CartItem) :=
  match l with
  | [] => Some []
  | ci :: l' =>
      if prod_id (product ci) =? item_id
      then
        if prod_stock (product ci) + current_qty <? new_qty then None
        else Some ({| product := product ci; qty := new_qty |} :: l')
      else option_map (cons ci) (set_line_qty item_id current_qty new_qty l')
  end.

Inductive edit_result : Type :=
| EditCancelled
| EditStockError
| EditUpdated.

(** [item_id] and [current_qty] are read from the selected row of the
    cart view; [answer] is what [askinteger(..., minvalue=1)] returns:
    [None] when the dialog is cancelled. *)
Definition _edit_cart_quantity (item_id current_qty : Z) (answer : option Z)
    : CashierSystem -> edit_result * CashierSystem :=
  fun s =>
    match answer with
    | None => (EditCancelled, s)
    | Some new_qty =>
        match set_line_qty item_id current_qty new_qty (items (cart s)) with
        | None => (EditStockError, s)
        | Some l => (EditUpdated, {| db := db s; cart := {| items := l |} |})
        end
    end.

(** [selected] holds the ids of the selected rows of the cart view. *)
Definition _remove_selected (selected : list Z) (s : CashierSystem)
    : CashierSystem :=
  {| db := db s;
     cart := fold_left (fun c item_id => remove_item item_id c) selected (cart s) |}.



(** ** utils.py: import_inventory_csv *)

(** A row of the file, as [read_csv] hands it to the loop: the barcode and
    the name, [float(row['price'])] and [int(row['quantity_in_stock'])]. *)
Record CsvRow : Type := {
  csv_barcode : string;
  csv_name : string;
  csv_price : F;
  csv_quantity : Z
}.

(** [rows] stands for [pd.read_csv(file_path)]. *)
Definition import_inventory_csv (rows : list CsvRow) : M Database Z :=
  for_each rows (fun row =>
    existing <- get_product_by_barcode (csv_barcode row) ;;
    match existing with
    | Some r =>
        update_product (row_id r) (csv_name row) (csv_price row)
          (csv_quantity row)
    | None =>
        add_product (csv_barcode row) (csv_name row) (csv_price row)
          (csv_quantity row)
    end) ;;
  ret (Z.of_nat (List.length rows)).

(** ** Vocabulary of the further properties *)

(** A call of a method of [Database]. *)
Inductive db_call : Type :=
| Call_add_product (barcode name : string) (price : F) (qty : Z)
| Call_get_product_by_barcode (barcode : string)
| Call_get_product_by_id (product_id : Z)
| Call_delete_product (product_id : Z)
| Call_search_products (keyword : string)
| Call_update_product (product_id : Z) (name : string) (price : F) (qty : Z)
| Call_adjust_stock (product_id delta : Z)
| Call_list_inventory
| Call_record_sale (ts : string) (its : list LineItem) (total : num)
| Call_list_sales (date_from date_to : option string)
| Call_get_sale_details (id : Z)
| Call_get_low_stock_products (threshold : Z).

(** The connection after the call, whether it returned or raised. *)
Definition run_call (c : db_call) (d : Database) : Database :=
  match c with
  | Call_add_product barcode name price qty =>
      snd (add_product barcode name price qty d)
  | Call_get_product_by_barcode barcode => snd (get_product_by_barcode barcode d)
  | Call_get_product_by_id product_id => snd (get_product_by_id product_id d)
  | Call_delete_product product_id => snd (delete_product product_id d)
  | Call_search_products keyword => snd (search_products keyword d)
  | Call_update_product product_id name price qty =>
      snd (update_product product_id name price qty d)
  | Call_adjust_stock product_id delta => snd (adjust_stock product_id delta d)
  | Call_list_inventory => snd (list_inventory d)
  | Call_record_sale ts its total => snd (record_sale ts its total d)
  | Call_list_sales date_from date_to => snd (list_sales date_from date_to d)
  | Call_get_sale_details id => snd (get_sale_details id d)
  | Call_get_low_stock_products threshold =>
      snd (get_low_stock_products threshold d)
  end.

Definition run_calls (cs : list db_call) (d : Database) : Database :=
  fold_left (fun d c => run_call c d) cs d.

(** The stock a call writes without a guard, if it writes one. *)
Definition stock_written (c : db_call) : option Z :=
  match c with
  | Call_add_product _ _ _ qty => Some qty
  | Call_update_product _ _ _ qty => Some qty
  | _ => None
  end.

(** Product ids and barcodes are keys, and no id is above the counter. *)
Definition products_keyed (t : Tables) : Prop :=
  NoDup (map row_id (products t)) /\
  NoDup (map row_barcode (products t)) /\
  Forall (fun p => row_id p <= products_seq t) (products t).

(** Sale ids are keys below the counter, and every line item belongs to a
    sale. *)
Definition sales_keyed (t : Tables) : Prop :=
  NoDup (map sale_id (sales t)) /\
  Forall (fun s => sale_id s <= sales_seq t) (sales t) /\
  Forall (fun si => In (si_sale_id si) (map sale_id (sales t))) (sale_items t).

Definition consistent (t : Tables) : Prop := products_keyed t /\ sales_keyed t.

(** [t] holds the sales and the line items of [t0], in their order, and
    possibly more after them. *)
Definition extends (t0 t : Tables) : Prop :=
  (exists more, sales t = sales t0 ++ more) /\
  (exists more, sale_items t = sale_items t0 ++ more).

(** No product has the id, and none will get it from the counter. *)
Definition id_retired (product_id : Z) (t : Tables) : Prop :=
  product_id <= products_seq t /\
  forall p, In p (products t) -> row_id p <> product_id.

(** A property of the committed and the working tables of a connection. *)
Definition on_tables (R : Tables -> Tables -> Prop) (d : Database) : Prop :=
  R (committed d) (working d).

(** [m], started where [pre] holds, returns in a state of [post] or raises
    in a state of [inv]. *)
Definition hoare {S A} (pre : S -> Prop) (m : M S A) (post : A -> S -> Prop)
    (inv : S -> Prop) : Prop :=
  forall s,
    pre s ->
    match m s with
    | (Returned a, s') => post a s'
    | (Raised _, s') => inv s'
    end.

Fixpoint lower_string (s : string) : string :=
  match s with
  | EmptyString => EmptyString
  | String c s' => String (lower c) (lower_string s')
  end.

(** [sub] occurs in [s], up to the case of ASCII letters. *)
Definition contains_nocase (sub s : string) : Prop :=
  exists pre mid post,
    s = (pre ++ mid ++ post)%string /\
    lower_string mid = lower_string sub.

(** No [%] and no [_] in the string. *)
Fixpoint literal (s : string) : bool :=
  match s with
  | EmptyString => true
  | String c s' => negb (c =? "%")%char && negb (c =? "_")%char && literal s'
  end.

(** What one turn of the loop of [import_inventory_csv] does to the
    tables. *)
Definition upsert_row (line : CsvRow) (t : Tables) : Tables :=
  match sql_select_product_by_barcode (csv_barcode line) t with
  | Some r =>
      sql_update_product (row_id r) (csv_name line) (csv_price line)
        (csv_quantity line) t
  | None =>
      match sql_insert_product (csv_barcode line) (csv_name line)
              (csv_price line) (csv_quantity line) t with
      | Some t' => t'
      | None => t
      end
  end.

(** The last line of the file with the barcode. *)
Definition last_line (barcode : string) (lines : list CsvRow) : option CsvRow :=
  find (fun line => (csv_barcode line =? barcode)%string) (rev lines).

(** The rows [get_sale_details] joins for a sale [sale] of the lines of
    cart [c] against the product rows [ps]. *)
Definition read_back (sale : Z) (c : Cart) (ps : list ProductRow)
    : list SaleItemDetail :=
  flat_map
    (fun ci =>
       map (fun p =>
              {| d_sale_id := sale; d_product_id := prod_id (product ci);
                 d_quantity := qty ci; d_line_total := line_total ci;
                 d_name := row_name p; d_barcode := row_barcode p;
                 d_price := row_price p |})
           (filter (fun p => prod_id (product ci) =? row_id p) ps))
    (items c).

(** A joined row after the product [product_id] got a new name and
    price. *)
Definition relabel (product_id : Z) (name : string) (price : F)
    (r : SaleItemDetail) : SaleItemDetail :=
  if d_product_id r =? product_id
  then {| d_sale_id := d_sale_id r; d_product_id := d_product_id r;
          d_quantity := d_quantity r; d_line_total := d_line_total r;
          d_name := name; d_barcode := d_barcode r; d_price := price |}
  else r.

(** ** ui.py: a session at the till *)

(** [view_empty] tells whether the cart view has no rows, [confirmed] is
    the answer to the "Clear Cart" question. *)
Definition _clear_cart (view_empty confirmed : bool) (s : CashierSystem)
    : CashierSystem :=
  if view_empty then s
  else if confirmed then {| db := db s; cart := clear (cart s) |}
  else s.

(** What the call of [checkout] inside [_checkout] came to; the receipt
    file the handler writes afterwards is not modelled. *)
Inductive checkout_result : Type :=
| CartViewEmpty
| CheckoutError (e : exn)
| SaleRecorded (r : Receipt).

(** [discount] is the value of the discount field. *)
Definition _checkout (view_empty : bool) (ts_sale ts : string) (discount : F)
    : CashierSystem -> checkout_result * CashierSystem :=
  fun s =>
    if view_empty then (CartViewEmpty, s)
    else
      match checkout ts_sale ts (Float discount) (Int 0) s with
      | (Returned r, s') => (SaleRecorded r, s')
      | (Raised e, s') => (CheckoutError e, s')
      end.

(** The handlers of the sale tab that change the cart, with what they
    read from the widgets and the dialogs. *)
Inductive till_event : Type :=
| Ev_add_to_cart (bc : string) (qt : Z)
| Ev_remove_selected (selected : list Z)
| Ev_clear_cart (view_empty confirmed : bool)
| Ev_edit_cart_quantity (item_id current_qty : Z) (answer : option Z)
| Ev_checkout (view_empty : bool) (ts_sale ts : string) (discount : F).

Definition run_event (ev : till_event) (s : CashierSystem) : CashierSystem :=
  match ev with
  | Ev_add_to_cart bc qt => snd (_add_to_cart bc qt s)
  | Ev_remove_selected selected => _remove_selected selected s
  | Ev_clear_cart view_empty confirmed => _clear_cart view_empty confirmed s
  | Ev_edit_cart_quantity item_id current_qty answer =>
      snd (_edit_cart_quantity item_id current_qty answer s)
  | Ev_checkout view_empty ts_sale ts discount =>
      snd (_checkout view_empty ts_sale ts discount s)
  end.

Definition run_events (evs : list till_event) (s : CashierSystem)
    : CashierSystem :=
  fold_left (fun s ev => run_event ev s) evs s.

(** [askinteger(..., minvalue=1)] hands out no answer below 1. *)
Definition answer_allowed (ev : till_event) : Prop :=
  match ev with
  | Ev_edit_cart_quantity _ _ (Some new_qty) => 1 <= new_qty
  | _ => True
  end.

(** The calls a session at the till makes on the database: lookups by
    barcode, and sales of positive quantities of pairwise different
    products. *)
Definition till_call (c : db_call) : Prop :=
  match c with
  | Call_get_product_by_barcode _ => True
  | Call_record_sale _ its _ =>
      Forall (fun it => 0 < item_quantity it) its /\
      NoDup (map item_product_id its)
  | _ => False
  end.

End Engine.

(** * A shop, on binary64 floats *)

Module Shop.

Import Binary64.

(** Product "A1", price 9.99. *)
Definition a1_row (stock : Z) : @ProductRow spec_float :=
  {| row_id := 1; row_barcode := "A1"; row_name := "Widget";
     row_price := cents 999; quantity_in_stock := stock |}.

(** Product "B2", price 2.50. *)
Definition b2_row (stock : Z) : @ProductRow spec_float :=
  {| row_id := 2; row_barcode := "B2"; row_name := "Gadget";
     row_price := cents 250; quantity_in_stock := stock |}.

(** The two products with the given stocks, and no sale yet. *)
Definition shelf (a1_stock b2_stock : Z) : @Tables spec_float :=
  {| products := [a1_row a1_stock; b2_row b2_stock]; products_seq := 2;
     sales := []; sales_seq := 0; sale_items := [] |}.

(** A connection with nothing pending. *)
Definition open_db (t : @Tables spec_float) (budget : option nat)
    : @Database spec_float :=
  {| committed := t; working := t; io_budget := budget |}.

(** "A1" as it was read when its stock was 5. *)
Definition a1 : @Product spec_float := Product_of_row (a1_row 5).

Definition b2 : @Product spec_float := Product_of_row (b2_row 4).

(** The cart after [scan_and_add "A1" 3]. *)
Definition cart3 : @Cart spec_float :=
  {| items := [{| product := a1; qty := 3 |}] |}.

Definition five : @num spec_float := Float (cents 500).

(** The sale of three "A1" and one "B2". *)
Definition basket : list (@LineItem spec_float) :=
  [{| item_product_id := 1; item_quantity := 3; item_line_total := cents 2997 |};
   {| item_product_id := 2; item_quantity := 1; item_line_total := cents 250 |}].

(** The cart holds three "A1", read when the stock was 5; the stock has
    dropped to 2 since. *)
Definition till_short : @CashierSystem spec_float :=
  {| db := open_db (shelf 2 4) None; cart := cart3 |}.

(** The same cart on a storage layer that fails at its second call. *)
Definition till_failing : @CashierSystem spec_float :=
  {| db := open_db (shelf 5 4) (Some 1%nat); cart := cart3 |}.

(** The connection [record_sale] leaves behind on [till_failing]: the
    header is pending, nothing is committed. *)
Definition db_failed : @Database spec_float :=
  {| committed := shelf 5 4;
     working := snd (sql_insert_sale "12:00:00" (Float (cents 2497)) (shelf 5 4));
     io_budget := Some 0%nat |}.

Definition till_empty : @CashierSystem spec_float :=
  new_system (open_db (shelf 2 4) None).

(** Three "A1" in the cart and the stock to cover them. *)
Definition till_ready : @CashierSystem spec_float :=
  {| db := open_db (shelf 5 4) None; cart := cart3 |}.

(** The shop after the sale of [basket]: sale 1 has a line for "A1" and a
    line for "B2". *)
Definition db_after_sale : @Database spec_float :=
  snd (record_sale "12:00:00" basket (Float (cents 3247))
         (open_db (shelf 5 4) None)).

(** A price list with a product that is on the shelf and, twice, one
    that is not. *)
Definition price_list : list (@CsvRow spec_float) :=
  [{| csv_barcode := "A1"; csv_name := "Widget XL"; csv_price := cents 1099;
      csv_quantity := 8 |};
   {| csv_barcode := "C3"; csv_name := "Gizmo"; csv_price := cents 100;
      csv_quantity := 7 |};
   {| csv_barcode := "C3"; csv_name := "Gizmo"; csv_price := cents 120;
      csv_quantity := 6 |}].

(** The calls of a day, with a barcode that is taken, a sale, a deletion
    and a decrement that does not fit. *)
Definition day_calls : list (@db_call spec_float) :=
  [Call_add_product "C3" "Gizmo" (cents 100) 7;
   Call_add_product "A1" "Other" (cents 100) 1;
   Call_record_sale "2024-01-31T10:30:00" basket (Float (cents 3247));
   Call_delete_product 2;
   Call_update_product 1 "Widget XL" (cents 1099) 0;
   Call_adjust_stock 3 (-9);
   Call_get_sale_details 1].

Definition sale_jan30 : @SaleRow spec_float :=
  {| sale_id := 1; sale_timestamp := "2024-01-30T09:15:00";
     sale_total := cents 999 |}.

Definition sale_jan31 : @SaleRow spec_float :=
  {| sale_id := 2; sale_timestamp := "2024-01-31T10:30:00";
     sale_total := cents 250 |}.

Definition sale_feb01 : @SaleRow spec_float :=
  {| sale_id := 3; sale_timestamp := "2024-02-01T08:00:00";
     sale_total := cents 500 |}.

(** The shelf with three sales on the books. *)
Definition books : @Database spec_float :=
  open_db
    {| products := [a1_row 5; b2_row 4]; products_seq := 2;
       sales := [sale_jan30; sale_jan31; sale_feb01]; sales_seq := 3;
       sale_items :=
         [{| si_sale_id := 1; si_product_id := 1; si_quantity := 1;
             si_line_total := cents 999 |};
          {| si_sale_id := 2; si_product_id := 2; si_quantity := 1;
             si_line_total := cents 250 |};
          {| si_sale_id := 3; si_product_id := 2; si_quantity := 2;
             si_line_total := cents 500 |}] |}
    None.

(** What [get_sale_details 1] returns on [db_after_sale]. *)
Definition sale_one_details : @SaleDetails spec_float :=
  {| details_sale :=
       {| sale_id := 1; sale_timestamp := "12:00:00";
          sale_total := cents 3247 |};
     details_items :=
       [{| d_sale_id := 1; d_product_id := 1; d_quantity := 3;
           d_line_total := cents 2997; d_name := "Widget"; d_barcode := "A1";
           d_price := cents 999 |};
        {| d_sale_id := 1; d_product_id := 2; d_quantity := 1;
           d_line_total := cents 250; d_name := "Gadget"; d_barcode := "B2";
           d_price := cents 250 |}] |}.

(** A session at the till: "A1" twice, "B2", a quantity edited up to the
    bound, "B2" removed, a refused quantity, and the checkout. *)
Definition till_session : list (@till_event spec_float) :=
  [Ev_add_to_cart "A1" 3;
   Ev_add_to_cart "A1" 2;
   Ev_add_to_cart "B2" 1;
   Ev_edit_cart_quantity 1 5 (Some 10);
   Ev_remove_selected [2];
   Ev_add_to_cart "B2" 0;
   Ev_clear_cart false false;
   Ev_checkout false "12:00:00" "12:00:01" (cents 500);
   Ev_add_to_cart "B2" 4].

End Shop.

(** * Properties of the engine *)

Section Properties.

Context {F : Type} {PF : PyFloat F}.

Implicit Types (d : @Database F) (s : @CashierSystem F) (c : @Cart F).
Implicit Types (t : @Tables F) (row : @ProductRow F).
Implicit Types (its : list (@LineItem F)) (ps : list (@ProductRow F)).
Implicit Types (l : list (@CartItem F)) (discount tax_rate total : @num F).

(** ** The method monad *)

Lemma bind_returned {S A B} (m : M S A) (k : A -> M S B) (s : S) a (s' : S) :
  m s = (Returned a, s') -> bind m k s = k a s'.
Proof. unfold bind. intros ->. reflexivity. Qed.

(** ** The connection *)

Lemma io_healthy d : healthy d -> io d = (Returned tt, d).
Proof. unfold healthy, io. intros ->. reflexivity. Qed.

Lemma query_healthy {A} (q : Tables -> A) d :
  healthy d -> query q d = (Returned (q (working d)), d).
Proof.
  intros H. unfold query. rewrite (bind_returned _ _ _ _ _ (io_healthy d H)).
  reflexivity.
Qed.

Lemma execute_healthy stmt d :
  healthy d ->
  execute stmt d = (Returned tt, set_working (stmt (working d)) d).
Proof.
  intros H. unfold execute. rewrite (bind_returned _ _ _ _ _ (io_healthy d H)).
  reflexivity.
Qed.

Lemma execute_returning_healthy {A} (stmt : Tables -> A * Tables) d :
  healthy d ->
  execute_returning stmt d
  = (Returned (fst (stmt (working d))),
     set_working (snd (stmt (working d))) d).
Proof.
  intros H. unfold execute_returning.
  rewrite (bind_returned _ _ _ _ _ (io_healthy d H)). reflexivity.
Qed.

Lemma commit_healthy d :
  healthy d -> commit d = (Returned tt, synced (working d) d).
Proof.
  intros H. unfold commit. rewrite (bind_returned _ _ _ _ _ (io_healthy d H)).
  reflexivity.
Qed.

(** ** adjust_stock *)

Lemma adjust_stock_healthy product_id delta d :
  healthy d ->
  adjust_stock product_id delta d
  = (Returned tt, synced (sql_update_stock product_id delta (working d)) d).
Proof.
  intros H. unfold adjust_stock.
  rewrite (bind_returned _ _ _ _ _ (execute_healthy _ d H)).
  rewrite commit_healthy by exact H. reflexivity.
Qed.

Lemma update_row_id product_id delta (p : @ProductRow F) :
  row_id (update_row product_id delta p) = row_id p.
Proof. unfold update_row. destruct (_ && _); reflexivity. Qed.

Lemma update_row_hit product_id delta (p : @ProductRow F) :
  row_id p = product_id -> 0 <= quantity_in_stock p + delta ->
  update_row product_id delta p = set_stock (quantity_in_stock p + delta) p.
Proof.
  intros Hid Hge. unfold update_row.
  rewrite (proj2 (Z.eqb_eq _ _) Hid), (proj2 (Z.leb_le _ _) Hge).
  reflexivity.
Qed.

Lemma update_row_miss product_id delta (p : @ProductRow F) :
  row_id p <> product_id \/ quantity_in_stock p + delta < 0 ->
  update_row product_id delta p = p.
Proof.
  intros [Hid | Hlt]; unfold update_row.
  - rewrite (proj2 (Z.eqb_neq _ _) Hid). reflexivity.
  - rewrite (proj2 (Z.leb_gt _ _) Hlt), andb_false_r. reflexivity.
Qed.

Lemma update_row_nonneg product_id delta (p : @ProductRow F) :
  0 <= quantity_in_stock p ->
  0 <= quantity_in_stock (update_row product_id delta p).
Proof.
  intros Hp. unfold update_row.
  destruct (row_id p =? product_id); simpl; [ | exact Hp ].
  destruct (0 <=? quantity_in_stock p + delta) eqn:E; simpl; [ | exact Hp ].
  apply Z.leb_le. exact E.
Qed.

Lemma sql_update_stock_nonneg product_id delta t :
  stocks_nonneg t -> stocks_nonneg (sql_update_stock product_id delta t).
Proof.
  unfold stocks_nonneg, sql_update_stock. simpl. intros H.
  apply Forall_map. revert H. apply Forall_impl.
  intros p. apply update_row_nonneg.
Qed.

(** Whatever the storage layer does, a statement leaves [committed] as it
    was and [working] either as it was or updated. *)
Lemma execute_tables stmt d :
  committed (snd (execute stmt d)) = committed d /\
  (working (snd (execute stmt d)) = working d \/
   working (snd (execute stmt d)) = stmt (working d)).
Proof.
  unfold execute, bind, io, modify.
  destruct (io_budget d) as [[|n]|]; simpl; auto.
Qed.

Lemma commit_tables d :
  (committed (snd (commit d)) = committed d \/
   committed (snd (commit d)) = working d) /\
  working (snd (commit d)) = working d.
Proof.
  unfold commit, bind, io, modify.
  destruct (io_budget d) as [[|n]|]; simpl; auto.
Qed.

Lemma adjust_stock_nonneg product_id delta d :
  stocks_nonneg (committed d) -> stocks_nonneg (working d) ->
  stocks_nonneg (committed (snd (adjust_stock product_id delta d))) /\
  stocks_nonneg (working (snd (adjust_stock product_id delta d))).
Proof.
  intros Hc Hw. unfold adjust_stock, bind.
  pose proof (execute_tables (sql_update_stock product_id delta) d) as [Ec Ew].
  destruct (execute (sql_update_stock product_id delta) d) as [[[]|e] d1];
    simpl in Ec, Ew.
  - assert (Hw1 : stocks_nonneg (working d1)).
    { destruct Ew as [-> | ->]; [ exact Hw | ].
      apply sql_update_stock_nonneg, Hw. }
    pose proof (commit_tables d1) as [Cc Cw].
    rewrite Cw. split; [ | exact Hw1 ].
    destruct Cc as [-> | ->]; [ rewrite Ec; exact Hc | exact Hw1 ].
  - simpl. rewrite Ec. split; [ exact Hc | ].
    destruct Ew as [-> | ->]; [ exact Hw | ].
    apply sql_update_stock_nonneg, Hw.
Qed.

Lemma adjust_stock_calls_nonneg calls :
  forall d,
    stocks_nonneg (committed d) -> stocks_nonneg (working d) ->
    stocks_nonneg (committed (adjust_stock_calls calls d)) /\
    stocks_nonneg (working (adjust_stock_calls calls d)).
Proof.
  induction calls as [|[product_id delta] calls IH]; intros d Hc Hw; simpl.
  - split; assumption.
  - destruct (adjust_stock_nonneg product_id delta d Hc Hw) as [Hc' Hw'].
    apply IH; assumption.
Qed.

(** C2 (amended): [adjust_stock] returns normally in both cases and
    reports nothing.  It replaces the stock of the product with id
    [product_id] by [stock + delta] exactly when [stock + delta >= 0]; when
    [stock + delta < 0] (or no product has that id) no product row
    changes.  Consequently, along every sequence of [adjust_stock] calls
    that starts from non-negative stocks, every stock stays non-negative,
    whether or not the storage layer fails on the way. *)
Theorem adjust_stock_guarded product_id delta d :
  healthy d ->
  let d' := snd (adjust_stock product_id delta d) in
  fst (adjust_stock product_id delta d) = Returned tt /\
  committed d' = working d' /\
  products (working d') = map (update_row product_id delta) (products (working d)) /\
  (forall p, In p (products (working d)) ->
     (row_id p = product_id /\ 0 <= quantity_in_stock p + delta ->
      update_row product_id delta p = set_stock (quantity_in_stock p + delta) p) /\
     (row_id p <> product_id \/ quantity_in_stock p + delta < 0 ->
      update_row product_id delta p = p)) /\
  ((forall p, In p (products (working d)) -> row_id p = product_id ->
      quantity_in_stock p + delta < 0) ->
   products (working d') = products (working d)) /\
  (forall calls d0,
     stocks_nonneg (committed d0) -> stocks_nonneg (working d0) ->
     stocks_nonneg (committed (adjust_stock_calls calls d0)) /\
     stocks_nonneg (working (adjust_stock_calls calls d0))).
Proof.
  intros H d'. subst d'. rewrite (adjust_stock_healthy _ _ _ H). simpl.
  repeat split.
  - intros [Hid Hge]. apply update_row_hit; assumption.
  - apply update_row_miss.
  - intros Hshort. rewrite <- (map_id (products (working d))) at 2.
    apply map_ext_in. intros p Hp. apply update_row_miss.
    destruct (Z.eq_dec (row_id p) product_id) as [E|E]; [ right | left; exact E ].
    apply Hshort; assumption.
  - apply adjust_stock_calls_nonneg; assumption.
  - apply adjust_stock_calls_nonneg; assumption.
Qed.

(** ** record_sale *)

Lemma sale_loop_healthy sale its :
  forall d,
    healthy d ->
    exists d',
      for_each its (fun it =>
        execute (sql_insert_sale_item (sale_item_row sale it)) ;;
        adjust_stock (item_product_id it) (- item_quantity it)) d
      = (Returned tt, d') /\
      io_budget d' = io_budget d /\
      working d' = fold_left (sale_step sale) its (working d).
Proof.
  induction its as [|it its IH]; intros d H; simpl.
  - exists d. repeat split.
  - rewrite (bind_returned _ _ d tt
               (synced (sale_step sale (working d) it) d)).
    + destruct (IH (synced (sale_step sale (working d) it) d) H)
        as (d' & E & Hb & Hw).
      exists d'. repeat split; assumption.
    + rewrite (bind_returned _ _ _ _ _ (execute_healthy _ d H)).
      rewrite adjust_stock_healthy by exact H. reflexivity.
Qed.

Lemma sale_steps_tables sale its :
  forall t,
    products (fold_left (sale_step sale) its t) = decrement_all its (products t) /\
    products_seq (fold_left (sale_step sale) its t) = products_seq t /\
    sales (fold_left (sale_step sale) its t) = sales t /\
    sales_seq (fold_left (sale_step sale) its t) = sales_seq t /\
    sale_items (fold_left (sale_step sale) its t)
    = sale_items t ++ map (sale_item_row sale) its.
Proof.
  induction its as [|it its IH]; intros t; simpl.
  - rewrite app_nil_r. repeat split.
  - destruct (IH (sale_step sale t it)) as (Hp & Hps & Hs & Hss & Hi).
    rewrite Hp, Hps, Hs, Hss, Hi. simpl. rewrite <- app_assoc.
    repeat split.
Qed.

Lemma decrement_all_nonneg its :
  forall ps,
    Forall (fun p => 0 <= quantity_in_stock p) ps ->
    Forall (fun p => 0 <= quantity_in_stock p) (decrement_all its ps).
Proof.
  unfold decrement_all.
  induction its as [|it its IH]; intros ps H; simpl; [ exact H | ].
  apply IH, Forall_map. revert H. apply Forall_impl.
  intros p. apply update_row_nonneg.
Qed.

Lemma sold_row_cons it its p :
  ~ In (item_product_id it) (map item_product_id its) ->
  sold_row its (update_row (item_product_id it) (- item_quantity it) p)
  = sold_row (it :: its) p.
Proof.
  intros Hnot. unfold sold_row at 2. simpl.
  destruct (item_product_id it =? row_id p) eqn:E.
  - apply Z.eqb_eq in E.
    assert (Hnone : forall q : @ProductRow F, row_id q = row_id p ->
              find (fun it' => item_product_id it' =? row_id q) its = None).
    { intros q Hq. destruct (find _ its) as [it'|] eqn:Ef; [ | reflexivity ].
      apply find_some in Ef. destruct Ef as [Hin Heq]. apply Z.eqb_eq in Heq.
      exfalso. apply Hnot. rewrite E, <- Hq, <- Heq. apply in_map, Hin. }
    unfold sold_row. rewrite Hnone by apply update_row_id.
    unfold update_row. rewrite (proj2 (Z.eqb_eq _ _) (eq_sym E)). simpl.
    replace (quantity_in_stock p + - item_quantity it)
      with (quantity_in_stock p - item_quantity it) by lia.
    destruct (item_quantity it <=? quantity_in_stock p) eqn:L.
    + apply Z.leb_le in L.
      rewrite (proj2 (Z.leb_le 0 _)) by lia. reflexivity.
    + apply Z.leb_gt in L.
      rewrite (proj2 (Z.leb_gt 0 _)) by lia. reflexivity.
  - apply Z.eqb_neq in E. rewrite update_row_miss by (left; congruence).
    reflexivity.
Qed.

Lemma decrement_all_distinct its :
  NoDup (map item_product_id its) ->
  forall ps, decrement_all its ps = map (sold_row its) ps.
Proof.
  unfold decrement_all.
  induction its as [|it its IH]; intros Hnd ps; simpl.
  - symmetry. apply map_id.
  - inversion Hnd as [|x l Hnot Hnd']; subst.
    rewrite (IH Hnd'), map_map. apply map_ext.
    intros p. apply sold_row_cons, Hnot.
Qed.

Lemma record_sale_healthy ts its total d :
  healthy d ->
  record_sale ts its total d
  = (Returned tt,
     synced (fold_left (sale_step (sales_seq (working d) + 1)) its
               (snd (sql_insert_sale ts total (working d)))) d).
Proof.
  intros H. unfold record_sale.
  rewrite (bind_returned _ _ _ _ _ (execute_returning_healthy _ d H)).
  simpl fst.
  destruct (sale_loop_healthy (sales_seq (working d) + 1) its
              (set_working (snd (sql_insert_sale ts total (working d))) d) H)
    as (d' & E & Hb & Hw).
  rewrite (bind_returned _ _ _ _ _ E).
  assert (H' : healthy d') by (unfold healthy; rewrite Hb; exact H).
  rewrite (commit_healthy d' H'). unfold synced. rewrite Hb, Hw. reflexivity.
Qed.

(** C1 (amended): [record_sale] is not all-or-nothing and never rejects a
    sale for lack of stock.  When the storage layer serves every call,
    [record_sale] returns normally for every list of line items and has
    committed exactly one new sale header with the given total and one
    line-item row per item, in order.  The stock of an item's product is
    decremented by the item's quantity only when the stock found is at
    least that quantity and is left as it is otherwise; for items of
    pairwise different products each item is decided on the stock the
    call started with.  Non-negative stocks stay non-negative. *)
Theorem record_sale_always_records ts its total d :
  healthy d ->
  exists t',
    record_sale ts its total d = (Returned tt, synced t' d) /\
    sales t' = sales (working d) ++
      [{| sale_id := sales_seq (working d) + 1; sale_timestamp := ts;
          sale_total := to_float total |}] /\
    sale_items t' = sale_items (working d) ++
      map (sale_item_row (sales_seq (working d) + 1)) its /\
    products t' = decrement_all its (products (working d)) /\
    (NoDup (map item_product_id its) ->
     products t' = map (sold_row its) (products (working d))) /\
    (stocks_nonneg (working d) -> stocks_nonneg t').
Proof.
  intros H. eexists. split; [ apply record_sale_healthy, H | ].
  destruct (sale_steps_tables (sales_seq (working d) + 1) its
              (snd (sql_insert_sale ts total (working d))))
    as (Hp & _ & Hs & _ & Hi).
  unfold stocks_nonneg. rewrite Hp, Hs, Hi. simpl.
  repeat split.
  - intros Hnd. apply decrement_all_distinct, Hnd.
  - apply decrement_all_nonneg.
Qed.

(** ** Cart *)

Lemma merge_item_new p q l :
  ~ In (prod_id p) (map (fun ci => prod_id (product ci)) l) ->
  merge_item p q l = l ++ [{| product := p; qty := q |}].
Proof.
  induction l as [|ci l IH]; simpl; intros Hnot; [ reflexivity | ].
  destruct (prod_id (product ci) =? prod_id p) eqn:E.
  - apply Z.eqb_eq in E. exfalso. apply Hnot. left. exact E.
  - rewrite IH; [ reflexivity | ]. intros Hin. apply Hnot. right. exact Hin.
Qed.

Lemma merge_item_twice p q1 q2 l :
  merge_item p q2 (merge_item p q1 l) = merge_item p (q1 + q2) l.
Proof.
  induction l as [|ci l IH]; simpl.
  - rewrite Z.eqb_refl. reflexivity.
  - destruct (prod_id (product ci) =? prod_id p) eqn:E; simpl; rewrite E.
    + rewrite Z.add_assoc. reflexivity.
    + rewrite IH. reflexivity.
Qed.

(** The ids of the lines after [add_item]: unchanged on a merge, one more
    at the end otherwise. *)
Lemma merge_item_ids p q l :
  let ids := map (fun ci => prod_id (product ci)) in
  (In (prod_id p) (ids l) /\ ids (merge_item p q l) = ids l) \/
  (~ In (prod_id p) (ids l) /\ ids (merge_item p q l) = ids l ++ [prod_id p]).
Proof.
  induction l as [|ci l IH]; simpl.
  - right. split; [ tauto | reflexivity ].
  - destruct (prod_id (product ci) =? prod_id p) eqn:E; simpl.
    + apply Z.eqb_eq in E. left. split; [ left; exact E | reflexivity ].
    + apply Z.eqb_neq in E. simpl in IH.
      destruct IH as [[Hin Heq] | [Hnot Heq]]; rewrite Heq.
      * left. split; [ right; exact Hin | reflexivity ].
      * right. split; [ | reflexivity ]. intros [H | H]; [ exact (E H) | exact (Hnot H) ].
Qed.

Lemma NoDup_snoc (x : Z) (l : list Z) : NoDup l -> ~ In x l -> NoDup (l ++ [x]).
Proof.
  induction l as [|y l IH]; simpl; intros Hnd Hnot.
  - constructor; [ tauto | constructor ].
  - inversion Hnd as [|y' l' Hy Hnd']; subst. constructor.
    + rewrite in_app_iff. simpl. intros [H | [H | []]]; [ exact (Hy H) | ].
      apply Hnot. left. symmetry. exact H.
    + apply IH; [ exact Hnd' | ]. intros H. apply Hnot. right. exact H.
Qed.

Lemma filter_ids_NoDup (f : Z -> bool) l :
  NoDup (map (fun ci => prod_id (product ci)) l) ->
  NoDup (map (fun ci => prod_id (product ci))
             (filter (fun ci => f (prod_id (product ci))) l)).
Proof.
  induction l as [|ci l IH]; simpl; intros Hnd; [ constructor | ].
  inversion Hnd as [|y l' Hy Hnd']; subst.
  destruct (f (prod_id (product ci))); simpl; [ | apply IH, Hnd' ].
  constructor; [ | apply IH, Hnd' ].
  intros Hin. apply Hy. apply in_map_iff in Hin.
  destruct Hin as (cj & Hj & Hin). apply filter_In in Hin.
  apply in_map_iff. exists cj. split; [ exact Hj | apply Hin ].
Qed.

(** No cart built through the methods holds two lines of one product. *)
Lemma reachable_cart_NoDup c : reachable_cart c -> NoDup (cart_ids c).
Proof.
  unfold cart_ids. induction 1 as [|p q c _ IH|i c _ IH|c _ IH]; simpl.
  - constructor.
  - destruct (merge_item_ids p q (items c)) as [[_ E] | [Hnot E]];
      simpl in E; rewrite E; [ exact IH | ].
    apply NoDup_snoc; assumption.
  - apply (filter_ids_NoDup (fun id => negb (id =? i))), IH.
  - constructor.
Qed.

Lemma find_merge_item p q l :
  find (fun ci => prod_id (product ci) =? prod_id p) (merge_item p q l)
  = Some match find (fun ci => prod_id (product ci) =? prod_id p) l with
         | Some ci => {| product := product ci; qty := qty ci + q |}
         | None => {| product := p; qty := q |}
         end.
Proof.
  induction l as [|ci l IH]; simpl.
  - rewrite Z.eqb_refl. reflexivity.
  - destruct (prod_id (product ci) =? prod_id p) eqn:E; simpl; rewrite E.
    + reflexivity.
    + exact IH.
Qed.

Lemma cart_qty_add_item p q c :
  cart_qty (prod_id p) (add_item p q c) = cart_qty (prod_id p) c + q.
Proof.
  unfold cart_qty, add_item. simpl. rewrite find_merge_item.
  destruct (find _ (items c)); reflexivity.
Qed.

(** Under distinct ids, the lines of a product are the line [find] gives. *)
Lemma lines_of_NoDup i l :
  NoDup (map (fun ci => prod_id (product ci)) l) ->
  filter (fun ci => prod_id (product ci) =? i) l
  = match find (fun ci => prod_id (product ci) =? i) l with
    | Some ci => [ci]
    | None => []
    end.
Proof.
  induction l as [|ci l IH]; simpl; intros Hnd; [ reflexivity | ].
  inversion Hnd as [|y l' Hy Hnd']; subst.
  destruct (prod_id (product ci) =? i) eqn:E.
  - f_equal. apply Z.eqb_eq in E.
    destruct (filter _ l) as [|cj r] eqn:Ef; [ reflexivity | ].
    exfalso. apply Hy.
    assert (Hin : In cj (filter (fun ci0 => prod_id (product ci0) =? i) l))
      by (rewrite Ef; left; reflexivity).
    apply filter_In in Hin. destruct Hin as [Hin Hid]. apply Z.eqb_eq in Hid.
    apply in_map_iff. exists cj. split; [ congruence | exact Hin ].
  - apply IH, Hnd'.
Qed.

(** C6 (amended): for every cart, product and quantities [q1], [q2],
    adding the product with [q1] and then with [q2] gives the very cart
    that adding it once with [q1 + q2] gives, and raises the quantity the
    cart holds of the product by [q1 + q2].  For a cart built through the
    [Cart] methods, the result has exactly one line for the product; its
    quantity is what the cart already held plus [q1 + q2], hence [q1 + q2]
    only when the cart had no line for the product.  A cart built through
    the [Cart] methods never holds two lines of one product id. *)
Theorem add_item_merges p q1 q2 c :
  let c2 := add_item p q2 (add_item p q1 c) in
  c2 = add_item p (q1 + q2) c /\
  cart_qty (prod_id p) c2 = cart_qty (prod_id p) c + (q1 + q2) /\
  (reachable_cart c ->
   NoDup (cart_ids c) /\ NoDup (cart_ids c2) /\
   (exists ci, lines_of (prod_id p) c2 = [ci] /\
               qty ci = cart_qty (prod_id p) c + (q1 + q2)) /\
   (~ In (prod_id p) (cart_ids c) ->
    lines_of (prod_id p) c2 = [{| product := p; qty := q1 + q2 |}])).
Proof.
  intros c2.
  assert (E : c2 = add_item p (q1 + q2) c).
  { subst c2. unfold add_item. simpl. rewrite merge_item_twice. reflexivity. }
  split; [ exact E | ]. rewrite E.
  split; [ apply cart_qty_add_item | ].
  intros Hr.
  assert (Hnd : NoDup (cart_ids (add_item p (q1 + q2) c)))
    by (apply reachable_cart_NoDup, reach_add, Hr).
  split; [ apply reachable_cart_NoDup, Hr | ].
  split; [ exact Hnd | ].
  unfold lines_of. rewrite (lines_of_NoDup _ _ Hnd).
  unfold add_item. simpl. rewrite find_merge_item. split.
  - eexists. split; [ reflexivity | ]. unfold cart_qty.
    destruct (find _ (items c)); reflexivity.
  - intros Hnot.
    destruct (find (fun ci => prod_id (product ci) =? prod_id p) (items c))
      as [ci|] eqn:Ef; [ | reflexivity ].
    apply find_some in Ef. destruct Ef as [Hin Hid]. apply Z.eqb_eq in Hid.
    exfalso. apply Hnot. unfold cart_ids. apply in_map_iff.
    exists ci. split; assumption.
Qed.

(** ** scan_and_add *)

Lemma lookup_healthy barcode s :
  healthy (db s) ->
  on_db (get_product_by_barcode barcode) s
  = (Returned (sql_select_product_by_barcode barcode (working (db s))), s).
Proof.
  intros H. unfold on_db, get_product_by_barcode.
  rewrite query_healthy by exact H. destruct s; reflexivity.
Qed.

Lemma scan_and_add_healthy barcode q s :
  healthy (db s) ->
  scan_and_add barcode q s
  = match sql_select_product_by_barcode barcode (working (db s)) with
    | None => (Raised ProductNotFound, s)
    | Some row =>
        if quantity_in_stock row <? q then (Raised InsufficientStock, s)
        else (Returned (Product_of_row row, q),
              {| db := db s;
                 cart := add_item (Product_of_row row) q (cart s) |})
    end.
Proof.
  intros H. unfold scan_and_add.
  rewrite (bind_returned _ _ _ _ _ (lookup_healthy barcode s H)).
  destruct (sql_select_product_by_barcode barcode (working (db s))) as [row|];
    [ | reflexivity ].
  simpl. destruct (quantity_in_stock row <? q); reflexivity.
Qed.

(** C4: with a storage layer that answers, [scan_and_add barcode q] raises
    [ProductNotFound] when no product row has the barcode, raises
    [InsufficientStock] when [q] exceeds the stock of the row with that
    barcode, and otherwise returns after adding that product with
    quantity [q] to the cart; after either error the whole state, the
    cart included, is the one before the call. *)
Theorem scan_and_add_checks barcode q s :
  healthy (db s) ->
  ((forall p, In p (products (working (db s))) -> row_barcode p <> barcode) ->
   scan_and_add barcode q s = (Raised ProductNotFound, s)) /\
  (forall row,
     sql_select_product_by_barcode barcode (working (db s)) = Some row ->
     In row (products (working (db s))) /\ row_barcode row = barcode /\
     (quantity_in_stock row < q ->
      scan_and_add barcode q s = (Raised InsufficientStock, s)) /\
     (q <= quantity_in_stock row ->
      scan_and_add barcode q s
      = (Returned (Product_of_row row, q),
         {| db := db s; cart := add_item (Product_of_row row) q (cart s) |}))).
Proof.
  intros H. rewrite (scan_and_add_healthy barcode q s H). split.
  - intros Hnone.
    destruct (sql_select_product_by_barcode barcode (working (db s)))
      as [row|] eqn:E; [ | reflexivity ].
    apply find_some in E. destruct E as [Hin Hb]. apply String.eqb_eq in Hb.
    exfalso. exact (Hnone row Hin Hb).
  - intros row E. rewrite E.
    pose proof (find_some _ _ E) as [Hin Hb]. apply String.eqb_eq in Hb.
    repeat split; try assumption.
    + intros Hlt. rewrite (proj2 (Z.ltb_lt _ _) Hlt). reflexivity.
    + intros Hle. rewrite (proj2 (Z.ltb_ge _ _) Hle). reflexivity.
Qed.

(** C9: the check of [scan_and_add] looks at the product's stock only, not
    at what the cart already holds.  For a product of stock [s >= 1], two
    successive calls with quantity [s] both return, whatever the cart
    holds, and raise the quantity the cart holds of the product by [2 s].
    When the cart did not hold the product, they leave one cart line for
    it, of quantity [2 s], which is more than the stock. *)
Theorem scan_and_add_twice_exceeds_stock barcode row s :
  healthy (db s) ->
  sql_select_product_by_barcode barcode (working (db s)) = Some row ->
  1 <= quantity_in_stock row ->
  let st := quantity_in_stock row in
  let p := Product_of_row row in
  exists s1 s2,
    scan_and_add barcode st s = (Returned (p, st), s1) /\
    scan_and_add barcode st s1 = (Returned (p, st), s2) /\
    db s2 = db s /\
    cart s2 = add_item p (2 * st) (cart s) /\
    cart_qty (row_id row) (cart s2) = cart_qty (row_id row) (cart s) + 2 * st /\
    (~ In (row_id row) (cart_ids (cart s)) ->
     items (cart s2) = items (cart s) ++ [{| product := p; qty := 2 * st |}] /\
     lines_of (row_id row) (cart s2) = [{| product := p; qty := 2 * st |}] /\
     st < 2 * st).
Proof.
  intros H E Hst st p.
  assert (Hge : (st <? st) = false) by apply Z.ltb_irrefl.
  assert (Hlt : st < 2 * st) by (unfold st; lia).
  assert (Hcart : add_item p st (add_item p st (cart s))
                  = add_item p (2 * st) (cart s)).
  { unfold add_item. cbn [items]. rewrite merge_item_twice.
    replace (st + st) with (2 * st) by lia. reflexivity. }
  eexists. eexists. split; [ | split ].
  - rewrite (scan_and_add_healthy barcode st s H), E. fold st. rewrite Hge.
    reflexivity.
  - rewrite scan_and_add_healthy by exact H. cbn [db working]. rewrite E.
    fold st. rewrite Hge. reflexivity.
  - cbn [db cart]. fold p. rewrite Hcart.
    split; [ reflexivity | ]. split; [ reflexivity | ].
    split; [ apply (cart_qty_add_item p (2 * st) (cart s)) | ].
    intros Hnot.
    assert (Hitems : items (add_item p (2 * st) (cart s))
                     = items (cart s) ++ [{| product := p; qty := 2 * st |}])
      by (apply (merge_item_new p (2 * st)), Hnot).
    split; [ exact Hitems | ]. split; [ | exact Hlt ].
    unfold lines_of. rewrite Hitems, filter_app. cbn [filter product prod_id].
    replace (prod_id p =? row_id row) with true
      by (symmetry; apply Z.eqb_refl).
    assert (Hnil : filter (fun ci => prod_id (product ci) =? row_id row)
                     (items (cart s)) = []).
    { destruct (filter _ (items (cart s))) as [|ci r] eqn:Ef; [ reflexivity | ].
      assert (Hin : In ci (filter (fun ci => prod_id (product ci) =? row_id row)
                             (items (cart s))))
        by (rewrite Ef; left; reflexivity).
      apply filter_In in Hin. destruct Hin as [Hin Hid]. apply Z.eqb_eq in Hid.
      exfalso. apply Hnot. unfold cart_ids. apply in_map_iff.
      exists ci. split; assumption. }
    rewrite Hnil. reflexivity.
Qed.

(** ** apply_discount_tax *)

Lemma py_max_zero_not_negative (n : @num F) :
  num_lt (py_max n (Int 0)) (Int 0) = false.
Proof.
  unfold py_max. destruct (num_lt n (Int 0)) eqn:E; [ reflexivity | exact E ].
Qed.

(** C5: for every cart and every discount, [apply_discount_tax] returns
    the cart's subtotal, the discount it was given, and the total
    [max(round(subtotal - discount, 2), 0)], that is
    [round(subtotal - discount, 2)] unless that is below zero, and 0 if it
    is; it changes nothing, and the total is never below zero. *)
Theorem apply_discount_tax_totals discount tax_rate s :
  exists calc,
    apply_discount_tax discount tax_rate s = (Returned calc, s) /\
    totals_subtotal calc = subtotal (cart s) /\
    totals_discount calc = discount /\
    totals_total calc
    = py_max (round2 (num_sub (subtotal (cart s)) discount)) (Int 0) /\
    (num_lt (round2 (num_sub (subtotal (cart s)) discount)) (Int 0) = false ->
     totals_total calc = round2 (num_sub (subtotal (cart s)) discount)) /\
    (num_lt (round2 (num_sub (subtotal (cart s)) discount)) (Int 0) = true ->
     totals_total calc = Int 0) /\
    num_lt (totals_total calc) (Int 0) = false.
Proof.
  eexists. split; [ reflexivity | ]. simpl.
  split; [ reflexivity | ]. split; [ reflexivity | ]. split; [ reflexivity | ].
  split; [ | split ].
  - intros E. unfold py_max. rewrite E. reflexivity.
  - intros E. unfold py_max. rewrite E. reflexivity.
  - apply py_max_zero_not_negative.
Qed.

(** ** checkout *)

Lemma checkout_unfold ts_sale ts discount tax_rate s :
  checkout ts_sale ts discount tax_rate s
  = match record_sale ts_sale (items_data (cart s))
            (charged (cart s) discount) (db s) with
    | (Returned _, d') =>
        (Returned {| receipt_items := receipt_lines (cart s);
                     receipt_subtotal := subtotal (cart s);
                     receipt_taxed := subtotal (cart s);
                     receipt_discount := discount;
                     receipt_total := charged (cart s) discount;
                     receipt_timestamp := ts |},
         {| db := d'; cart := clear (cart s) |})
    | (Raised e, d') => (Raised e, {| db := d'; cart := cart s |})
    end.
Proof.
  unfold checkout, apply_discount_tax, charged, bind, gets, ret, on_db,
    on_cart, modify. simpl.
  destruct (record_sale ts_sale (items_data (cart s)) _ (db s))
    as [[u|e] d']; reflexivity.
Qed.

(** C3 (amended): if the [record_sale] step inside [checkout] raises,
    [checkout] raises that same error and the cart's lines, quantities and
    subtotal are exactly those before the attempt.  A stock that has
    dropped below what the cart needs does not make [record_sale] raise:
    with a storage layer that serves every call, [checkout] returns a
    receipt and empties the cart whatever the stock is. *)
Theorem checkout_failure_keeps_cart ts_sale ts discount tax_rate s :
  (forall e d',
     record_sale ts_sale (items_data (cart s)) (charged (cart s) discount)
       (db s) = (Raised e, d') ->
     checkout ts_sale ts discount tax_rate s
     = (Raised e, {| db := d'; cart := cart s |})) /\
  (forall e s',
     checkout ts_sale ts discount tax_rate s = (Raised e, s') ->
     cart s' = cart s /\ items (cart s') = items (cart s) /\
     subtotal (cart s') = subtotal (cart s)) /\
  (healthy (db s) ->
   exists r d',
     checkout ts_sale ts discount tax_rate s
     = (Returned r, {| db := d'; cart := empty_cart |})).
Proof.
  rewrite checkout_unfold. repeat split.
  - intros e d' E. rewrite E. reflexivity.
  - destruct (record_sale _ _ _ _) as [[u|e0] d']; [ discriminate | ].
    injection H as _ <-. reflexivity.
  - destruct (record_sale _ _ _ _) as [[u|e0] d']; [ discriminate | ].
    injection H as _ <-. reflexivity.
  - destruct (record_sale _ _ _ _) as [[u|e0] d']; [ discriminate | ].
    injection H as _ <-. reflexivity.
  - intros H. rewrite (record_sale_healthy _ _ _ _ H).
    eexists. eexists. reflexivity.
Qed.

(** C7: after every call of [checkout] that returns, the cart holds no
    lines and its subtotal is 0, and the receipt returned lists, for each
    line that was in the cart and in the same order, the product name,
    the quantity, the unit price and the line total, together with the
    subtotal, the total, the discount and the timestamp.  With a storage
    layer that serves every call, [checkout] does return. *)
Theorem checkout_clears_cart ts_sale ts discount tax_rate s :
  (forall r s',
     checkout ts_sale ts discount tax_rate s = (Returned r, s') ->
     items (cart s') = [] /\
     subtotal (cart s') = Int 0 /\
     receipt_items r
     = map (fun ci => (prod_name (product ci), qty ci,
                       prod_price (product ci), line_total ci))
           (items (cart s)) /\
     receipt_subtotal r = subtotal (cart s) /\
     receipt_total r
     = py_max (round2 (num_sub (subtotal (cart s)) discount)) (Int 0) /\
     receipt_discount r = discount /\
     receipt_timestamp r = ts) /\
  (healthy (db s) ->
   exists r s', checkout ts_sale ts discount tax_rate s = (Returned r, s')).
Proof.
  rewrite checkout_unfold. split.
  - intros r s' E.
    destruct (record_sale _ _ _ _) as [[u|e0] d']; [ | discriminate ].
    injection E as <- <-. simpl. repeat split.
  - intros H. rewrite (record_sale_healthy _ _ _ _ H).
    eexists. eexists. reflexivity.
Qed.

(** ** Quantities that are not positive *)

Lemma merge_item_positive p q l :
  0 < q ->
  Forall (fun ci => 0 < qty ci) l ->
  Forall (fun ci => 0 < qty ci) (merge_item p q l).
Proof.
  intros Hq. induction l as [|ci l IH]; simpl; intros Hl.
  - constructor; [ exact Hq | constructor ].
  - inversion Hl as [|ci' l' Hci Hl']; subst.
    destruct (prod_id (product ci) =? prod_id p).
    + constructor; [ simpl; lia | exact Hl' ].
    + constructor; [ exact Hci | apply IH, Hl' ].
Qed.

(** Whatever the storage layer does, [scan_and_add] leaves the cart as it
    was or adds the requested quantity of a product to it. *)
Lemma scan_and_add_cart barcode q s :
  cart (snd (scan_and_add barcode q s)) = cart s \/
  exists row,
    cart (snd (scan_and_add barcode q s))
    = add_item (Product_of_row row) q (cart s).
Proof.
  unfold scan_and_add, bind, on_db, get_product_by_barcode, query, bind, io,
    gets.
  destruct (io_budget (db s)) as [[|n]|]; simpl; auto;
    destruct (sql_select_product_by_barcode barcode (working (db s)))
      as [row|]; simpl; auto;
    destruct (quantity_in_stock row <? q); simpl; auto;
    right; exists row; reflexivity.
Qed.

(** C8 (amended): neither [Cart.add_item] nor [scan_and_add] looks at the
    sign of the quantity.  [add_item] with [q <= 0] adds [q] to the
    quantity of the product's line, or appends a line of quantity [q] when
    the cart has none; [scan_and_add] with [q <= 0] returns normally for
    every barcode it finds with a stock that is not negative, having
    called [add_item].  Quantities that are not positive are turned away
    by the caller, [_add_to_cart] of the user interface, which shows a
    warning and returns before it calls [scan_and_add], leaving the state
    as it was; through [_add_to_cart] a cart whose quantities are positive
    keeps them positive. *)
Theorem non_positive_quantity_unchecked :
  (forall p q c,
     q <= 0 ->
     cart_qty (prod_id p) (add_item p q c) = cart_qty (prod_id p) c + q /\
     (~ In (prod_id p) (cart_ids c) ->
      items (add_item p q c) = items c ++ [{| product := p; qty := q |}])) /\
  (forall barcode row q s,
     healthy (db s) ->
     sql_select_product_by_barcode barcode (working (db s)) = Some row ->
     0 <= quantity_in_stock row ->
     q <= 0 ->
     scan_and_add barcode q s
     = (Returned (Product_of_row row, q),
        {| db := db s; cart := add_item (Product_of_row row) q (cart s) |})) /\
  (forall bc qt s,
     qt <= 0 ->
     exists msg, _add_to_cart bc qt s = (InputWarning msg, s)) /\
  (forall bc qt s,
     quantities_positive (cart s) ->
     quantities_positive (cart (snd (_add_to_cart bc qt s)))).
Proof.
  split; [ | split; [ | split ] ].
  - intros p q c _. split; [ apply cart_qty_add_item | ].
    intros Hnot. simpl. apply merge_item_new, Hnot.
  - intros barcode row q s H E Hst Hq.
    rewrite (scan_and_add_healthy barcode q s H), E.
    rewrite (proj2 (Z.ltb_ge _ _)) by lia. reflexivity.
  - intros bc qt s Hq. unfold _add_to_cart.
    destruct (bc =? "")%string; [ eexists; reflexivity | ].
    rewrite (proj2 (Z.leb_le _ _) Hq). eexists. reflexivity.
  - intros bc qt s Hpos. unfold _add_to_cart.
    destruct (bc =? "")%string; [ exact Hpos | ].
    destruct (qt <=? 0) eqn:Eq; [ exact Hpos | ].
    apply Z.leb_gt in Eq.
    assert (Hs : quantities_positive (cart (snd (scan_and_add bc qt s)))).
    { destruct (scan_and_add_cart bc qt s) as [-> | [row ->]];
        [ exact Hpos | ].
      apply merge_item_positive; assumption. }
    destruct (scan_and_add bc qt s) as [[[p q]|e] s']; exact Hs.
Qed.

(** ** get_sale_details after delete_product *)

Lemma delete_product_healthy product_id d :
  healthy d ->
  delete_product product_id d
  = (Returned (0 <? fst (sql_delete_product product_id (working d))),
     synced (snd (sql_delete_product product_id (working d))) d).
Proof.
  intros H. unfold delete_product.
  rewrite (bind_returned _ _ _ _ _ (execute_returning_healthy _ d H)).
  rewrite (bind_returned _ _ _ _ _ (commit_healthy (set_working _ d) H)).
  reflexivity.
Qed.

Lemma get_sale_details_healthy id d :
  healthy d ->
  get_sale_details id d
  = (Returned
       match sql_select_sale id (working d) with
       | None => None
       | Some sale =>
           Some {| details_sale := sale;
                   details_items := sql_select_sale_items id (working d) |}
       end, d).
Proof.
  intros H. unfold get_sale_details.
  rewrite (bind_returned _ _ _ _ _ (query_healthy _ d H)).
  destruct (sql_select_sale id (working d)); [ | reflexivity ].
  rewrite (bind_returned _ _ _ _ _ (query_healthy _ d H)). reflexivity.
Qed.

(** The join against the product rows that are left after a deletion. *)
Lemma join_after_delete product_id ps si :
  map (join_row si)
      (filter (fun p => si_product_id si =? row_id p)
              (filter (fun p => negb (row_id p =? product_id)) ps))
  = filter (fun r => negb (d_product_id r =? product_id))
           (map (join_row si)
                (filter (fun p => si_product_id si =? row_id p) ps)).
Proof.
  induction ps as [|p ps IH]; simpl; [ reflexivity | ].
  destruct (row_id p =? product_id) eqn:Ed; simpl;
    destruct (si_product_id si =? row_id p) eqn:Ej; simpl;
    try exact IH.
  - apply Z.eqb_eq in Ed. apply Z.eqb_eq in Ej.
    rewrite (proj2 (Z.eqb_eq _ _)) by congruence. simpl. exact IH.
  - apply Z.eqb_neq in Ed. apply Z.eqb_eq in Ej.
    rewrite (proj2 (Z.eqb_neq _ _)) by congruence. simpl. f_equal. exact IH.
Qed.

Lemma filter_flat_map {A B} (f : B -> bool) (g : A -> list B) (l : list A) :
  filter f (flat_map g l) = flat_map (fun a => filter f (g a)) l.
Proof.
  induction l as [|a l IH]; simpl; [ reflexivity | ].
  rewrite filter_app, IH. reflexivity.
Qed.

Lemma select_sale_items_after_delete product_id id t :
  sql_select_sale_items id (snd (sql_delete_product product_id t))
  = filter (fun r => negb (d_product_id r =? product_id))
           (sql_select_sale_items id t).
Proof.
  unfold sql_select_sale_items. simpl. rewrite filter_flat_map.
  apply flat_map_ext. intros si. apply join_after_delete.
Qed.

(** C10: [get_sale_details] joins the line items with the product rows by
    an inner join.  After [delete_product] has removed a product, the
    line-item rows are still all in storage, and [get_sale_details] of any
    sale returns the sale with the items it returned before except those
    of the deleted product: no item of the result refers to it. *)
Theorem sale_details_omit_deleted_product product_id id d :
  healthy d ->
  exists b d1,
    delete_product product_id d = (Returned b, d1) /\
    (forall p, In p (products (working d1)) -> row_id p <> product_id) /\
    sale_items (working d1) = sale_items (working d) /\
    sale_items (committed d1) = sale_items (working d) /\
    (forall sale,
       sql_select_sale id (working d) = Some sale ->
       get_sale_details id d
       = (Returned (Some {| details_sale := sale;
                            details_items :=
                              sql_select_sale_items id (working d) |}), d) /\
       get_sale_details id d1
       = (Returned
            (Some {| details_sale := sale;
                     details_items :=
                       filter (fun r => negb (d_product_id r =? product_id))
                              (sql_select_sale_items id (working d)) |}),
          d1)) /\
    (forall det d2,
       get_sale_details id d1 = (Returned (Some det), d2) ->
       forall r, In r (details_items det) -> d_product_id r <> product_id).
Proof.
  intros H. eexists. eexists.
  split; [ apply delete_product_healthy, H | ].
  assert (H1 : healthy (synced (snd (sql_delete_product product_id (working d))) d))
    by exact H.
  rewrite (get_sale_details_healthy id _ H1),
    (get_sale_details_healthy id d H).
  cbn [working committed synced]. rewrite select_sale_items_after_delete.
  split; [ | split; [ reflexivity | split; [ reflexivity | split ] ] ].
  - simpl. intros p Hin. apply filter_In in Hin. destruct Hin as [_ Hne].
    apply negb_true_iff, Z.eqb_neq in Hne. exact Hne.
  - intros sale E. unfold sql_select_sale in *. simpl. rewrite E.
    split; reflexivity.
  - intros det d2 E r Hin.
    destruct (sql_select_sale id _); [ | discriminate ].
    injection E as <- _. simpl in Hin. apply filter_In in Hin.
    destruct Hin as [_ Hne]. apply negb_true_iff, Z.eqb_neq in Hne. exact Hne.
Qed.

(** * Further properties *)

(** ** Rules for [hoare] *)

Lemma hoare_ret {S A} (pre : S -> Prop) (a : A) (post : A -> S -> Prop) inv :
  (forall x, pre x -> post a x) -> hoare pre (ret a) post inv.
Proof. intros H x Hx. apply H, Hx. Qed.

Lemma hoare_raise {S A} (pre : S -> Prop) e (post : A -> S -> Prop)
    (inv : S -> Prop) :
  (forall x, pre x -> inv x) -> hoare pre (raise e) post inv.
Proof. intros H x Hx. apply H, Hx. Qed.

Lemma hoare_bind {S A B} (pre : S -> Prop) (m : M S A) (k : A -> M S B)
    (mid : A -> S -> Prop) (post : B -> S -> Prop) inv :
  hoare pre m mid inv ->
  (forall a, hoare (mid a) (k a) post inv) ->
  hoare pre (bind m k) post inv.
Proof.
  intros Hm Hk x Hx. unfold bind. specialize (Hm x Hx).
  destruct (m x) as [[a|e] x']; [ apply (Hk a x' Hm) | exact Hm ].
Qed.

Lemma hoare_gets {S A} (pre : S -> Prop) (f : S -> A) (post : A -> S -> Prop)
    inv :
  (forall x, pre x -> post (f x) x) -> hoare pre (gets f) post inv.
Proof. intros H x Hx. apply H, Hx. Qed.

Lemma hoare_modify {S} (pre : S -> Prop) (f : S -> S) (post : unit -> S -> Prop)
    inv :
  (forall x, pre x -> post tt (f x)) -> hoare pre (modify f) post inv.
Proof. intros H x Hx. apply H, Hx. Qed.

Lemma hoare_for_each {S A} (I : S -> Prop) (l : list A) (body : A -> M S unit) :
  (forall a, In a l -> hoare I (body a) (fun _ => I) I) ->
  hoare I (for_each l body) (fun _ => I) I.
Proof.
  induction l as [|a l IH]; intros Hbody; simpl.
  - apply hoare_ret. auto.
  - apply hoare_bind with (mid := fun _ => I).
    + apply Hbody. left. reflexivity.
    + intros _. apply IH. intros b Hb. apply Hbody. right. exact Hb.
Qed.

(** The state a method leaves satisfies the invariant of its triple. *)
Lemma hoare_snd {S A} (I : S -> Prop) (m : M S A) (x : S) :
  hoare I m (fun _ => I) I -> I x -> I (snd (m x)).
Proof.
  intros H Hx. specialize (H x Hx). destruct (m x) as [[a|e] x']; exact H.
Qed.

(** *** The connection *)

Section OnTables.

Variables R R' : @Tables F -> @Tables F -> Prop.

Lemma hoare_io : hoare (on_tables R) io (fun _ => on_tables R) (on_tables R).
Proof.
  intros d Hd. unfold io, on_tables in *.
  destruct (io_budget d) as [[|n]|]; exact Hd.
Qed.

Lemma hoare_query {A} (q : Tables -> A) :
  hoare (on_tables R) (query q) (fun _ => on_tables R) (on_tables R).
Proof.
  unfold query. apply hoare_bind with (mid := fun _ => on_tables R).
  - apply hoare_io.
  - intros _. apply hoare_gets. auto.
Qed.

Lemma hoare_execute stmt :
  (forall c w : @Tables F, R c w -> R' c (stmt w)) ->
  hoare (on_tables R) (execute stmt) (fun _ => on_tables R') (on_tables R).
Proof.
  intros H. unfold execute. apply hoare_bind with (mid := fun _ => on_tables R).
  - apply hoare_io.
  - intros _. apply hoare_modify. intros d Hd. apply H, Hd.
Qed.

Lemma hoare_execute_returning {A} (stmt : Tables -> A * Tables)
    (Q : A -> @Tables F -> @Tables F -> Prop) :
  (forall c w : @Tables F, R c w -> Q (fst (stmt w)) c (snd (stmt w))) ->
  hoare (on_tables R) (execute_returning stmt)
    (fun a => on_tables (Q a)) (on_tables R).
Proof.
  intros H d Hd. unfold execute_returning, bind, io, gets, modify, ret.
  unfold on_tables in *.
  destruct (io_budget d) as [[|n]|]; simpl; try exact Hd; apply H, Hd.
Qed.

Lemma hoare_commit :
  (forall c w : @Tables F, R c w -> R' w w) ->
  hoare (on_tables R) commit (fun _ => on_tables R') (on_tables R).
Proof.
  intros H. unfold commit. apply hoare_bind with (mid := fun _ => on_tables R).
  - apply hoare_io.
  - intros _. apply hoare_modify. intros d Hd. apply (H _ _ Hd).
Qed.

End OnTables.

(** *** Invariants of the tables

    A relation [R] between the committed and the working tables that
    every statement and every commit keeps is kept by every method,
    whether the storage layer fails or not.  [R_in sale] is what holds
    inside [record_sale] once the header of [sale] is inserted; [ok] is
    what the relation asks of a stock that is written without a guard. *)

Section Stable.

Variable R : @Tables F -> @Tables F -> Prop.
Variable R_in : Z -> @Tables F -> @Tables F -> Prop.
Variable ok : Z -> Prop.

Hypothesis R_commit : forall c w : @Tables F, R c w -> R w w.
Hypothesis R_insert_product :
  forall (c w w' : @Tables F) barcode name price qty,
    ok qty -> R c w -> sql_insert_product barcode name price qty w = Some w' ->
    R c w'.
Hypothesis R_delete_product :
  forall (c w : @Tables F) product_id,
    R c w -> R c (snd (sql_delete_product product_id w)).
Hypothesis R_update_product :
  forall (c w : @Tables F) product_id name price qty,
    ok qty -> R c w -> R c (sql_update_product product_id name price qty w).
Hypothesis R_update_stock :
  forall (c w : @Tables F) product_id delta,
    R c w -> R c (sql_update_stock product_id delta w).
Hypothesis R_insert_sale :
  forall (c w : @Tables F) ts total,
    R c w ->
    R_in (fst (sql_insert_sale ts total w)) c (snd (sql_insert_sale ts total w)).
Hypothesis R_in_R : forall sale (c w : @Tables F), R_in sale c w -> R c w.
Hypothesis R_in_commit : forall sale (c w : @Tables F), R_in sale c w -> R_in sale w w.
Hypothesis R_in_insert_sale_item :
  forall sale (c w : @Tables F) it,
    R_in sale c w -> R_in sale c (sql_insert_sale_item (sale_item_row sale it) w).
Hypothesis R_in_update_stock :
  forall sale (c w : @Tables F) product_id delta,
    R_in sale c w -> R_in sale c (sql_update_stock product_id delta w).

Local Abbreviation keeps m :=
  (hoare (on_tables R) m (fun _ => on_tables R) (on_tables R)).

Lemma keeps_query {A} (q : Tables -> A) : keeps (query q).
Proof. apply hoare_query. Qed.

Lemma keeps_commit : keeps commit.
Proof. apply hoare_commit. exact R_commit. Qed.

Lemma keeps_add_product barcode name price qty :
  ok qty -> keeps (add_product barcode name price qty).
Proof.
  intros Hok. unfold add_product.
  apply hoare_bind with (mid := fun _ => on_tables R); [ apply hoare_io | ].
  intros _.
  apply hoare_bind with (mid := fun t d => on_tables R d /\ t = working d).
  { apply hoare_gets. intros d Hd. split; [ exact Hd | reflexivity ]. }
  intros t. destruct (sql_insert_product barcode name price qty t) as [t'|] eqn:E.
  - apply hoare_bind with (mid := fun _ => on_tables R).
    + apply hoare_modify. intros d [Hd ->]. unfold on_tables in *. simpl.
      exact (R_insert_product _ _ _ _ _ _ _ Hok Hd E).
    + intros _. apply keeps_commit.
  - apply hoare_raise. intros d [Hd _]. exact Hd.
Qed.

Lemma keeps_delete_product product_id : keeps (delete_product product_id).
Proof.
  unfold delete_product.
  apply hoare_bind with (mid := fun _ => on_tables R).
  - apply hoare_execute_returning with (Q := fun _ => R).
    intros c w H. apply R_delete_product, H.
  - intros rowcount. apply hoare_bind with (mid := fun _ => on_tables R).
    + apply keeps_commit.
    + intros _. apply hoare_ret. auto.
Qed.

Lemma keeps_update_product product_id name price qty :
  ok qty -> keeps (update_product product_id name price qty).
Proof.
  intros Hok. unfold update_product.
  apply hoare_bind with (mid := fun _ => on_tables R).
  - apply hoare_execute. intros c w H. apply R_update_product; assumption.
  - intros _. apply keeps_commit.
Qed.

Lemma keeps_adjust_stock product_id delta : keeps (adjust_stock product_id delta).
Proof.
  unfold adjust_stock. apply hoare_bind with (mid := fun _ => on_tables R).
  - apply hoare_execute. intros c w H. apply R_update_stock, H.
  - intros _. apply keeps_commit.
Qed.

Lemma keeps_record_sale ts its total : keeps (record_sale ts its total).
Proof.
  unfold record_sale.
  apply hoare_bind with (mid := fun sale => on_tables (R_in sale)).
  { apply hoare_execute_returning. intros c w H. apply R_insert_sale, H. }
  intros sale.
  assert (Hin : forall d, on_tables (R_in sale) d -> on_tables R d)
    by (intros d; apply R_in_R).
  apply hoare_bind with (mid := fun _ => on_tables (R_in sale)).
  - intros d Hd.
    assert (Hloop :
      hoare (on_tables (R_in sale))
        (for_each its (fun it =>
           execute (sql_insert_sale_item (sale_item_row sale it)) ;;
           adjust_stock (item_product_id it) (- item_quantity it)))
        (fun _ => on_tables (R_in sale)) (on_tables (R_in sale))).
    { apply hoare_for_each. intros it _.
      apply hoare_bind with (mid := fun _ => on_tables (R_in sale)).
      - apply hoare_execute. intros c w H. apply R_in_insert_sale_item, H.
      - intros _. unfold adjust_stock.
        apply hoare_bind with (mid := fun _ => on_tables (R_in sale)).
        + apply hoare_execute. intros c w H. apply R_in_update_stock, H.
        + intros _. apply hoare_commit. apply R_in_commit. }
    specialize (Hloop d Hd).
    destruct (for_each its _ d) as [[u|e] d']; [ exact Hloop | apply Hin, Hloop ].
  - intros _ d Hd.
    pose proof (hoare_commit (R_in sale) (R_in sale) (R_in_commit sale) d Hd) as H.
    destruct (commit d) as [[u|e] d']; apply Hin, H.
Qed.

Lemma keeps_get_sale_details id : keeps (get_sale_details id).
Proof.
  unfold get_sale_details.
  apply hoare_bind with (mid := fun _ => on_tables R); [ apply keeps_query | ].
  intros [sale|]; [ | apply hoare_ret; auto ].
  apply hoare_bind with (mid := fun _ => on_tables R); [ apply keeps_query | ].
  intros items. apply hoare_ret. auto.
Qed.

Lemma keeps_import (lines : list (@CsvRow F)) :
  (forall line, In line lines -> ok (csv_quantity line)) ->
  keeps (import_inventory_csv lines).
Proof.
  intros Hok. unfold import_inventory_csv.
  apply hoare_bind with (mid := fun _ => on_tables R).
  - apply hoare_for_each. intros line Hline.
    apply hoare_bind with (mid := fun _ => on_tables R); [ apply keeps_query | ].
    intros [r|].
    + apply keeps_update_product, Hok, Hline.
    + apply keeps_add_product, Hok, Hline.
  - intros _. apply hoare_ret. auto.
Qed.

Lemma run_call_stable (call : @db_call F) d :
  (forall q, stock_written call = Some q -> ok q) ->
  on_tables R d -> on_tables R (run_call call d).
Proof.
  intros Hok Hd.
  destruct call; simpl; apply (hoare_snd (on_tables R)); try exact Hd.
  - apply keeps_add_product, Hok. reflexivity.
  - apply keeps_query.
  - apply keeps_query.
  - apply keeps_delete_product.
  - apply keeps_query.
  - apply keeps_update_product, Hok. reflexivity.
  - apply keeps_adjust_stock.
  - apply keeps_query.
  - apply keeps_record_sale.
  - apply keeps_query.
  - apply keeps_get_sale_details.
  - apply keeps_query.
Qed.

Lemma run_calls_stable (calls : list (@db_call F)) :
  forall d,
    (forall call q, In call calls -> stock_written call = Some q -> ok q) ->
    on_tables R d -> on_tables R (run_calls calls d).
Proof.
  unfold run_calls. induction calls as [|call calls IH]; intros d Hok Hd; simpl.
  - exact Hd.
  - apply IH.
    + intros call' q Hc'. apply Hok. right. exact Hc'.
    + apply run_call_stable; [ | exact Hd ].
      intros q. apply Hok. left. reflexivity.
Qed.

End Stable.

(** *** What each statement keeps *)

Lemma NoDup_map_filter {A B} (f : A -> B) (g : A -> bool) (xs : list A) :
  NoDup (map f xs) -> NoDup (map f (filter g xs)).
Proof.
  induction xs as [|x xs IH]; simpl; intros H; [ constructor | ].
  inversion H as [|y ys Hx Hxs]; subst.
  destruct (g x); simpl; [ | apply IH, Hxs ].
  constructor; [ | apply IH, Hxs ].
  intros Hin. apply Hx. apply in_map_iff in Hin.
  destruct Hin as (z & Hz & Hin). apply filter_In in Hin.
  apply in_map_iff. exists z. split; [ exact Hz | apply Hin ].
Qed.

Lemma NoDup_app_one {A} (xs : list A) (x : A) :
  NoDup xs -> ~ In x xs -> NoDup (xs ++ [x]).
Proof.
  induction xs as [|y xs IH]; simpl; intros Hnd Hnot.
  - constructor; [ tauto | constructor ].
  - inversion Hnd as [|y' ys Hy Hys]; subst. constructor.
    + rewrite in_app_iff. simpl. intros [H | [H | []]]; [ exact (Hy H) | ].
      apply Hnot. left. symmetry. exact H.
    + apply IH; [ exact Hys | ]. intros H. apply Hnot. right. exact H.
Qed.

Lemma update_row_barcode product_id delta (p : @ProductRow F) :
  row_barcode (update_row product_id delta p) = row_barcode p.
Proof. unfold update_row. destruct (_ && _); reflexivity. Qed.

Lemma rewrite_row_id product_id name price qty (p : @ProductRow F) :
  row_id (rewrite_row product_id name price qty p) = row_id p.
Proof. unfold rewrite_row. destruct (_ =? _); reflexivity. Qed.

Lemma rewrite_row_barcode product_id name price qty (p : @ProductRow F) :
  row_barcode (rewrite_row product_id name price qty p) = row_barcode p.
Proof. unfold rewrite_row. destruct (_ =? _); reflexivity. Qed.

(** A statement that maps the product rows and keeps ids and barcodes
    keeps them keyed. *)
Lemma products_keyed_map (f : @ProductRow F -> @ProductRow F) t :
  (forall p, row_id (f p) = row_id p) ->
  (forall p, row_barcode (f p) = row_barcode p) ->
  products_keyed t -> products_keyed (set_products (map f (products t)) t).
Proof.
  intros Hid Hbc (Hi & Hb & Hs). unfold products_keyed. simpl.
  rewrite !map_map.
  rewrite (map_ext _ row_id Hid), (map_ext _ row_barcode Hbc).
  repeat split; try assumption.
  apply Forall_map. revert Hs. apply Forall_impl. intros p. rewrite Hid. auto.
Qed.

Lemma products_keyed_update_stock product_id delta t :
  products_keyed t -> products_keyed (sql_update_stock product_id delta t).
Proof.
  apply products_keyed_map;
    [ apply update_row_id | apply update_row_barcode ].
Qed.

Lemma products_keyed_update_product product_id name price qty t :
  products_keyed t ->
  products_keyed (sql_update_product product_id name price qty t).
Proof.
  apply products_keyed_map;
    [ apply rewrite_row_id | apply rewrite_row_barcode ].
Qed.

Lemma products_keyed_delete product_id t :
  products_keyed t -> products_keyed (snd (sql_delete_product product_id t)).
Proof.
  intros (Hi & Hb & Hs). unfold products_keyed. simpl.
  repeat split; try (apply NoDup_map_filter; assumption).
  apply Forall_forall. intros p Hp. apply filter_In in Hp.
  rewrite Forall_forall in Hs. apply Hs, Hp.
Qed.

Lemma products_keyed_insert barcode name price qty t t' :
  sql_insert_product barcode name price qty t = Some t' ->
  products_keyed t -> products_keyed t'.
Proof.
  unfold sql_insert_product.
  destruct (existsb _ (products t)) eqn:E; [ discriminate | ].
  intros [= <-] (Hi & Hb & Hs). unfold products_keyed. simpl.
  rewrite !map_app. simpl. rewrite Forall_forall in Hs.
  split; [ | split ].
  - apply NoDup_app_one; [ exact Hi | ].
    intros Hin. apply in_map_iff in Hin. destruct Hin as (p & Hp & Hin).
    specialize (Hs p Hin). lia.
  - apply NoDup_app_one; [ exact Hb | ].
    intros Hin. apply in_map_iff in Hin. destruct Hin as (p & Hp & Hin).
    assert (Ht : existsb (fun p => (row_barcode p =? barcode)%string)
                   (products t) = true).
    { apply existsb_exists. exists p. split; [ exact Hin | ].
      apply String.eqb_eq, Hp. }
    rewrite Ht in E. discriminate.
  - apply Forall_forall. intros p Hp. apply in_app_iff in Hp.
    destruct Hp as [Hp | [<- | []]]; [ specialize (Hs p Hp); lia | simpl; lia ].
Qed.

Lemma sales_keyed_insert_sale ts total t :
  sales_keyed t ->
  sales_keyed (snd (sql_insert_sale ts total t)) /\
  In (fst (sql_insert_sale ts total t))
     (map sale_id (sales (snd (sql_insert_sale ts total t)))).
Proof.
  intros (Hi & Hs & Hb). unfold sales_keyed. simpl.
  rewrite !map_app. simpl. rewrite Forall_forall in Hs.
  split; [ split; [ | split ] | ].
  - apply NoDup_app_one; [ exact Hi | ].
    intros Hin. apply in_map_iff in Hin. destruct Hin as (x & Hx & Hin).
    specialize (Hs x Hin). lia.
  - apply Forall_forall. intros x Hx. apply in_app_iff in Hx.
    destruct Hx as [Hx | [<- | []]]; [ specialize (Hs x Hx); lia | simpl; lia ].
  - revert Hb. apply Forall_impl. intros si Hsi.
    apply in_app_iff. left. exact Hsi.
  - apply in_app_iff. right. left. reflexivity.
Qed.

Lemma sales_keyed_insert_sale_item sale it t :
  In sale (map sale_id (sales t)) ->
  sales_keyed t -> sales_keyed (sql_insert_sale_item (sale_item_row sale it) t).
Proof.
  intros Hin (Hi & Hs & Hb). unfold sales_keyed. simpl.
  repeat split; try assumption.
  apply Forall_app. split; [ exact Hb | ].
  constructor; [ exact Hin | constructor ].
Qed.

Lemma extends_refl t : extends t t.
Proof. split; exists []; rewrite app_nil_r; reflexivity. Qed.

Lemma extends_trans t1 t2 t3 : extends t1 t2 -> extends t2 t3 -> extends t1 t3.
Proof.
  intros [[a Ha] [b Hb]] [[a' Ha'] [b' Hb']]. split.
  - exists (a ++ a'). rewrite Ha', Ha, app_assoc. reflexivity.
  - exists (b ++ b'). rewrite Hb', Hb, app_assoc. reflexivity.
Qed.

(** A statement that only appends to the sales and to the line items. *)
Lemma extends_step t0 t t' :
  (exists more, sales t' = sales t ++ more) ->
  (exists more, sale_items t' = sale_items t ++ more) ->
  extends t0 t -> extends t0 t'.
Proof.
  intros Hs Hi H. apply (extends_trans t0 t t'); [ exact H | ].
  split; assumption.
Qed.

Lemma insert_product_ledger barcode name price qty t t' :
  sql_insert_product barcode name price qty t = Some t' ->
  sales t' = sales t /\ sale_items t' = sale_items t.
Proof.
  unfold sql_insert_product. destruct (existsb _ _); [ discriminate | ].
  intros [= <-]. split; reflexivity.
Qed.

Lemma sales_keyed_same t t' :
  sales t' = sales t -> sales_seq t' = sales_seq t ->
  sale_items t' = sale_items t -> sales_keyed t -> sales_keyed t'.
Proof. unfold sales_keyed. intros -> -> ->. auto. Qed.

Lemma consistent_insert_product barcode name price qty t t' :
  sql_insert_product barcode name price qty t = Some t' ->
  consistent t -> consistent t'.
Proof.
  intros E [Hp Hs]. split; [ exact (products_keyed_insert _ _ _ _ _ _ E Hp) | ].
  revert Hs. unfold sql_insert_product in E.
  destruct (existsb _ _); [ discriminate | ]. injection E as <-.
  apply sales_keyed_same; reflexivity.
Qed.

Lemma consistent_delete product_id t :
  consistent t -> consistent (snd (sql_delete_product product_id t)).
Proof.
  intros [Hp Hs]. split; [ apply products_keyed_delete, Hp | exact Hs ].
Qed.

Lemma consistent_update_product product_id name price qty t :
  consistent t -> consistent (sql_update_product product_id name price qty t).
Proof.
  intros [Hp Hs]. split; [ apply products_keyed_update_product, Hp | exact Hs ].
Qed.

Lemma consistent_update_stock product_id delta t :
  consistent t -> consistent (sql_update_stock product_id delta t).
Proof.
  intros [Hp Hs]. split; [ apply products_keyed_update_stock, Hp | exact Hs ].
Qed.

Lemma consistent_insert_sale ts total t :
  consistent t ->
  consistent (snd (sql_insert_sale ts total t)) /\
  In (fst (sql_insert_sale ts total t))
     (map sale_id (sales (snd (sql_insert_sale ts total t)))).
Proof.
  intros [Hp Hs]. destruct (sales_keyed_insert_sale ts total t Hs) as [Hs' Hin].
  split; [ split; [ exact Hp | exact Hs' ] | exact Hin ].
Qed.

Lemma consistent_insert_sale_item sale it t :
  In sale (map sale_id (sales t)) ->
  consistent t -> consistent (sql_insert_sale_item (sale_item_row sale it) t).
Proof.
  intros Hin [Hp Hs].
  split; [ exact Hp | apply sales_keyed_insert_sale_item; assumption ].
Qed.

(** The tables of a new database file. *)
Lemma empty_tables_consistent : consistent (@empty_tables F).
Proof.
  unfold consistent, products_keyed, sales_keyed. simpl.
  repeat split; constructor.
Qed.

(** X1: in every database, the product ids and the barcodes are keys of
    the products, the sale ids are keys of the sales, no id is above its
    AUTOINCREMENT counter, and every line item belongs to a recorded sale.
    Once this holds, as it does in a new database, it is kept, in the
    committed tables and in the tables the connection sees, by every
    sequence of calls of the methods of [Database] and by an import,
    whether or not the storage layer fails on the way. *)
Theorem database_stays_consistent (calls : list (@db_call F))
    (lines : list (@CsvRow F)) d :
  consistent (committed d) -> consistent (working d) ->
  (consistent (committed (run_calls calls d)) /\
   consistent (working (run_calls calls d))) /\
  (consistent (committed (snd (import_inventory_csv lines d))) /\
   consistent (working (snd (import_inventory_csv lines d)))).
Proof.
  intros Hc Hw.
  set (R := fun c w : @Tables F => consistent c /\ consistent w).
  set (R_in := fun (sale : Z) (c w : @Tables F) =>
                 consistent c /\ consistent w /\
                 In sale (map sale_id (sales w))).
  assert (Hd : on_tables R d) by (split; assumption).
  assert (H1 : forall c w : @Tables F, R c w -> R w w)
    by (intros c w [_ H]; split; exact H).
  assert (H2 : forall (c w w' : @Tables F) barcode name price qty,
             True -> R c w ->
             sql_insert_product barcode name price qty w = Some w' -> R c w').
  { intros c w w' b n p q _ [H H'] E.
    split; [ exact H | exact (consistent_insert_product _ _ _ _ _ _ E H') ]. }
  assert (H3 : forall (c w : @Tables F) product_id,
             R c w -> R c (snd (sql_delete_product product_id w)))
    by (intros c w i [H H']; split; [ exact H | apply consistent_delete, H' ]).
  assert (H4 : forall (c w : @Tables F) product_id name price qty,
             True -> R c w ->
             R c (sql_update_product product_id name price qty w)).
  { intros c w i n p q _ [H H'].
    split; [ exact H | apply consistent_update_product, H' ]. }
  assert (H5 : forall (c w : @Tables F) product_id delta,
             R c w -> R c (sql_update_stock product_id delta w)).
  { intros c w i q [H H'].
    split; [ exact H | apply consistent_update_stock, H' ]. }
  assert (H6 : forall (c w : @Tables F) ts total,
             R c w ->
             R_in (fst (sql_insert_sale ts total w)) c
               (snd (sql_insert_sale ts total w))).
  { intros c w ts total [H H'].
    split; [ exact H | apply consistent_insert_sale, H' ]. }
  assert (H7 : forall sale (c w : @Tables F), R_in sale c w -> R c w)
    by (intros sale c w (H & H' & _); split; assumption).
  assert (H8 : forall sale (c w : @Tables F), R_in sale c w -> R_in sale w w)
    by (intros sale c w (_ & H & Hin); split; [ | split ]; assumption).
  assert (H9 : forall sale (c w : @Tables F) it,
             R_in sale c w ->
             R_in sale c (sql_insert_sale_item (sale_item_row sale it) w)).
  { intros sale c w it (H & H' & Hin).
    split; [ exact H | split; [ | exact Hin ] ].
    apply consistent_insert_sale_item; assumption. }
  assert (H10 : forall sale (c w : @Tables F) product_id delta,
              R_in sale c w -> R_in sale c (sql_update_stock product_id delta w)).
  { intros sale c w i q (H & H' & Hin).
    split; [ exact H | split; [ | exact Hin ] ].
    apply consistent_update_stock, H'. }
  split.
  - apply (run_calls_stable R R_in (fun _ => True)
             H1 H2 H3 H4 H5 H6 H7 H8 H9 H10 calls d); [ auto | exact Hd ].
  - apply (hoare_snd (on_tables R)); [ | exact Hd ].
    apply (keeps_import R (fun _ => True) H1 H2 H4); auto.
Qed.

(** X2: the sales and the line items are only ever appended to.  Through
    every sequence of calls of the methods of [Database], with or without
    storage failures, the committed tables and the tables the connection
    sees keep every sale and every line item they held, in their order,
    in front of the new ones; nothing pending is ever more than an
    appendix of what is committed. *)
Theorem ledger_is_append_only (calls : list (@db_call F)) d :
  extends (committed d) (working d) ->
  extends (committed d) (committed (run_calls calls d)) /\
  extends (working d) (working (run_calls calls d)) /\
  extends (committed (run_calls calls d)) (working (run_calls calls d)).
Proof.
  intros Hd.
  set (R := fun c w : @Tables F =>
              extends (committed d) c /\ extends (working d) w /\ extends c w).
  assert (Hstep : forall (c w w' : @Tables F),
            sales w' = sales w -> sale_items w' = sale_items w ->
            R c w -> R c w').
  { intros c w w' Es Ei (H1 & H2 & H3).
    assert (Hs : exists more, sales w' = sales w ++ more)
      by (exists []; rewrite app_nil_r; exact Es).
    assert (Hi : exists more, sale_items w' = sale_items w ++ more)
      by (exists []; rewrite app_nil_r; exact Ei).
    split; [ exact H1 | split ]; apply (extends_step _ w w'); assumption. }
  assert (Hgrow : forall (c w w' : @Tables F),
            (exists more, sales w' = sales w ++ more) ->
            (exists more, sale_items w' = sale_items w ++ more) ->
            R c w -> R c w').
  { intros c w w' Hs Hi (H1 & H2 & H3).
    split; [ exact H1 | split ]; apply (extends_step _ w w'); assumption. }
  apply (run_calls_stable R (fun _ => R) (fun _ => True)).
  - intros c w (H1 & H2 & H3). split; [ | split ].
    + apply (extends_trans _ c w); assumption.
    + exact H2.
    + apply extends_refl.
  - intros c w w' b n p q _ H E.
    destruct (insert_product_ledger _ _ _ _ _ _ E) as [Es Ei].
    apply (Hstep c w w'); assumption.
  - intros c w i H. apply (Hstep c w); [ reflexivity | reflexivity | exact H ].
  - intros c w i n p q _ H.
    apply (Hstep c w); [ reflexivity | reflexivity | exact H ].
  - intros c w i q H. apply (Hstep c w); [ reflexivity | reflexivity | exact H ].
  - intros c w ts total H. apply (Hgrow c w); [ | | exact H ]; simpl.
    + eexists. reflexivity.
    + exists []. rewrite app_nil_r. reflexivity.
  - auto.
  - intros sale c w (H1 & H2 & H3). split; [ | split ].
    + apply (extends_trans _ c w); assumption.
    + exact H2.
    + apply extends_refl.
  - intros sale c w it H. apply (Hgrow c w); [ | | exact H ]; simpl.
    + exists []. rewrite app_nil_r. reflexivity.
    + eexists. reflexivity.
  - intros sale c w i q H.
    apply (Hstep c w); [ reflexivity | reflexivity | exact H ].
  - auto.
  - split; [ apply extends_refl | split; [ apply extends_refl | exact Hd ] ].
Qed.

Lemma stocks_nonneg_insert barcode name price qty t t' :
  0 <= qty ->
  sql_insert_product barcode name price qty t = Some t' ->
  stocks_nonneg t -> stocks_nonneg t'.
Proof.
  unfold sql_insert_product. destruct (existsb _ _); [ discriminate | ].
  intros Hq [= <-] H. unfold stocks_nonneg in *. simpl.
  apply Forall_app. split; [ exact H | ].
  constructor; [ exact Hq | constructor ].
Qed.

Lemma stocks_nonneg_update_product product_id name price qty t :
  0 <= qty ->
  stocks_nonneg t -> stocks_nonneg (sql_update_product product_id name price qty t).
Proof.
  intros Hq H. unfold stocks_nonneg in *. simpl. apply Forall_map.
  revert H. apply Forall_impl. intros p Hp. unfold rewrite_row.
  destruct (row_id p =? product_id); [ exact Hq | exact Hp ].
Qed.

Lemma stocks_nonneg_delete product_id t :
  stocks_nonneg t -> stocks_nonneg (snd (sql_delete_product product_id t)).
Proof.
  intros H. unfold stocks_nonneg in *. simpl.
  apply Forall_forall. intros p Hp. apply filter_In in Hp.
  rewrite Forall_forall in H. apply H, Hp.
Qed.

(** X3: a stock can become negative only by a call of [add_product] or
    [update_product] that writes a negative quantity.  Along every other
    sequence of calls of the methods of [Database], stocks that are
    non-negative stay non-negative, in the committed tables and in those
    the connection sees, with or without storage failures. *)
Theorem stock_stays_nonneg_through_calls (calls : list (@db_call F)) d :
  (forall call q, In call calls -> stock_written call = Some q -> 0 <= q) ->
  stocks_nonneg (committed d) -> stocks_nonneg (working d) ->
  stocks_nonneg (committed (run_calls calls d)) /\
  stocks_nonneg (working (run_calls calls d)).
Proof.
  intros Hok Hc Hw.
  set (R := fun c w : @Tables F => stocks_nonneg c /\ stocks_nonneg w).
  apply (run_calls_stable R (fun _ => R) (fun q => 0 <= q)).
  - intros c w [_ H]. split; exact H.
  - intros c w w' b n p q Hq [H H'] E.
    split; [ exact H | exact (stocks_nonneg_insert _ _ _ _ _ _ Hq E H') ].
  - intros c w i [H H']. split; [ exact H | apply stocks_nonneg_delete, H' ].
  - intros c w i n p q Hq [H H'].
    split; [ exact H | apply stocks_nonneg_update_product; assumption ].
  - intros c w i q [H H'].
    split; [ exact H | apply sql_update_stock_nonneg, H' ].
  - intros c w ts total H. exact H.
  - auto.
  - intros sale c w [_ H]. split; exact H.
  - intros sale c w it H. exact H.
  - intros sale c w i q [H H'].
    split; [ exact H | apply sql_update_stock_nonneg, H' ].
  - exact Hok.
  - split; assumption.
Qed.

(** ** Products: insert, look up, update, delete *)

Lemma id_retired_map product_id (f : @ProductRow F -> @ProductRow F) t :
  (forall p, row_id (f p) = row_id p) ->
  id_retired product_id t ->
  id_retired product_id (set_products (map f (products t)) t).
Proof.
  intros Hid [Hs Hno]. split; [ exact Hs | ]. simpl.
  intros p Hp. apply in_map_iff in Hp. destruct Hp as (p0 & <- & Hp0).
  rewrite Hid. apply Hno, Hp0.
Qed.

Lemma id_retired_insert product_id barcode name price qty t t' :
  sql_insert_product barcode name price qty t = Some t' ->
  id_retired product_id t -> id_retired product_id t'.
Proof.
  unfold sql_insert_product. destruct (existsb _ _); [ discriminate | ].
  intros [= <-] [Hs Hno]. split; simpl; [ lia | ].
  intros p Hp. apply in_app_iff in Hp.
  destruct Hp as [Hp | [<- | []]]; [ apply Hno, Hp | simpl; lia ].
Qed.

Lemma id_retired_delete product_id other t :
  id_retired product_id t ->
  id_retired product_id (snd (sql_delete_product other t)).
Proof.
  intros [Hs Hno]. split; [ exact Hs | ]. simpl.
  intros p Hp. apply filter_In in Hp. apply Hno, Hp.
Qed.

(** A call of [delete_product] that returns has made both of its calls
    into the storage layer. *)
Lemma delete_product_returned product_id d b d1 :
  delete_product product_id d = (Returned b, d1) ->
  committed d1 = snd (sql_delete_product product_id (working d)) /\
  working d1 = snd (sql_delete_product product_id (working d)) /\
  b = (0 <? fst (sql_delete_product product_id (working d))).
Proof.
  unfold delete_product, execute_returning, commit, bind, io, gets, modify, ret.
  destruct d as [c w [[|[|n]]|]]; simpl; intros H;
    try discriminate H; injection H as Hb Hd; subst; repeat split.
Qed.

Lemma delete_rowcount product_id t :
  (0 <? fst (sql_delete_product product_id t)) = true <->
  exists p, In p (products t) /\ row_id p = product_id.
Proof.
  unfold sql_delete_product. simpl.
  destruct (filter (fun p => row_id p =? product_id) (products t))
    as [|p ps] eqn:E; simpl.
  - split; [ discriminate | ]. intros (p & Hp & Hid). exfalso.
    assert (Hin : In p (filter (fun p => row_id p =? product_id) (products t))).
    { apply filter_In. split; [ exact Hp | apply Z.eqb_eq, Hid ]. }
    rewrite E in Hin. exact Hin.
  - split; [ intros _ | intros _; apply Z.ltb_lt; lia ].
    assert (Hin : In p (filter (fun p => row_id p =? product_id) (products t)))
      by (rewrite E; left; reflexivity).
    apply filter_In in Hin. destruct Hin as [Hp Hid]. apply Z.eqb_eq in Hid.
    exists p. split; assumption.
Qed.

Lemma find_none_iff {A} (f : A -> bool) (xs : list A) :
  find f xs = None <-> forall x, In x xs -> f x = false.
Proof.
  split; [ apply find_none | ].
  induction xs as [|x xs IH]; simpl; intros H; [ reflexivity | ].
  rewrite (H x (or_introl eq_refl)). apply IH. intros y Hy. apply H. right. exact Hy.
Qed.

Lemma id_retired_select product_id t :
  id_retired product_id t -> sql_select_product_by_id product_id t = None.
Proof.
  intros [_ Hno]. apply find_none_iff. intros p Hp.
  apply Z.eqb_neq, Hno, Hp.
Qed.

(** X4: the id of a deleted product is never given to another product.
    Once [delete_product] has returned [True] for an id, no product has
    that id after any sequence of calls of the methods of [Database]: it
    cannot be looked up, and no line of any sale's details refers to
    it. *)
Theorem deleted_id_is_never_reused product_id d d1 (calls : list (@db_call F)) :
  products_keyed (working d) ->
  delete_product product_id d = (Returned true, d1) ->
  sql_select_product_by_id product_id (working (run_calls calls d1)) = None /\
  sql_select_product_by_id product_id (committed (run_calls calls d1)) = None /\
  forall id r,
    In r (sql_select_sale_items id (working (run_calls calls d1))) ->
    d_product_id r <> product_id.
Proof.
  intros (_ & _ & Hseq) E.
  destruct (delete_product_returned _ _ _ _ E) as (Ec & Ew & Eb).
  assert (Hret : id_retired product_id (snd (sql_delete_product product_id (working d)))).
  { split; simpl.
    - symmetry in Eb. apply delete_rowcount in Eb. destruct Eb as (p & Hp & <-).
      rewrite Forall_forall in Hseq. apply Hseq, Hp.
    - intros p Hp. apply filter_In in Hp. destruct Hp as [_ Hne].
      apply negb_true_iff, Z.eqb_neq in Hne. exact Hne. }
  set (R := fun c w : @Tables F => id_retired product_id c /\ id_retired product_id w).
  assert (HR : on_tables R (run_calls calls d1)).
  { apply (run_calls_stable R (fun _ => R) (fun _ => True)).
    - intros c w [_ H]. split; exact H.
    - intros c w w' b n p q _ [H H'] Ei.
      split; [ exact H | exact (id_retired_insert _ _ _ _ _ _ _ Ei H') ].
    - intros c w i [H H']. split; [ exact H | apply id_retired_delete, H' ].
    - intros c w i n p q _ [H H'].
      split; [ exact H | apply id_retired_map; [ apply rewrite_row_id | exact H' ] ].
    - intros c w i q [H H'].
      split; [ exact H | apply id_retired_map; [ apply update_row_id | exact H' ] ].
    - intros c w ts total H. exact H.
    - auto.
    - intros sale c w [_ H]. split; exact H.
    - intros sale c w it H. exact H.
    - intros sale c w i q [H H'].
      split; [ exact H | apply id_retired_map; [ apply update_row_id | exact H' ] ].
    - auto.
    - unfold on_tables, R. rewrite Ec, Ew. split; exact Hret. }
  destruct HR as [Hc Hw].
  split; [ apply id_retired_select, Hw | ].
  split; [ apply id_retired_select, Hc | ].
  intros id r Hr. unfold sql_select_sale_items in Hr.
  apply in_flat_map in Hr. destruct Hr as (si & _ & Hr).
  apply in_map_iff in Hr. destruct Hr as (p & <- & Hp).
  apply filter_In in Hp. destruct Hp as [Hp Hid]. apply Z.eqb_eq in Hid.
  simpl. rewrite Hid. apply (proj2 Hw), Hp.
Qed.

Lemma add_product_healthy barcode name price qty d :
  healthy d ->
  add_product barcode name price qty d
  = match sql_insert_product barcode name price qty (working d) with
    | None => (Raised IntegrityError, d)
    | Some t' => (Returned tt, synced t' d)
    end.
Proof.
  intros H. unfold add_product.
  rewrite (bind_returned _ _ _ _ _ (io_healthy d H)).
  unfold bind at 1. unfold gets at 1.
  destruct (sql_insert_product barcode name price qty (working d)) as [t'|];
    [ | reflexivity ].
  unfold bind at 1. unfold modify at 1.
  rewrite (commit_healthy (set_working t' d) H). reflexivity.
Qed.

Lemma update_product_healthy product_id name price qty d :
  healthy d ->
  update_product product_id name price qty d
  = (Returned tt,
     synced (sql_update_product product_id name price qty (working d)) d).
Proof.
  intros H. unfold update_product.
  rewrite (bind_returned _ _ _ _ _ (execute_healthy _ d H)).
  rewrite commit_healthy by exact H. reflexivity.
Qed.

Lemma find_app_one {A} (f : A -> bool) (xs : list A) (x : A) :
  find f (xs ++ [x])
  = match find f xs with
    | Some y => Some y
    | None => if f x then Some x else None
    end.
Proof.
  induction xs as [|y xs IH]; simpl; [ reflexivity | ].
  destruct (f y); [ reflexivity | exact IH ].
Qed.

Lemma find_map_same {A} (f : A -> bool) (g : A -> A) (xs : list A) :
  (forall x, f (g x) = f x) ->
  find f (map g xs) = option_map g (find f xs).
Proof.
  intros H. induction xs as [|x xs IH]; simpl; [ reflexivity | ].
  rewrite H. destruct (f x); [ reflexivity | exact IH ].
Qed.

Lemma find_filter_other {A} (f g : A -> bool) (xs : list A) :
  (forall x, f x = true -> g x = true) ->
  find f (filter g xs) = find f xs.
Proof.
  intros H. induction xs as [|x xs IH]; simpl; [ reflexivity | ].
  destruct (f x) eqn:Ef.
  - rewrite (H x Ef). simpl. rewrite Ef. reflexivity.
  - destruct (g x); simpl; [ rewrite Ef | ]; exact IH.
Qed.

(** X5: a product that [add_product] has inserted is what a lookup of its
    barcode returns, with a new id one above the counter, and the lookups
    of the other barcodes are what they were.  A barcode that is already
    in the table makes [add_product] raise [IntegrityError] and leaves
    the database as it was. *)
Theorem add_product_then_lookup barcode name price qty d :
  healthy d ->
  ((forall p, In p (products (working d)) -> row_barcode p <> barcode) ->
   let new := {| row_id := products_seq (working d) + 1;
                 row_barcode := barcode; row_name := name;
                 row_price := price; quantity_in_stock := qty |} in
   exists d1,
     add_product barcode name price qty d = (Returned tt, d1) /\
     committed d1 = working d1 /\
     products (working d1) = products (working d) ++ [new] /\
     get_product_by_barcode barcode d1 = (Returned (Some new), d1) /\
     forall other,
       other <> barcode ->
       get_product_by_barcode other d1
       = (Returned (sql_select_product_by_barcode other (working d)), d1)) /\
  (forall p,
     In p (products (working d)) -> row_barcode p = barcode ->
     add_product barcode name price qty d = (Raised IntegrityError, d)).
Proof.
  intros H. rewrite (add_product_healthy _ _ _ _ _ H).
  unfold sql_insert_product. split.
  - intros Hnew. cbv zeta.
    assert (Hfind : find (fun p => (row_barcode p =? barcode)%string)
                      (products (working d)) = None).
    { apply find_none_iff. intros p Hp. apply String.eqb_neq, Hnew, Hp. }
    assert (E : existsb (fun p => (row_barcode p =? barcode)%string)
                  (products (working d)) = false).
    { destruct (existsb _ _) eqn:E; [ | reflexivity ].
      apply existsb_exists in E. destruct E as (p & Hp & Hb).
      apply String.eqb_eq in Hb. exfalso. exact (Hnew p Hp Hb). }
    rewrite E. eexists. split; [ reflexivity | ].
    split; [ reflexivity | ]. split; [ reflexivity | ].
    unfold get_product_by_barcode.
    split.
    + rewrite query_healthy by exact H. unfold sql_select_product_by_barcode.
      cbn [working synced products]. rewrite find_app_one, Hfind.
      cbn [row_barcode]. rewrite String.eqb_refl. reflexivity.
    + intros other Hother. rewrite query_healthy by exact H.
      unfold sql_select_product_by_barcode.
      cbn [working synced products]. rewrite find_app_one.
      destruct (find (fun p => (row_barcode p =? other)%string)
                  (products (working d))); [ reflexivity | ].
      cbn [row_barcode]. rewrite (proj2 (String.eqb_neq _ _)); [ reflexivity | ].
      intros Eq. apply Hother. symmetry. exact Eq.
  - intros p Hp Hb.
    assert (E : existsb (fun p => (row_barcode p =? barcode)%string)
                  (products (working d)) = true).
    { apply existsb_exists. exists p. split; [ exact Hp | ].
      apply String.eqb_eq, Hb. }
    rewrite E. reflexivity.
Qed.

(** X6: [update_product] returns normally whether or not a product has
    the id, and reports nothing.  It rewrites name, price and stock of the
    rows with that id, keeps their id and barcode, and writes the stock it
    is given as it is, negative or not; a lookup of the id afterwards
    returns the rewritten row, a lookup of another id what it returned
    before, and when no product has the id no row changes. *)
Theorem update_product_rewrites product_id name price qty d :
  healthy d ->
  exists d1,
    update_product product_id name price qty d = (Returned tt, d1) /\
    committed d1 = working d1 /\
    products (working d1)
    = map (rewrite_row product_id name price qty) (products (working d)) /\
    ((forall p, In p (products (working d)) -> row_id p <> product_id) ->
     products (working d1) = products (working d)) /\
    (forall p,
       sql_select_product_by_id product_id (working d) = Some p ->
       get_product_by_id product_id d1
       = (Returned (Some {| row_id := product_id;
                            row_barcode := row_barcode p; row_name := name;
                            row_price := price; quantity_in_stock := qty |}),
          d1)) /\
    (forall other,
       other <> product_id ->
       get_product_by_id other d1
       = (Returned (sql_select_product_by_id other (working d)), d1)).
Proof.
  intros H. rewrite (update_product_healthy _ _ _ _ _ H).
  eexists. split; [ reflexivity | ]. split; [ reflexivity | ].
  split; [ reflexivity | ].
  assert (Hfind : forall i,
            find (fun p => row_id p =? i)
              (map (rewrite_row product_id name price qty)
                 (products (working d)))
            = option_map (rewrite_row product_id name price qty)
                (find (fun p => row_id p =? i) (products (working d)))).
  { intros i. apply find_map_same. intros p. rewrite rewrite_row_id.
    reflexivity. }
  split; [ | split ].
  - intros Hno. cbn [working synced sql_update_product set_products products].
    rewrite <- (map_id (products (working d))) at 2.
    apply map_ext_in. intros p Hp. unfold rewrite_row.
    rewrite (proj2 (Z.eqb_neq _ _) (Hno p Hp)). reflexivity.
  - intros p Hp. unfold get_product_by_id.
    rewrite query_healthy by exact H. unfold sql_select_product_by_id in *.
    cbn [working synced sql_update_product set_products products].
    rewrite Hfind, Hp. simpl.
    apply find_some in Hp. destruct Hp as [_ Hid]. apply Z.eqb_eq in Hid.
    unfold rewrite_row. rewrite Hid, Z.eqb_refl. reflexivity.
  - intros other Hother. unfold get_product_by_id.
    rewrite query_healthy by exact H. unfold sql_select_product_by_id.
    cbn [working synced sql_update_product set_products products].
    rewrite Hfind.
    destruct (find _ (products (working d))) as [p|] eqn:Ef; [ | reflexivity ].
    apply find_some in Ef. destruct Ef as [_ Hid]. apply Z.eqb_eq in Hid.
    simpl. unfold rewrite_row.
    rewrite (proj2 (Z.eqb_neq _ _)) by congruence. reflexivity.
Qed.

Lemma filter_filter_same {A} (f : A -> bool) (xs : list A) :
  filter f (filter f xs) = filter f xs.
Proof.
  induction xs as [|x xs IH]; simpl; [ reflexivity | ].
  destruct (f x) eqn:E; simpl; [ rewrite E, IH | ]; auto.
Qed.

Lemma filter_none {A} (f : A -> bool) (xs : list A) :
  (forall x, In x xs -> f x = false) -> filter f xs = [].
Proof.
  induction xs as [|x xs IH]; simpl; intros H; [ reflexivity | ].
  rewrite (H x (or_introl eq_refl)). apply IH. intros y Hy. apply H. right. exact Hy.
Qed.

(** X7: [delete_product] returns [True] exactly when a product had the
    id.  Afterwards a lookup of the id finds nothing, a lookup of another
    id finds what it found before, and a second [delete_product] of the
    id returns [False] and changes nothing. *)
Theorem delete_product_reports product_id d :
  healthy d ->
  exists b d1,
    delete_product product_id d = (Returned b, d1) /\
    (b = true <-> exists p, In p (products (working d)) /\ row_id p = product_id) /\
    get_product_by_id product_id d1 = (Returned None, d1) /\
    (forall other,
       other <> product_id ->
       get_product_by_id other d1
       = (Returned (sql_select_product_by_id other (working d)), d1)) /\
    delete_product product_id d1 = (Returned false, d1).
Proof.
  intros H. rewrite (delete_product_healthy _ _ H).
  eexists. eexists. split; [ reflexivity | ].
  split; [ apply delete_rowcount | ].
  assert (H1 : healthy (synced (snd (sql_delete_product product_id (working d))) d))
    by exact H.
  unfold get_product_by_id.
  split; [ | split ].
  - rewrite query_healthy by exact H1. f_equal. f_equal.
    apply find_none_iff. cbn [working synced]. simpl.
    intros p Hp. apply filter_In in Hp. destruct Hp as [_ Hne].
    apply negb_true_iff in Hne. exact Hne.
  - intros other Hother. rewrite query_healthy by exact H1. f_equal. f_equal.
    unfold sql_select_product_by_id. cbn [working synced]. simpl.
    apply find_filter_other. intros p Hp. apply Z.eqb_eq in Hp.
    apply negb_true_iff, Z.eqb_neq. congruence.
  - rewrite (delete_product_healthy _ _ H1). cbn [working synced]. simpl.
    rewrite filter_filter_same.
    rewrite (filter_none (fun p => row_id p =? product_id)).
    + reflexivity.
    + intros p Hp. apply filter_In in Hp. destruct Hp as [_ Hne].
      apply negb_true_iff in Hne. exact Hne.
Qed.

(** ** Queries: ORDER BY, the low stock list and the list of sales *)

Lemma insert_sorted_perm {A} (le : A -> A -> bool) (x : A) (xs : list A) :
  Permutation (insert_sorted le x xs) (x :: xs).
Proof.
  induction xs as [|y xs IH]; simpl; [ apply Permutation_refl | ].
  destruct (le x y); [ apply Permutation_refl | ].
  apply perm_trans with (y :: x :: xs); [ | apply perm_swap ].
  apply perm_skip, IH.
Qed.

Lemma order_by_perm {A} (le : A -> A -> bool) (xs : list A) :
  Permutation (order_by le xs) xs.
Proof.
  induction xs as [|x xs IH]; simpl; [ apply perm_nil | ].
  apply perm_trans with (x :: order_by le xs);
    [ apply insert_sorted_perm | apply perm_skip, IH ].
Qed.

Lemma order_by_In {A} (le : A -> A -> bool) (xs : list A) (x : A) :
  In x (order_by le xs) <-> In x xs.
Proof.
  split; apply Permutation_in;
    [ apply order_by_perm | apply Permutation_sym, order_by_perm ].
Qed.

Lemma insert_sorted_Sorted {A} (le : A -> A -> bool) (x : A) (xs : list A) :
  (forall a b, le a b = true \/ le b a = true) ->
  Sorted (fun a b => le a b = true) xs ->
  Sorted (fun a b => le a b = true) (insert_sorted le x xs).
Proof.
  intros Htotal. induction xs as [|y xs IH]; simpl; intros Hs.
  - repeat constructor.
  - destruct (le x y) eqn:E.
    + constructor; [ exact Hs | constructor; exact E ].
    + inversion Hs as [|y' xs' Hxs Hhd]; subst.
      constructor; [ apply IH, Hxs | ].
      destruct xs as [|z xs]; simpl.
      * constructor. destruct (Htotal x y) as [H | H]; [ congruence | exact H ].
      * destruct (le x z).
        -- constructor. destruct (Htotal x y) as [H | H]; [ congruence | exact H ].
        -- inversion Hhd; subst. constructor. assumption.
Qed.

Lemma order_by_Sorted {A} (le : A -> A -> bool) (xs : list A) :
  (forall a b, le a b = true \/ le b a = true) ->
  Sorted (fun a b => le a b = true) (order_by le xs).
Proof.
  intros Htotal. induction xs as [|x xs IH]; simpl; [ constructor | ].
  apply insert_sorted_Sorted; assumption.
Qed.

(** X8: [get_low_stock_products] returns the products whose stock is at
    most the threshold, the threshold included, each of them once, in
    ascending order of stock. *)
Theorem low_stock_products_listed threshold d :
  healthy d ->
  exists rows,
    get_low_stock_products threshold d = (Returned rows, d) /\
    Permutation rows
      (filter (fun p => quantity_in_stock p <=? threshold) (products (working d))) /\
    (forall p, In p rows <->
               In p (products (working d)) /\ quantity_in_stock p <= threshold) /\
    StronglySorted (fun p q => quantity_in_stock p <= quantity_in_stock q) rows.
Proof.
  intros H. unfold get_low_stock_products. rewrite query_healthy by exact H.
  eexists. split; [ reflexivity | ]. unfold sql_low_stock.
  split; [ apply order_by_perm | ]. split.
  - intros p. rewrite order_by_In, filter_In, Z.leb_le. reflexivity.
  - apply Sorted_StronglySorted.
    + intros p q r Hpq Hqr. lia.
    + assert (Hs : Sorted
                (fun p q : @ProductRow F =>
                   (quantity_in_stock p <=? quantity_in_stock q) = true)
                (order_by
                   (fun p q => quantity_in_stock p <=? quantity_in_stock q)
                   (filter (fun p => quantity_in_stock p <=? threshold)
                      (products (working d))))).
      { apply order_by_Sorted. intros p q.
        destruct (Z.le_ge_cases (quantity_in_stock p) (quantity_in_stock q));
          [ left | right ]; apply Z.leb_le; assumption. }
      revert Hs. generalize (order_by
                   (fun p q : @ProductRow F =>
                      quantity_in_stock p <=? quantity_in_stock q)
                   (filter (fun p => quantity_in_stock p <=? threshold)
                      (products (working d)))).
      intros rows Hs. induction Hs as [|p rows Hrows IH Hhd]; constructor.
      * exact IH.
      * destruct Hhd as [|q rows' Hpq]; constructor. apply Z.leb_le, Hpq.
Qed.

Lemma ascii_compare_refl (a : ascii) : Ascii.compare a a = Eq.
Proof. unfold Ascii.compare. apply N.compare_refl. Qed.

(** A text followed by more text is above the text itself. *)
Lemma leb_longer (day rest : string) :
  rest <> ""%string -> ((day ++ rest) <=? day)%string = false.
Proof.
  intros Hrest. unfold String.leb.
  assert (E : String.compare (day ++ rest) day = Gt).
  { induction day as [|c day IH]; simpl.
    - destruct rest; [ congruence | reflexivity ].
    - rewrite ascii_compare_refl. exact IH. }
  rewrite E. reflexivity.
Qed.

Lemma leb_both (a b : string) :
  (a <=? b)%string = true -> (b <=? a)%string = true -> a = b.
Proof. intros H1 H2. apply String.leb_antisym; assumption. Qed.

(** X9: [list_sales] returns the sales whose timestamp is not below
    [date_from], when that is given, and not above [date_to], when that
    is given, as texts; an empty string counts as not given, like [None].
    Each such sale is returned once, and the timestamps never increase
    along the list. *)
Theorem list_sales_filters date_from date_to d :
  healthy d ->
  exists rows,
    list_sales date_from date_to d = (Returned rows, d) /\
    Permutation rows
      (filter
         (fun x =>
            (negb (given date_from)
             || (text date_from <=? sale_timestamp x)%string)
            && (negb (given date_to)
                || (sale_timestamp x <=? text date_to)%string))
         (sales (working d))) /\
    (forall x : @SaleRow F,
       In x rows <->
       In x (sales (working d)) /\
       (given date_from = true ->
        (text date_from <=? sale_timestamp x)%string = true) /\
       (given date_to = true ->
        (sale_timestamp x <=? text date_to)%string = true)) /\
    Sorted (fun a b => (sale_timestamp b <=? sale_timestamp a)%string = true) rows.
Proof.
  intros H. unfold list_sales. rewrite query_healthy by exact H.
  eexists. split; [ reflexivity | ]. unfold sql_list_sales.
  assert (Hfilter :
    filter
      (fun x : @SaleRow F =>
         if given date_from && given date_to
         then (text date_from <=? sale_timestamp x)%string
              && (sale_timestamp x <=? text date_to)%string
         else if given date_from
              then (text date_from <=? sale_timestamp x)%string
              else if given date_to
                   then (sale_timestamp x <=? text date_to)%string
                   else true)
      (sales (working d))
    = filter
        (fun x =>
           (negb (given date_from)
            || (text date_from <=? sale_timestamp x)%string)
           && (negb (given date_to)
               || (sale_timestamp x <=? text date_to)%string))
        (sales (working d))).
  { apply filter_ext. intros x.
    destruct (given date_from), (given date_to); simpl;
      try reflexivity; rewrite andb_true_r; reflexivity. }
  rewrite Hfilter. split; [ apply order_by_perm | ]. split.
  - intros x. rewrite order_by_In, filter_In, andb_true_iff.
    destruct (given date_from), (given date_to); simpl; intuition congruence.
  - apply order_by_Sorted. intros a b. apply String.leb_total.
Qed.

(** X10: an upper bound that is a plain date shuts out the sales of that
    date.  When [date_to] is given, [list_sales] returns no sale whose
    timestamp is [date_to] followed by more text, as the timestamp
    [date_to ++ "T10:30:00"] that [record_sale] writes is; and with the
    same text for both bounds it returns only sales whose timestamp is
    that very text. *)
Theorem list_sales_end_date_excluded date_from (day : string) d d1 rows :
  day <> ""%string ->
  list_sales date_from (Some day) d = (Returned rows, d1) ->
  (forall (x : @SaleRow F) rest,
     In x rows -> rest <> ""%string ->
     sale_timestamp x <> (day ++ rest)%string) /\
  (date_from = Some day ->
   forall x : @SaleRow F, In x rows -> sale_timestamp x = day).
Proof.
  intros Hday E.
  assert (Hrows : rows = sql_list_sales date_from (Some day) (working d)).
  { unfold list_sales, query, bind, io, gets in E.
    destruct (io_budget d) as [[|n]|]; simpl in E; try discriminate E;
      injection E as <- _; reflexivity. }
  assert (Hgiven : given (Some day) = true)
    by (simpl; apply negb_true_iff, String.eqb_neq, Hday).
  assert (Hupper : forall x : @SaleRow F,
            In x rows -> (sale_timestamp x <=? day)%string = true).
  { intros x Hx. rewrite Hrows in Hx. unfold sql_list_sales in Hx.
    apply order_by_In in Hx. apply filter_In in Hx. destruct Hx as [_ Hx].
    rewrite Hgiven in Hx. simpl text in Hx.
    destruct (given date_from); simpl in Hx;
      [ apply andb_true_iff in Hx; apply Hx | exact Hx ]. }
  split.
  - intros x rest Hx Hrest Ets. specialize (Hupper x Hx).
    rewrite Ets, (leb_longer day rest Hrest) in Hupper. discriminate.
  - intros -> x Hx. pose proof (Hupper x Hx) as Hle.
    rewrite Hrows in Hx. unfold sql_list_sales in Hx.
    apply order_by_In in Hx. apply filter_In in Hx. destruct Hx as [_ Hx].
    rewrite Hgiven in Hx. simpl in Hx. apply andb_true_iff in Hx.
    symmetry. apply leb_both; [ apply Hx | exact Hle ].
Qed.

(** ** search_products *)

Lemma like_percent_unfold (p x : string) :
  like (String "%" p) x
  = like p x || match x with
                | EmptyString => false
                | String _ x' => like (String "%" p) x'
                end.
Proof. destruct x; reflexivity. Qed.

Lemma like_percent (p x : string) :
  like (String "%" p) x = true <->
  exists pre post, x = (pre ++ post)%string /\ like p post = true.
Proof.
  induction x as [|c x IH]; rewrite like_percent_unfold.
  - rewrite orb_false_r. split.
    + intros H. exists ""%string, ""%string. split; [ reflexivity | exact H ].
    + intros (pre & post & E & H). destruct pre; [ | discriminate E ].
      simpl in E. subst post. exact H.
  - rewrite orb_true_iff, IH. split.
    + intros [H | (pre & post & E & H)].
      * exists ""%string, (String c x). split; [ reflexivity | exact H ].
      * exists (String c pre), post. split; [ simpl; rewrite E; reflexivity | exact H ].
    + intros (pre & post & E & H). destruct pre as [|c' pre]; simpl in E.
      * left. rewrite E. exact H.
      * right. injection E as _ E. exists pre, post. split; assumption.
Qed.

Lemma like_all (x : string) : like "%" x = true.
Proof.
  apply like_percent. exists x, ""%string. split; [ | reflexivity ].
  induction x as [|c x IH]; simpl; [ reflexivity | rewrite <- IH; reflexivity ].
Qed.

Lemma lower_string_empty (x : string) :
  lower_string x = ""%string -> x = ""%string.
Proof. destruct x; [ reflexivity | discriminate ]. Qed.

Lemma like_literal (kw p : string) :
  literal kw = true ->
  forall x : string,
    like (kw ++ p) x = true <->
    exists mid rest,
      x = (mid ++ rest)%string /\
      lower_string mid = lower_string kw /\ like p rest = true.
Proof.
  induction kw as [|c kw IH]; intros Hlit x.
  - simpl. split.
    + intros H. exists ""%string, x. repeat split. exact H.
    + intros (mid & rest & E & Hm & H). apply lower_string_empty in Hm.
      subst mid. simpl in E. subst rest. exact H.
  - simpl in Hlit. apply andb_true_iff in Hlit. destruct Hlit as [Hc Hlit].
    apply andb_true_iff in Hc. destruct Hc as [Hp Hu].
    apply negb_true_iff in Hp. apply negb_true_iff in Hu.
    simpl. rewrite Hp, Hu. simpl. destruct x as [|d x].
    + split; [ discriminate | ].
      intros (mid & rest & E & Hm & _). destruct mid; discriminate.
    + rewrite andb_true_iff, (IH Hlit x), Ascii.eqb_eq. split.
      * intros [Hcd (mid & rest & E & Hm & H)].
        exists (String d mid), rest. split; [ simpl; rewrite E; reflexivity | ].
        split; [ simpl; rewrite Hm, Hcd; reflexivity | exact H ].
      * intros (mid & rest & E & Hm & H). destruct mid as [|d' mid];
          [ discriminate Hm | ].
        simpl in E, Hm. injection E as <- E. injection Hm as Hd Hm.
        split; [ symmetry; exact Hd | ]. exists mid, rest. repeat split; assumption.
Qed.

Lemma like_contains (kw x : string) :
  literal kw = true ->
  like ("%" ++ kw ++ "%") x = true <-> contains_nocase kw x.
Proof.
  intros Hlit. change ("%" ++ kw ++ "%")%string with (String "%" (kw ++ "%")).
  rewrite like_percent. unfold contains_nocase. split.
  - intros (pre & post & E & H). apply (like_literal kw "%" Hlit) in H.
    destruct H as (mid & rest & E' & Hm & _).
    exists pre, mid, rest. split; [ rewrite E, E'; reflexivity | exact Hm ].
  - intros (pre & mid & post & E & Hm). exists pre, (mid ++ post)%string.
    split; [ exact E | ]. apply (like_literal kw "%" Hlit).
    exists mid, post. repeat split; [ exact Hm | apply like_all ].
Qed.

Lemma like_one (x : string) : like "%_%" x = true <-> x <> ""%string.
Proof.
  change "%_%"%string with (String "%" "_%"). rewrite like_percent. split.
  - intros (pre & post & E & H). destruct post as [|c post];
      [ discriminate H | ].
    rewrite E. destruct pre; discriminate.
  - intros Hx. destruct x as [|c x]; [ congruence | ].
    exists ""%string, (String c x). split; [ reflexivity | ].
    simpl. apply (like_all x).
Qed.

(** X11: [search_products] returns, in the order of the table, the
    products whose name or barcode matches the keyword between two [%].
    For a keyword without [%] and [_], these are the products whose name
    or barcode contains the keyword, up to the case of ASCII letters; the
    empty keyword returns every product.  The two characters are not
    escaped: the keyword [%] returns every product, and the keyword [_]
    every product with a name or a barcode that is not empty. *)
Theorem search_products_matches keyword d :
  healthy d ->
  exists rows,
    search_products keyword d = (Returned rows, d) /\
    (exists f, rows = filter f (products (working d))) /\
    (literal keyword = true ->
     forall p, In p rows <->
               In p (products (working d)) /\
               (contains_nocase keyword (row_name p) \/
                contains_nocase keyword (row_barcode p))) /\
    (keyword = ""%string \/ keyword = "%"%string -> rows = products (working d)) /\
    (keyword = "_"%string ->
     forall p, In p rows <->
               In p (products (working d)) /\
               (row_name p <> ""%string \/ row_barcode p <> ""%string)).
Proof.
  intros H. unfold search_products. rewrite query_healthy by exact H.
  eexists. split; [ reflexivity | ]. unfold sql_search_products.
  split; [ eexists; reflexivity | ]. split; [ | split ].
  - intros Hlit p. rewrite filter_In, orb_true_iff.
    rewrite !(like_contains keyword _ Hlit). reflexivity.
  - intros Hk.
    assert (Hall : forall x : string, like ("%" ++ keyword ++ "%") x = true).
    { intros x. destruct Hk as [-> | ->].
      - apply (like_contains "" x eq_refl).
        exists ""%string, ""%string, x. split; reflexivity.
      - change ("%" ++ "%" ++ "%")%string with (String "%" "%%").
        apply like_percent. exists ""%string, x. split; [ reflexivity | ].
        change "%%"%string with (String "%" "%"). apply like_percent.
        exists ""%string, x. split; [ reflexivity | apply like_all ]. }
    rewrite <- (filter_ext (fun _ => true)).
    + induction (products (working d)) as [|p ps IH]; simpl;
        [ reflexivity | rewrite IH; reflexivity ].
    + intros p. rewrite Hall. reflexivity.
  - intros -> p. rewrite filter_In, orb_true_iff.
    change ("%" ++ "_" ++ "%")%string with "%_%"%string.
    rewrite !like_one. reflexivity.
Qed.

(** ** import_inventory_csv *)

Lemma insert_product_fresh barcode name price qty t :
  sql_select_product_by_barcode barcode t = None ->
  sql_insert_product barcode name price qty t
  = Some {| products := products t ++
              [{| row_id := products_seq t + 1; row_barcode := barcode;
                  row_name := name; row_price := price;
                  quantity_in_stock := qty |}];
            products_seq := products_seq t + 1; sales := sales t;
            sales_seq := sales_seq t; sale_items := sale_items t |}.
Proof.
  unfold sql_select_product_by_barcode, sql_insert_product. intros Hnone.
  destruct (existsb _ (products t)) eqn:E; [ | reflexivity ].
  apply existsb_exists in E. destruct E as (p & Hp & Hb).
  rewrite (find_none _ _ Hnone p Hp) in Hb. discriminate.
Qed.

Lemma import_loop_healthy (lines : list (@CsvRow F)) :
  forall d,
    healthy d ->
    exists d1,
      for_each lines (fun line =>
        existing <- get_product_by_barcode (csv_barcode line) ;;
        match existing with
        | Some r =>
            update_product (row_id r) (csv_name line) (csv_price line)
              (csv_quantity line)
        | None =>
            add_product (csv_barcode line) (csv_name line) (csv_price line)
              (csv_quantity line)
        end) d
      = (Returned tt, d1) /\
      healthy d1 /\
      working d1 = fold_left (fun t line => upsert_row line t) lines (working d) /\
      (lines <> [] -> committed d1 = working d1).
Proof.
  induction lines as [|line lines IH]; intros d H; simpl.
  - exists d. repeat split; [ exact H | congruence ].
  - assert (Hstep :
      (existing <- get_product_by_barcode (csv_barcode line) ;;
       match existing with
       | Some r =>
           update_product (row_id r) (csv_name line) (csv_price line)
             (csv_quantity line)
       | None =>
           add_product (csv_barcode line) (csv_name line) (csv_price line)
             (csv_quantity line)
       end) d
      = (Returned tt, synced (upsert_row line (working d)) d)).
    { unfold get_product_by_barcode.
      rewrite (bind_returned _ _ _ _ _ (query_healthy _ d H)).
      unfold upsert_row.
      destruct (sql_select_product_by_barcode (csv_barcode line) (working d))
        as [r|] eqn:E.
      - apply update_product_healthy, H.
      - rewrite (add_product_healthy _ _ _ _ _ H).
        rewrite (insert_product_fresh _ _ _ _ _ E). reflexivity. }
    rewrite (bind_returned _ _ _ _ _ Hstep).
    destruct (IH (synced (upsert_row line (working d)) d) H)
      as (d1 & E & H1 & Hw & Hc).
    exists d1. split; [ exact E | ]. split; [ exact H1 | ].
    split; [ exact Hw | ]. intros _.
    destruct lines as [|line' lines]; [ | apply Hc; discriminate ].
    simpl in E. injection E as <-. reflexivity.
Qed.

(** One line: what a lookup finds afterwards. *)
Lemma upsert_row_lookup (line : @CsvRow F) t :
  products_keyed t ->
  products_keyed (upsert_row line t) /\
  (exists r,
     sql_select_product_by_barcode (csv_barcode line) (upsert_row line t)
     = Some r /\
     row_barcode r = csv_barcode line /\ row_name r = csv_name line /\
     row_price r = csv_price line /\ quantity_in_stock r = csv_quantity line) /\
  (forall other,
     other <> csv_barcode line ->
     sql_select_product_by_barcode other (upsert_row line t)
     = sql_select_product_by_barcode other t) /\
  (forall bc r0,
     sql_select_product_by_barcode bc t = Some r0 ->
     exists r,
       sql_select_product_by_barcode bc (upsert_row line t) = Some r /\
       row_id r = row_id r0).
Proof.
  intros Hk. unfold upsert_row.
  destruct (sql_select_product_by_barcode (csv_barcode line) t) as [r|] eqn:E.
  - (* the barcode is there: the row is rewritten *)
    assert (Hfind : forall bc,
              sql_select_product_by_barcode bc
                (sql_update_product (row_id r) (csv_name line) (csv_price line)
                   (csv_quantity line) t)
              = option_map
                  (rewrite_row (row_id r) (csv_name line) (csv_price line)
                     (csv_quantity line))
                  (sql_select_product_by_barcode bc t)).
    { intros bc. unfold sql_select_product_by_barcode. simpl.
      apply find_map_same. intros p. rewrite rewrite_row_barcode. reflexivity. }
    pose proof (find_some _ _ E) as [Hr Hb]. apply String.eqb_eq in Hb.
    split; [ apply products_keyed_update_product, Hk | ].
    split; [ | split ].
    + rewrite Hfind, E. simpl. eexists. split; [ reflexivity | ].
      unfold rewrite_row. rewrite Z.eqb_refl. simpl. repeat split. exact Hb.
    + intros other Hother. rewrite Hfind.
      destruct (sql_select_product_by_barcode other t) as [r'|] eqn:E';
        [ | reflexivity ].
      simpl. f_equal. unfold rewrite_row.
      pose proof (find_some _ _ E') as [Hr' Hb']. apply String.eqb_eq in Hb'.
      destruct (row_id r' =? row_id r) eqn:Eid; [ | reflexivity ].
      apply Z.eqb_eq in Eid. exfalso. apply Hother.
      destruct Hk as (Hids & _ & _).
      assert (r' = r); [ | congruence ].
      clear - Hids Hr Hr' Eid.
      induction (products t) as [|p ps IH]; [ destruct Hr | ].
      simpl in Hids. inversion Hids as [|x xs Hx Hxs]; subst.
      destruct Hr as [-> | Hr], Hr' as [-> | Hr'].
      * reflexivity.
      * exfalso. apply Hx. rewrite <- Eid. apply in_map, Hr'.
      * exfalso. apply Hx. rewrite Eid. apply in_map, Hr.
      * apply IH; assumption.
    + intros bc r0 E0. rewrite Hfind, E0. simpl. eexists.
      split; [ reflexivity | apply rewrite_row_id ].
  - (* the barcode is new: a row is appended *)
    rewrite (insert_product_fresh _ _ _ _ _ E).
    split.
    { apply (products_keyed_insert _ _ _ _ _ _
               (insert_product_fresh _ (csv_name line) (csv_price line)
                  (csv_quantity line) _ E) Hk). }
    unfold sql_select_product_by_barcode in *. simpl.
    split; [ | split ].
    + rewrite find_app_one, E. simpl. rewrite String.eqb_refl.
      eexists. split; [ reflexivity | ]. repeat split.
    + intros other Hother. rewrite find_app_one.
      destruct (find (fun p : ProductRow => (row_barcode p =? other)%string)
                  (products t)) eqn:E'; [ reflexivity | ].
      simpl. rewrite (proj2 (String.eqb_neq _ _)); [ reflexivity | ].
      intros Eq. apply Hother. symmetry. exact Eq.
    + intros bc r0 E0. rewrite find_app_one, E0. eexists.
      split; reflexivity.
Qed.

Lemma import_fold_lookup (lines : list (@CsvRow F)) t :
  products_keyed t ->
  let t1 := fold_left (fun t line => upsert_row line t) lines t in
  products_keyed t1 /\
  (forall bc,
     match last_line bc lines with
     | Some line =>
         exists r,
           sql_select_product_by_barcode bc t1 = Some r /\
           row_barcode r = bc /\ row_name r = csv_name line /\
           row_price r = csv_price line /\
           quantity_in_stock r = csv_quantity line
     | None =>
         sql_select_product_by_barcode bc t1
         = sql_select_product_by_barcode bc t
     end) /\
  (forall bc r0,
     sql_select_product_by_barcode bc t = Some r0 ->
     exists r,
       sql_select_product_by_barcode bc t1 = Some r /\ row_id r = row_id r0).
Proof.
  intros Hk. induction lines as [|line lines IH] using rev_ind.
  - simpl. split; [ exact Hk | ]. split; [ reflexivity | ].
    intros bc r0 E. exists r0. split; [ exact E | reflexivity ].
  - cbv zeta in *. rewrite fold_left_app. simpl.
    destruct IH as (Hk1 & Hlast & Hids).
    destruct (upsert_row_lookup line _ Hk1) as (Hk2 & Hline & Hother & Hkeep).
    split; [ exact Hk2 | ]. split.
    + intros bc. unfold last_line. rewrite rev_app_distr. simpl.
      destruct (csv_barcode line =? bc)%string eqn:Eb.
      * apply String.eqb_eq in Eb. subst bc.
        destruct Hline as (r & E & Hr). exists r. split; [ exact E | exact Hr ].
      * apply String.eqb_neq in Eb. specialize (Hlast bc).
        unfold last_line in Hlast. rewrite Hother by congruence. exact Hlast.
    + intros bc r0 E0. destruct (Hids bc r0 E0) as (r1 & E1 & Hid1).
      destruct (Hkeep bc r1 E1) as (r & E & Hid).
      exists r. split; [ exact E | congruence ].
Qed.

(** X12: [import_inventory_csv] is an upsert by barcode that never trips
    over the UNIQUE constraint.  On a database with unique barcodes and
    ids it returns the number of lines; afterwards a lookup of a barcode
    of the file finds a product with the name, price and stock of the
    last line with that barcode, under the id the barcode had before if
    it had one, and a lookup of any other barcode finds what it found
    before.  Barcodes and ids are still unique. *)
Theorem import_is_upsert (lines : list (@CsvRow F)) d :
  healthy d ->
  products_keyed (working d) ->
  exists d1,
    import_inventory_csv lines d
    = (Returned (Z.of_nat (List.length lines)), d1) /\
    products_keyed (working d1) /\
    (lines <> [] -> committed d1 = working d1) /\
    (forall bc,
       match last_line bc lines with
       | Some line =>
           exists r,
             get_product_by_barcode bc d1 = (Returned (Some r), d1) /\
             row_barcode r = bc /\ row_name r = csv_name line /\
             row_price r = csv_price line /\
             quantity_in_stock r = csv_quantity line
       | None =>
           get_product_by_barcode bc d1
           = (Returned (sql_select_product_by_barcode bc (working d)), d1)
       end) /\
    (forall bc r0,
       sql_select_product_by_barcode bc (working d) = Some r0 ->
       exists r,
         get_product_by_barcode bc d1 = (Returned (Some r), d1) /\
         row_id r = row_id r0).
Proof.
  intros H Hk. unfold import_inventory_csv.
  destruct (import_loop_healthy lines d H) as (d1 & E & H1 & Hw & Hc).
  rewrite (bind_returned _ _ _ _ _ E).
  exists d1. split; [ reflexivity | ].
  destruct (import_fold_lookup lines (working d) Hk) as (Hk1 & Hlast & Hids).
  rewrite <- Hw in Hk1, Hlast, Hids.
  split; [ exact Hk1 | ]. split; [ exact Hc | ].
  unfold get_product_by_barcode. split.
  - intros bc. specialize (Hlast bc).
    destruct (last_line bc lines) as [line|].
    + destruct Hlast as (r & Er & Hr). exists r.
      rewrite query_healthy by exact H1. rewrite Er. split; [ reflexivity | exact Hr ].
    + rewrite query_healthy by exact H1. rewrite Hlast. reflexivity.
  - intros bc r0 E0. destruct (Hids bc r0 E0) as (r & Er & Hid).
    exists r. rewrite query_healthy by exact H1. rewrite Er.
    split; [ reflexivity | exact Hid ].
Qed.

(** ** The cart: remove_item, _remove_selected, _edit_cart_quantity *)

Lemma filter_all {A} (f : A -> bool) (xs : list A) :
  (forall x, In x xs -> f x = true) -> filter f xs = xs.
Proof.
  induction xs as [|x xs IH]; simpl; intros H; [ reflexivity | ].
  rewrite (H x (or_introl eq_refl)). f_equal. apply IH.
  intros y Hy. apply H. right. exact Hy.
Qed.

Lemma filter_filter_implies {A} (f g : A -> bool) (xs : list A) :
  (forall x, f x = true -> g x = true) ->
  filter f (filter g xs) = filter f xs.
Proof.
  intros H. induction xs as [|x xs IH]; simpl; [ reflexivity | ].
  destruct (f x) eqn:Ef.
  - rewrite (H x Ef). simpl. rewrite Ef, IH. reflexivity.
  - destruct (g x); simpl; [ rewrite Ef | ]; exact IH.
Qed.

Lemma remove_items_filter (selected : list Z) :
  forall c,
    items (fold_left (fun c item_id => remove_item item_id c) selected c)
    = filter (fun ci => negb (existsb (Z.eqb (prod_id (product ci))) selected))
        (items c).
Proof.
  induction selected as [|i sel IH]; intros c; simpl.
  - symmetry. apply filter_all. reflexivity.
  - rewrite IH. simpl.
    induction (items c) as [|ci l IHl]; simpl; [ reflexivity | ].
    destruct (prod_id (product ci) =? i); simpl; [ exact IHl | ].
    destruct (existsb _ sel); simpl; [ exact IHl | f_equal; exact IHl ].
Qed.

Lemma selected_existsb (selected : list Z) i :
  existsb (Z.eqb i) selected = true <-> In i selected.
Proof.
  rewrite existsb_exists. split.
  - intros (x & Hx & E). apply Z.eqb_eq in E. subst. exact Hx.
  - intros H. exists i. split; [ exact H | apply Z.eqb_refl ].
Qed.

(** X13: [_remove_selected] takes out of the cart exactly the lines
    whose product id is selected and keeps the others in their order; it
    does not touch the database.  Afterwards the cart holds nothing of a
    selected id and what it held of every other id; product ids that
    were distinct stay distinct and positive quantities stay positive. *)
Theorem remove_selected_drops_exactly (selected : list Z) s :
  db (_remove_selected selected s) = db s /\
  items (cart (_remove_selected selected s))
  = filter (fun ci => negb (existsb (Z.eqb (prod_id (product ci))) selected))
      (items (cart s)) /\
  (forall i,
     In i selected ->
     lines_of i (cart (_remove_selected selected s)) = [] /\
     cart_qty i (cart (_remove_selected selected s)) = 0) /\
  (forall i,
     ~ In i selected ->
     lines_of i (cart (_remove_selected selected s)) = lines_of i (cart s) /\
     cart_qty i (cart (_remove_selected selected s)) = cart_qty i (cart s)) /\
  (NoDup (cart_ids (cart s)) ->
   NoDup (cart_ids (cart (_remove_selected selected s)))) /\
  (quantities_positive (cart s) ->
   quantities_positive (cart (_remove_selected selected s))).
Proof.
  unfold lines_of, cart_qty, cart_ids, quantities_positive, _remove_selected.
  cbn [db cart]. rewrite remove_items_filter.
  split; [ reflexivity | ]. split; [ reflexivity | ].
  split; [ | split; [ | split ] ].
  - intros i Hi.
    assert (Hgone : forall ci,
              In ci (filter (fun ci => negb (existsb (Z.eqb (prod_id (product ci)))
                                               selected)) (items (cart s))) ->
              (prod_id (product ci) =? i) = false).
    { intros ci Hci. apply filter_In in Hci. destruct Hci as [_ Hci].
      apply Z.eqb_neq. intros E. subst i.
      apply (proj2 (selected_existsb selected _)) in Hi.
      rewrite Hi in Hci. discriminate. }
    rewrite (filter_none _ _ Hgone).
    rewrite (proj2 (find_none_iff _ _) Hgone). split; reflexivity.
  - intros i Hi.
    assert (Hkept : forall ci : @CartItem F,
              (prod_id (product ci) =? i) = true ->
              negb (existsb (Z.eqb (prod_id (product ci))) selected) = true).
    { intros ci E. apply Z.eqb_eq in E. subst i.
      destruct (existsb _ selected) eqn:Ee; [ | reflexivity ].
      exfalso. apply Hi, selected_existsb, Ee. }
    rewrite (filter_filter_implies _ _ _ Hkept).
    rewrite (find_filter_other _ _ _ Hkept). split; reflexivity.
  - apply NoDup_map_filter.
  - intros Hpos. apply Forall_forall. intros ci Hci.
    apply filter_In in Hci. destruct Hci as [Hci _].
    revert ci Hci. apply Forall_forall, Hpos.
Qed.

Lemma remove_merge_item p q l :
  filter (fun ci => negb (prod_id (product ci) =? prod_id p)) (merge_item p q l)
  = filter (fun ci => negb (prod_id (product ci) =? prod_id p)) l.
Proof.
  induction l as [|ci l IH]; simpl.
  - rewrite Z.eqb_refl. reflexivity.
  - destruct (prod_id (product ci) =? prod_id p) eqn:E; simpl; rewrite E; simpl.
    + reflexivity.
    + rewrite IH. reflexivity.
Qed.

(** X14: [remove_item] undoes [add_item].  Removing a product right
    after adding it leaves the cart that removing it without the
    addition leaves, which is the cart before the addition when that
    cart had no line for the product; the cart then holds nothing of the
    product, whatever it held before, and every other line is as it
    was. *)
Theorem remove_item_undoes_add_item p q c :
  remove_item (prod_id p) (add_item p q c) = remove_item (prod_id p) c /\
  (~ In (prod_id p) (cart_ids c) ->
   remove_item (prod_id p) (add_item p q c) = c) /\
  cart_qty (prod_id p) (remove_item (prod_id p) (add_item p q c)) = 0 /\
  (forall i,
     i <> prod_id p ->
     lines_of i (remove_item (prod_id p) (add_item p q c)) = lines_of i c).
Proof.
  assert (E : remove_item (prod_id p) (add_item p q c)
              = remove_item (prod_id p) c).
  { unfold remove_item, add_item. simpl. rewrite remove_merge_item.
    reflexivity. }
  rewrite E. split; [ reflexivity | ]. split; [ | split ].
  - intros Hnot. destruct c as [l]. unfold remove_item, cart_ids in *.
    simpl in *. f_equal. apply filter_all. intros ci Hci.
    apply negb_true_iff, Z.eqb_neq. intros Eq. apply Hnot.
    rewrite <- Eq. apply (in_map (fun ci => prod_id (product ci))), Hci.
  - unfold cart_qty, remove_item. simpl.
    rewrite (proj2 (find_none_iff _ _)); [ reflexivity | ].
    intros ci Hci. apply filter_In in Hci. destruct Hci as [_ Hci].
    apply negb_true_iff in Hci. exact Hci.
  - intros i Hi. unfold lines_of, remove_item. simpl.
    apply filter_filter_implies. intros ci Eq. apply Z.eqb_eq in Eq.
    apply negb_true_iff, Z.eqb_neq. congruence.
Qed.




(** ** scan_and_add and a failing storage layer *)

(** X16: [scan_and_add] only reads.  Whatever the storage layer does,
    the committed and the working tables after the call are those before
    it, and when the call raises, the cart is the one before the call.
    When the storage layer fails the lookup, the call raises the storage
    error and the whole state is unchanged. *)
Theorem scan_and_add_reads_only barcode q s :
  committed (db (snd (scan_and_add barcode q s))) = committed (db s) /\
  working (db (snd (scan_and_add barcode q s))) = working (db s) /\
  (forall e s',
     scan_and_add barcode q s = (Raised e, s') -> cart s' = cart s) /\
  (io_budget (db s) = Some 0%nat ->
   scan_and_add barcode q s = (Raised OperationalError, s)).
Proof.
  unfold scan_and_add, bind, on_db, get_product_by_barcode, query, bind, io,
    gets.
  destruct s as [[ct wt [[|n]|]] c]; simpl;
    try destruct (sql_select_product_by_barcode barcode wt) as [row|]; simpl;
    try destruct (quantity_in_stock _ <? q); simpl;
    repeat split; try congruence;
    intros e s' E; try discriminate E; injection E as _ <-; reflexivity.
Qed.

(** ** A sale, read back *)

Lemma update_row_label product_id delta (p : @ProductRow F) :
  row_name (update_row product_id delta p) = row_name p /\
  row_price (update_row product_id delta p) = row_price p.
Proof. unfold update_row. destruct (_ && _); split; reflexivity. Qed.

Lemma join_decrement_all its si :
  forall ps,
    map (join_row si)
        (filter (fun p => si_product_id si =? row_id p) (decrement_all its ps))
    = map (join_row si) (filter (fun p => si_product_id si =? row_id p) ps).
Proof.
  unfold decrement_all.
  induction its as [|it its IH]; intros ps; simpl; [ reflexivity | ].
  rewrite IH. clear IH.
  induction ps as [|p ps IHp]; simpl; [ reflexivity | ].
  rewrite update_row_id.
  destruct (si_product_id si =? row_id p); simpl; [ | exact IHp ].
  rewrite IHp. f_equal. unfold join_row.
  rewrite update_row_barcode.
  destruct (update_row_label (item_product_id it) (- item_quantity it) p)
    as [-> ->].
  reflexivity.
Qed.

Lemma filter_key_one (k : Z) ps (p : @ProductRow F) :
  NoDup (map row_id ps) -> In p ps -> row_id p = k ->
  filter (fun p => k =? row_id p) ps = [p].
Proof.
  induction ps as [|x ps IH]; simpl; intros Hnd Hin Hk; [ destruct Hin | ].
  inversion Hnd as [|y ys Hx Hnd']; subst.
  destruct Hin as [-> | Hin].
  - rewrite Z.eqb_refl. f_equal. apply filter_none.
    intros y Hy. apply Z.eqb_neq. intros E. apply Hx. rewrite E.
    apply in_map, Hy.
  - rewrite (proj2 (Z.eqb_neq _ _)).
    + apply IH; [ exact Hnd' | exact Hin | reflexivity ].
    + intros E. apply Hx. rewrite <- E. apply in_map, Hin.
Qed.

Lemma read_back_join (sale : Z) c ps :
  flat_map
    (fun si =>
       map (join_row si) (filter (fun p => si_product_id si =? row_id p) ps))
    (map (sale_item_row sale) (items_data c))
  = read_back sale c ps.
Proof.
  unfold read_back, items_data.
  induction (items c) as [|ci l IH]; simpl; [ reflexivity | ].
  rewrite IH. reflexivity.
Qed.

(** X17: the sale [checkout] records can be read back.  With a storage
    layer that serves every call and sale ids that are keys,
    [get_sale_details] of the next sale id, called after [checkout],
    returns the header with the clock reading of [record_sale] and the
    receipt's total as a float, and the join of the cart's lines, in
    their order, with the product rows of their product ids: quantity
    and line total come from the cart line, name, barcode and price from
    the product row.  When ids are keys of the products and every line's
    product is still in the table, that is one row per cart line. *)
Theorem checkout_sale_read_back ts_sale ts discount tax_rate s :
  healthy (db s) ->
  sales_keyed (working (db s)) ->
  exists r s',
    checkout ts_sale ts discount tax_rate s = (Returned r, s') /\
    get_sale_details (sales_seq (working (db s)) + 1) (db s')
    = (Returned
         (Some {| details_sale :=
                    {| sale_id := sales_seq (working (db s)) + 1;
                       sale_timestamp := ts_sale;
                       sale_total := to_float (receipt_total r) |};
                  details_items :=
                    read_back (sales_seq (working (db s)) + 1) (cart s)
                      (products (working (db s))) |}),
       db s') /\
    (NoDup (map row_id (products (working (db s)))) ->
     (forall ci,
        In ci (items (cart s)) ->
        exists p,
          In p (products (working (db s))) /\ row_id p = prod_id (product ci)) ->
     map (fun r => (d_product_id r, d_quantity r, d_line_total r))
         (read_back (sales_seq (working (db s)) + 1) (cart s)
            (products (working (db s))))
     = map (fun ci => (prod_id (product ci), qty ci, line_total ci))
           (items (cart s))).
Proof.
  intros H (Hids & Hseq & Hitems).
  rewrite checkout_unfold, (record_sale_healthy _ _ _ _ H).
  eexists. eexists. split; [ reflexivity | ]. cbn [db receipt_total].
  split.
  - rewrite get_sale_details_healthy by exact H.
    cbn [working synced].
    destruct (sale_steps_tables (sales_seq (working (db s)) + 1)
                (items_data (cart s))
                (snd (sql_insert_sale ts_sale (charged (cart s) discount)
                        (working (db s)))))
      as (Hp & _ & Hs & _ & Hi).
    unfold sql_select_sale, sql_select_sale_items.
    rewrite Hp, Hs, Hi. cbn [snd sql_insert_sale sales sale_items products].
    rewrite find_app_one.
    rewrite (proj2 (find_none_iff _ _)).
    2:{ intros x Hx. apply Z.eqb_neq.
        rewrite Forall_forall in Hseq. specialize (Hseq x Hx). lia. }
    cbn [sale_id]. rewrite Z.eqb_refl.
    rewrite filter_app, filter_none.
    2:{ intros si Hsi. apply Z.eqb_neq.
        rewrite Forall_forall in Hitems. specialize (Hitems si Hsi).
        apply in_map_iff in Hitems. destruct Hitems as (x & Hx & Hin).
        rewrite Forall_forall in Hseq. specialize (Hseq x Hin). lia. }
    rewrite filter_all.
    2:{ intros si Hsi. apply in_map_iff in Hsi. destruct Hsi as (it & <- & _).
        apply Z.eqb_refl. }
    simpl app.
    rewrite (flat_map_ext _ _ (fun si => join_decrement_all _ si _)).
    rewrite read_back_join. reflexivity.
  - intros Hnd Hall. unfold read_back.
    induction (items (cart s)) as [|ci l IH]; simpl; [ reflexivity | ].
    destruct (Hall ci (or_introl eq_refl)) as (p & Hp & Hid).
    rewrite (filter_key_one _ _ p Hnd Hp Hid). simpl. f_equal.
    apply IH. intros x Hx. apply Hall. right. exact Hx.
Qed.

Lemma join_rewrite_row product_id name price qty si ps :
  map (join_row si)
      (filter (fun p => si_product_id si =? row_id p)
              (map (rewrite_row product_id name price qty) ps))
  = map (relabel product_id name price)
        (map (join_row si)
             (filter (fun p => si_product_id si =? row_id p) ps)).
Proof.
  induction ps as [|p ps IH]; simpl; [ reflexivity | ].
  rewrite rewrite_row_id.
  destruct (si_product_id si =? row_id p) eqn:E; simpl; [ | exact IH ].
  rewrite IH. f_equal. apply Z.eqb_eq in E.
  unfold relabel, rewrite_row, join_row. simpl. rewrite E.
  destruct (row_id p =? product_id); reflexivity.
Qed.

Lemma select_sale_items_after_update product_id name price qty id t :
  sql_select_sale_items id (sql_update_product product_id name price qty t)
  = map (relabel product_id name price) (sql_select_sale_items id t).
Proof.
  unfold sql_select_sale_items, sql_update_product. simpl.
  induction (filter _ (sale_items t)) as [|si sis IH]; simpl; [ reflexivity | ].
  rewrite map_app, IH, join_rewrite_row. reflexivity.
Qed.

(** X18: the sale history is joined with the products as they are now.
    After [update_product] gives a product a new name and price,
    [get_sale_details] of an earlier sale returns the same header and
    the same rows with the same quantities and line totals, but the rows
    of that product show the new name and the new price. *)
Theorem sale_details_follow_product_update product_id name price qty id d :
  healthy d ->
  exists d1,
    update_product product_id name price qty d = (Returned tt, d1) /\
    (forall det,
       get_sale_details id d = (Returned (Some det), d) ->
       get_sale_details id d1
       = (Returned
            (Some {| details_sale := details_sale det;
                     details_items :=
                       map (relabel product_id name price) (details_items det) |}),
          d1)) /\
    (get_sale_details id d = (Returned None, d) ->
     get_sale_details id d1 = (Returned None, d1)) /\
    (forall r,
       d_quantity (relabel product_id name price r) = d_quantity r /\
       d_line_total (relabel product_id name price r) = d_line_total r /\
       (d_product_id r = product_id ->
        d_name (relabel product_id name price r) = name /\
        d_price (relabel product_id name price r) = price) /\
       (d_product_id r <> product_id ->
        relabel product_id name price r = r)).
Proof.
  intros H. rewrite update_product_healthy by exact H.
  eexists. split; [ reflexivity | ].
  rewrite !get_sale_details_healthy by exact H.
  cbn [working synced]. rewrite select_sale_items_after_update.
  unfold sql_select_sale. simpl.
  split; [ | split ].
  - intros det E. injection E as E.
    destruct (find _ (sales (working d))); [ | discriminate ].
    injection E as <-. reflexivity.
  - intros E. injection E as E.
    destruct (find _ (sales (working d))); [ discriminate | reflexivity ].
  - intros r. unfold relabel.
    destruct (d_product_id r =? product_id) eqn:E; simpl.
    + apply Z.eqb_eq in E. repeat split; congruence.
    + apply Z.eqb_neq in E. repeat split; congruence.
Qed.

(** ** _save_product *)



(** ** A session at the till *)

Lemma add_item_NoDup p q c :
  NoDup (cart_ids c) -> NoDup (cart_ids (add_item p q c)).
Proof.
  unfold cart_ids, add_item. simpl. intros Hnd.
  destruct (merge_item_ids p q (items c)) as [[_ ->] | [Hnot ->]].
  - exact Hnd.
  - apply NoDup_app_one; assumption.
Qed.

Lemma set_line_qty_keeps item_id current_qty new_qty l :
  forall l',
    set_line_qty item_id current_qty new_qty l = Some l' ->
    map product l' = map product l /\
    (0 < new_qty ->
     Forall (fun ci => 0 < qty ci) l -> Forall (fun ci => 0 < qty ci) l').
Proof.
  induction l as [|x l IH]; simpl; intros l' E.
  - injection E as <-. split; [ reflexivity | auto ].
  - destruct (prod_id (product x) =? item_id).
    + destruct (prod_stock (product x) + current_qty <? new_qty);
        [ discriminate | ].
      injection E as <-. split; [ reflexivity | ].
      intros Hq Hall. inversion Hall; subst. constructor; assumption.
    + destruct (set_line_qty item_id current_qty new_qty l) as [l0|];
        [ | discriminate ].
      injection E as <-. destruct (IH l0 eq_refl) as [Hp Hpos].
      split; [ simpl; rewrite Hp; reflexivity | ].
      intros Hq Hall. inversion Hall; subst.
      constructor; [ assumption | apply Hpos; assumption ].
Qed.

Lemma scan_and_add_db barcode q s :
  db (snd (scan_and_add barcode q s))
  = snd (get_product_by_barcode barcode (db s)).
Proof.
  unfold scan_and_add, bind, on_db, get_product_by_barcode, query, bind, io,
    gets.
  destruct s as [[ct wt [[|n]|]] c]; simpl;
    try destruct (sql_select_product_by_barcode barcode wt) as [row|]; simpl;
    try destruct (quantity_in_stock _ <? q); reflexivity.
Qed.

Lemma run_calls_app (calls1 calls2 : list (@db_call F)) d :
  run_calls (calls1 ++ calls2) d = run_calls calls2 (run_calls calls1 d).
Proof. apply fold_left_app. Qed.

(** One handler: the cart stays well formed, and the database is reached
    through at most one call. *)
Lemma run_event_step (ev : @till_event F) s :
  answer_allowed ev ->
  quantities_positive (cart s) ->
  NoDup (cart_ids (cart s)) ->
  quantities_positive (cart (run_event ev s)) /\
  NoDup (cart_ids (cart (run_event ev s))) /\
  exists calls,
    db (run_event ev s) = run_calls calls (db s) /\ Forall till_call calls.
Proof.
  intros Hans Hpos Hnd.
  destruct ev as [bc qt | selected | view_empty confirmed
                 | item_id current_qty answer
                 | view_empty ts_sale ts discount]; simpl.
  - (* _add_to_cart *)
    unfold _add_to_cart.
    destruct (bc =? "")%string;
      [ simpl; repeat split; try assumption; exists []; split;
        [ reflexivity | constructor ] | ].
    destruct (qt <=? 0) eqn:Eq;
      [ simpl; repeat split; try assumption; exists []; split;
        [ reflexivity | constructor ] | ].
    apply Z.leb_gt in Eq.
    assert (Hs : snd (match scan_and_add bc qt s with
                      | (Returned (p, q), s') => (Added p q, s')
                      | (Raised e, s') => (ErrorShown e, s')
                      end) = snd (scan_and_add bc qt s)).
    { destruct (scan_and_add bc qt s) as [[[p q]|e] s']; reflexivity. }
    rewrite Hs. split; [ | split ].
    + destruct (scan_and_add_cart bc qt s) as [-> | (row & ->)];
        [ exact Hpos | ].
      apply merge_item_positive; assumption.
    + destruct (scan_and_add_cart bc qt s) as [-> | (row & ->)];
        [ exact Hnd | ].
      apply add_item_NoDup, Hnd.
    + exists [Call_get_product_by_barcode bc]. split.
      * apply scan_and_add_db.
      * constructor; [ exact I | constructor ].
  - (* _remove_selected *)
    unfold quantities_positive, cart_ids, _remove_selected in *. cbn [db cart].
    rewrite remove_items_filter. split; [ | split ].
    + apply Forall_forall. intros ci Hci. apply filter_In in Hci.
      destruct Hci as [Hci _]. revert ci Hci. apply Forall_forall, Hpos.
    + apply NoDup_map_filter, Hnd.
    + exists []. split; [ reflexivity | constructor ].
  - (* _clear_cart *)
    unfold _clear_cart.
    destruct view_empty, confirmed; simpl; repeat split; try assumption;
      try constructor; exists []; split; try reflexivity; constructor.
  - (* _edit_cart_quantity *)
    unfold _edit_cart_quantity.
    destruct answer as [new_qty|];
      [ | simpl; repeat split; try assumption; exists []; split;
          [ reflexivity | constructor ] ].
    destruct (set_line_qty item_id current_qty new_qty (items (cart s)))
      as [l'|] eqn:E;
      [ | simpl; repeat split; try assumption; exists []; split;
          [ reflexivity | constructor ] ].
    destruct (set_line_qty_keeps _ _ _ _ _ E) as [Hp Hq].
    simpl in Hans. cbn [snd db cart]. split; [ | split ].
    + apply Hq; [ lia | exact Hpos ].
    + unfold cart_ids in *. cbn [items].
      rewrite <- (map_map product prod_id), Hp, map_map. exact Hnd.
    + exists []. split; [ reflexivity | constructor ].
  - (* _checkout *)
    unfold _checkout.
    destruct view_empty;
      [ simpl; repeat split; try assumption; exists []; split;
        [ reflexivity | constructor ] | ].
    rewrite checkout_unfold.
    assert (Hcall : till_call
              (Call_record_sale ts_sale (items_data (cart s))
                 (charged (cart s) (Float discount)))).
    { simpl. unfold items_data. split.
      - apply Forall_map. exact Hpos.
      - rewrite map_map. exact Hnd. }
    destruct (record_sale ts_sale (items_data (cart s))
                (charged (cart s) (Float discount)) (db s))
      as [[u|e] d'] eqn:E; cbn [snd db cart].
    + split; [ constructor | ]. split; [ constructor | ].
      exists [Call_record_sale ts_sale (items_data (cart s))
                (charged (cart s) (Float discount))].
      split; [ simpl; rewrite E; reflexivity | ].
      constructor; [ exact Hcall | constructor ].
    + split; [ exact Hpos | ]. split; [ exact Hnd | ].
      exists [Call_record_sale ts_sale (items_data (cart s))
                (charged (cart s) (Float discount))].
      split; [ simpl; rewrite E; reflexivity | ].
      constructor; [ exact Hcall | constructor ].
Qed.

(** X20: a session at the till keeps the cart well formed.  Starting
    from a cart of positive quantities and pairwise different products
    (the empty cart of a new system is one), after every sequence of
    [_add_to_cart], [_remove_selected], [_clear_cart],
    [_edit_cart_quantity] and [_checkout], with dialog answers of at
    least 1 and whatever the storage layer does, every quantity in the
    cart is positive and no two lines have the same product id.  The
    database is where a sequence of [get_product_by_barcode] calls and
    of [record_sale] calls with positive quantities of pairwise
    different products leaves it. *)
Theorem till_session_keeps_cart (evs : list (@till_event F)) s :
  Forall answer_allowed evs ->
  quantities_positive (cart s) ->
  NoDup (cart_ids (cart s)) ->
  quantities_positive (cart (run_events evs s)) /\
  NoDup (cart_ids (cart (run_events evs s))) /\
  exists calls,
    db (run_events evs s) = run_calls calls (db s) /\ Forall till_call calls.
Proof.
  unfold run_events. revert s.
  induction evs as [|ev evs IH]; intros s Hans Hpos Hnd; simpl.
  - split; [ exact Hpos | ]. split; [ exact Hnd | ].
    exists []. split; [ reflexivity | constructor ].
  - inversion Hans as [|ev' evs' Hev Hevs]; subst.
    destruct (run_event_step ev s Hev Hpos Hnd) as (Hpos1 & Hnd1 & calls1 & Hdb1 & Hc1).
    destruct (IH (run_event ev s) Hevs Hpos1 Hnd1)
      as (Hpos2 & Hnd2 & calls2 & Hdb2 & Hc2).
    split; [ exact Hpos2 | ]. split; [ exact Hnd2 | ].
    exists (calls1 ++ calls2). split.
    + rewrite run_calls_app, <- Hdb1. exact Hdb2.
    + apply Forall_app. split; assumption.
Qed.

End Properties.

(** * The shop, run *)

Module Scenarios.

Import Binary64.
Import Shop.

(** ** Stocking the shop *)

(** The shelf is what two calls of [add_product] make of a new database,
    and a third call with a barcode that is taken raises. *)
Example shelf_from_add_product :
  let fresh := open_db empty_tables None in
  (add_product "A1" "Widget" (cents 999) 5 ;;
   add_product "B2" "Gadget" (cents 250) 4) fresh
  = (Returned tt, open_db (shelf 5 4) None) /\
  fst (add_product "A1" "Other" (cents 100) 1 (open_db (shelf 5 4) None))
  = Raised IntegrityError.
Proof. split; vm_compute; reflexivity. Qed.

(** ** The scenarios of the specification *)

(** Three items priced 0.10 give the subtotal 0.30. *)
Example subtotal_three_dimes :
  subtotal {| items := [{| product :=
                             {| prod_id := 7; prod_barcode := "D"; prod_name := "Dime";
                                prod_price := cents 10; prod_stock := 9 |};
                           qty := 3 |}] |}
  = Float (cents 30).
Proof. vm_compute. reflexivity. Qed.

(** "A1" (9.99, stock 5) with quantity 3: subtotal 29.97; discount 5.00:
    total 24.97; checkout: one sale of total 24.97, one line item
    (product 1, quantity 3, line total 29.97), and stock 2. *)
Example sale_of_three_a1 :
  exists p s1 r s2,
    scan_and_add "A1" 3 (new_system (open_db (shelf 5 4) None))
    = (Returned (p, 3), s1) /\
    subtotal (cart s1) = Float (cents 2997) /\
    checkout "12:00:00" "12:00:00.5" five (Int 0) s1 = (Returned r, s2) /\
    receipt_total r = Float (cents 2497) /\
    sales (committed (db s2))
    = [{| sale_id := 1; sale_timestamp := "12:00:00";
          sale_total := cents 2497 |}] /\
    sale_items (committed (db s2))
    = [{| si_sale_id := 1; si_product_id := 1; si_quantity := 3;
          si_line_total := cents 2997 |}] /\
    products (committed (db s2)) = [a1_row 2; b2_row 4].
Proof.
  do 4 eexists. split; [ vm_compute; reflexivity | ].
  split; [ vm_compute; reflexivity | ].
  split; [ vm_compute; reflexivity | ].
  repeat split; vm_compute; reflexivity.
Qed.

(** ** C1 *)

(** "A1" has stock 2 and the sale asks for 3: [record_sale] returns
    normally, the header and the line item are committed, and the stock is
    still 2.  And when the storage layer fails inside the second of two
    items, the header, the first line item and the first decrement are
    already committed. *)
Lemma record_sale_short_stock_recorded :
  (exists d',
     record_sale "12:00:00"
       [{| item_product_id := 1; item_quantity := 3;
           item_line_total := cents 2997 |}]
       (Float (cents 2997)) (open_db (shelf 2 4) None)
     = (Returned tt, d') /\
     sales (committed d')
     = [{| sale_id := 1; sale_timestamp := "12:00:00";
           sale_total := cents 2997 |}] /\
     sale_items (committed d')
     = [{| si_sale_id := 1; si_product_id := 1; si_quantity := 3;
           si_line_total := cents 2997 |}] /\
     products (committed d') = [a1_row 2; b2_row 4]) /\
  (exists d',
     record_sale "12:00:00" basket (Float (cents 3247))
       (open_db (shelf 5 4) (Some 5%nat))
     = (Raised OperationalError, d') /\
     List.length (sales (committed d')) = 1%nat /\
     map si_product_id (sale_items (committed d')) = [1] /\
     products (committed d') = [a1_row 2; b2_row 4]).
Proof.
  split; eexists; (split; [ vm_compute; reflexivity | ]);
    repeat split; vm_compute; reflexivity.
Qed.

(** Three "A1" and one "B2" against stocks 5 and 0: the sale is
    recorded, "A1" goes down to 2 and "B2" stays at 0. *)
Lemma record_sale_always_records_witness :
  healthy (open_db (shelf 5 0) None) /\
  NoDup (map item_product_id basket) /\
  stocks_nonneg (working (open_db (shelf 5 0) None)) /\
  exists t',
    record_sale "12:00:00" basket (Float (cents 3247)) (open_db (shelf 5 0) None)
    = (Returned tt, synced t' (open_db (shelf 5 0) None)) /\
    List.length (sales t') = 1%nat /\
    map si_quantity (sale_items t') = [3; 1] /\
    products t' = [a1_row 2; b2_row 0] /\
    stocks_nonneg t'.
Proof.
  assert (Hnd : NoDup (map item_product_id basket)).
  { simpl. repeat constructor; simpl; intuition discriminate. }
  assert (Hpos : stocks_nonneg (working (open_db (shelf 5 0) None))).
  { repeat constructor; simpl; lia. }
  split; [ reflexivity | ]. split; [ exact Hnd | ]. split; [ exact Hpos | ].
  destruct (record_sale_always_records "12:00:00" basket (Float (cents 3247))
              (open_db (shelf 5 0) None) eq_refl)
    as (t' & E & Hs & Hi & _ & Hd & Hn).
  exists t'. split; [ exact E | ].
  split; [ rewrite Hs; reflexivity | ].
  split; [ rewrite Hi; reflexivity | ].
  split; [ rewrite (Hd Hnd); reflexivity | exact (Hn Hpos) ].
Defined.

(** ** C2 *)

(** Stock 2, delta -3: [adjust_stock] returns normally, as it does for a
    delta that fits; nothing is reported to the caller. *)
Lemma adjust_stock_reports_nothing :
  fst (adjust_stock 1 (-3) (open_db (shelf 2 4) None)) = Returned tt /\
  fst (adjust_stock 1 (-3) (open_db (shelf 2 4) None))
  <> Raised InsufficientStock /\
  fst (adjust_stock 1 (-3) (open_db (shelf 2 4) None))
  = fst (adjust_stock 1 (-1) (open_db (shelf 2 4) None)) /\
  products (working (snd (adjust_stock 1 (-3) (open_db (shelf 2 4) None))))
  = [a1_row 2; b2_row 4].
Proof.
  repeat split; try (vm_compute; reflexivity).
  vm_compute. discriminate.
Qed.

(** Stock 2 and delta -3 change nothing, stock 4 and delta -3 leave 1,
    and four calls on a storage layer that fails on the way keep the
    stocks non-negative. *)
Lemma adjust_stock_guarded_witness :
  healthy (open_db (shelf 2 4) None) /\
  fst (adjust_stock 1 (-3) (open_db (shelf 2 4) None)) = Returned tt /\
  products (working (snd (adjust_stock 1 (-3) (open_db (shelf 2 4) None))))
  = products (working (open_db (shelf 2 4) None)) /\
  update_row 2 (-3) (b2_row 4) = b2_row 1 /\
  stocks_nonneg
    (working (adjust_stock_calls [(1, -3); (2, -1); (1, 4); (2, -9)]
                (open_db (shelf 2 4) (Some 3%nat)))).
Proof.
  assert (Hpos : stocks_nonneg (shelf 2 4)) by (repeat constructor; simpl; lia).
  pose proof (adjust_stock_guarded 1 (-3) (open_db (shelf 2 4) None) eq_refl)
    as H1.
  pose proof (adjust_stock_guarded 2 (-3) (open_db (shelf 2 4) None) eq_refl)
    as H2.
  cbv zeta in H1, H2.
  destruct H1 as (Hr & _ & _ & _ & Hsame & Hseq).
  destruct H2 as (_ & _ & _ & Hrow & _ & _).
  split; [ reflexivity | ]. split; [ exact Hr | ]. split; [ | split ].
  - apply Hsame. intros p [<- | [<- | []]]; simpl; intros; [ lia | discriminate ].
  - apply (Hrow (b2_row 4)); [ right; left; reflexivity | ].
    simpl. split; [ reflexivity | lia ].
  - apply (Hseq _ (open_db (shelf 2 4) (Some 3%nat))); exact Hpos.
Defined.

(** ** C3 *)

(** With stock 2 and three "A1" in the cart, [checkout] does not fail: it
    returns a receipt, empties the cart and commits the sale, and the
    stock is still 2.  And when [record_sale] does fail, the error of
    [checkout] is the storage error, not [InsufficientStock]. *)
Lemma checkout_short_stock_succeeds :
  (exists r s',
     checkout "12:00:00" "12:00:01" five (Int 0) till_short = (Returned r, s') /\
     items (cart s') = [] /\
     map si_quantity (sale_items (committed (db s'))) = [3] /\
     products (committed (db s')) = [a1_row 2; b2_row 4]) /\
  (exists s',
     checkout "12:00:00" "12:00:01" five (Int 0) till_failing
     = (Raised OperationalError, s') /\
     OperationalError <> InsufficientStock).
Proof.
  split.
  - do 2 eexists. split; [ vm_compute; reflexivity | ].
    repeat split; vm_compute; reflexivity.
  - eexists. split; [ vm_compute; reflexivity | discriminate ].
Qed.

(** The storage layer fails inside [record_sale]: [checkout] raises the
    same error and the cart still holds its three "A1".  On [till_short]
    the storage layer is healthy and [checkout] returns. *)
Lemma checkout_failure_keeps_cart_witness :
  record_sale "12:00:00" (items_data (cart till_failing))
    (charged (cart till_failing) five) (db till_failing)
  = (Raised OperationalError, db_failed) /\
  checkout "12:00:00" "12:00:01" five (Int 0) till_failing
  = (Raised OperationalError, {| db := db_failed; cart := cart3 |}) /\
  healthy (db till_short) /\
  exists r d',
    checkout "12:00:00" "12:00:01" five (Int 0) till_short
    = (Returned r, {| db := d'; cart := empty_cart |}).
Proof.
  destruct (checkout_failure_keeps_cart "12:00:00" "12:00:01" five (Int 0)
              till_failing) as (Hfail & _ & _).
  destruct (checkout_failure_keeps_cart "12:00:00" "12:00:01" five (Int 0)
              till_short) as (_ & _ & Hok).
  assert (E : record_sale "12:00:00" (items_data (cart till_failing))
                (charged (cart till_failing) five) (db till_failing)
              = (Raised OperationalError, db_failed))
    by (vm_compute; reflexivity).
  split; [ exact E | ].
  split; [ exact (Hfail _ _ E) | ].
  split; [ reflexivity | exact (Hok eq_refl) ].
Defined.

(** ** C4 *)

(** Stock 2: an unknown barcode, a quantity of 3 and a quantity of 2. *)
Lemma scan_and_add_checks_witness :
  healthy (db till_empty) /\
  scan_and_add "ZZ" 1 till_empty = (Raised ProductNotFound, till_empty) /\
  scan_and_add "A1" 3 till_empty = (Raised InsufficientStock, till_empty) /\
  scan_and_add "A1" 2 till_empty
  = (Returned (Product_of_row (a1_row 2), 2),
     {| db := db till_empty;
        cart := {| items := [{| product := Product_of_row (a1_row 2);
                                qty := 2 |}] |} |}).
Proof.
  split; [ reflexivity | ].
  destruct (scan_and_add_checks "ZZ" 1 till_empty eq_refl) as (Hnone & _).
  destruct (scan_and_add_checks "A1" 3 till_empty eq_refl) as (_ & Hshort).
  destruct (scan_and_add_checks "A1" 2 till_empty eq_refl) as (_ & Hfits).
  split; [ | split ].
  - apply Hnone. intros p [<- | [<- | []]]; discriminate.
  - apply (Hshort (a1_row 2) eq_refl). simpl. lia.
  - apply (Hfits (a1_row 2) eq_refl). simpl. lia.
Defined.

(** ** C6 *)

(** A cart that already holds five "A1": adding 1 and then 2 leaves one
    line of quantity 8, not 1 + 2. *)
Lemma add_item_twice_on_held_product :
  reachable_cart (add_item a1 5 empty_cart) /\
  lines_of 1 (add_item a1 2 (add_item a1 1 (add_item a1 5 empty_cart)))
  = [{| product := a1; qty := 8 |}] /\
  8 <> 1 + 2.
Proof.
  split; [ apply reach_add, reach_new | ].
  split; [ reflexivity | discriminate ].
Qed.

(** A cart that holds one "B2": adding "A1" with 1 and then with 2. *)
Lemma add_item_merges_witness :
  reachable_cart (add_item b2 1 empty_cart) /\
  ~ In (prod_id a1) (cart_ids (add_item b2 1 empty_cart)) /\
  add_item a1 2 (add_item a1 1 (add_item b2 1 empty_cart))
  = add_item a1 3 (add_item b2 1 empty_cart) /\
  lines_of (prod_id a1) (add_item a1 2 (add_item a1 1 (add_item b2 1 empty_cart)))
  = [{| product := a1; qty := 1 + 2 |}].
Proof.
  assert (Hr : reachable_cart (add_item b2 1 (@empty_cart spec_float)))
    by apply reach_add, reach_new.
  assert (Hnot : ~ In (prod_id a1) (cart_ids (add_item b2 1 empty_cart)))
    by (simpl; intros [H | []]; discriminate).
  pose proof (add_item_merges a1 1 2 (add_item b2 1 empty_cart)) as H.
  cbv zeta in H. destruct H as (Heq & _ & Hlines).
  destruct (Hlines Hr) as (_ & _ & _ & Hone).
  split; [ exact Hr | ]. split; [ exact Hnot | ].
  split; [ exact Heq | exact (Hone Hnot) ].
Defined.

(** ** C7 *)

(** The checkout of three "A1" with a discount of 5.00. *)
Lemma checkout_clears_cart_witness :
  healthy (db till_ready) /\
  exists r s',
    checkout "12:00:00" "12:00:01" five (Int 0) till_ready = (Returned r, s') /\
    items (cart s') = [] /\
    subtotal (cart s') = Int 0 /\
    receipt_items r = [("Widget", 3, cents 999, cents 2997)] /\
    receipt_subtotal r = Float (cents 2997) /\
    receipt_total r = Float (cents 2497) /\
    receipt_discount r = five /\
    receipt_timestamp r = "12:00:01".
Proof.
  split; [ reflexivity | ].
  destruct (checkout_clears_cart "12:00:00" "12:00:01" five (Int 0) till_ready)
    as (Hret & Hruns).
  destruct (Hruns eq_refl) as (r & s' & E).
  destruct (Hret r s' E) as (Hi & Hsub & Hl & Hs & Ht & Hd & Hts).
  exists r, s'. split; [ exact E | ].
  split; [ exact Hi | ]. split; [ exact Hsub | ].
  split; [ rewrite Hl; vm_compute; reflexivity | ].
  split; [ rewrite Hs; vm_compute; reflexivity | ].
  split; [ rewrite Ht; vm_compute; reflexivity | ].
  split; [ exact Hd | exact Hts ].
Defined.

(** ** C8 *)

(** Quantity 0 and quantity -2 are both accepted: the cart gets a line of
    quantity 0, or of quantity -2, and nothing is raised. *)
Lemma add_item_zero_quantity_accepted :
  add_item a1 0 empty_cart = {| items := [{| product := a1; qty := 0 |}] |} /\
  add_item a1 0 (@empty_cart spec_float) <> empty_cart /\
  scan_and_add "A1" 0 till_empty
  = (Returned (Product_of_row (a1_row 2), 0),
     {| db := db till_empty;
        cart := {| items := [{| product := Product_of_row (a1_row 2);
                                qty := 0 |}] |} |}) /\
  scan_and_add "A1" (-2) till_empty
  = (Returned (Product_of_row (a1_row 2), -2),
     {| db := db till_empty;
        cart := {| items := [{| product := Product_of_row (a1_row 2);
                                qty := -2 |}] |} |}).
Proof.
  split; [ reflexivity | ]. split; [ discriminate | ].
  split; vm_compute; reflexivity.
Qed.

(** Quantity -2 into [add_item], into [scan_and_add] and into
    [_add_to_cart]. *)
Lemma non_positive_quantity_unchecked_witness :
  healthy (db till_empty) /\
  cart_qty 1 (add_item a1 (-2) cart3) = 1 /\
  scan_and_add "A1" (-2) till_empty
  = (Returned (Product_of_row (a1_row 2), -2),
     {| db := db till_empty;
        cart := add_item (Product_of_row (a1_row 2)) (-2) (cart till_empty) |}) /\
  (exists msg, _add_to_cart "A1" (-2) till_empty = (InputWarning msg, till_empty)) /\
  quantities_positive (cart (snd (_add_to_cart "A1" 2 till_ready))).
Proof.
  destruct (@non_positive_quantity_unchecked spec_float)
    as (Hadd & Hscan & Hui & Hpos).
  split; [ reflexivity | ].
  split; [ | split; [ | split ] ].
  - destruct (Hadd a1 (-2) cart3) as [Hq _]; [ lia | ].
    simpl in Hq. rewrite Hq. reflexivity.
  - apply (Hscan "A1" (a1_row 2) (-2) till_empty eq_refl eq_refl);
      simpl; lia.
  - apply Hui. lia.
  - apply Hpos. repeat constructor.
Defined.

(** ** C9 *)

(** Stock 2, scanned twice with quantity 2: one line of quantity 4. *)
Lemma scan_and_add_twice_exceeds_stock_witness :
  healthy (db till_empty) /\
  sql_select_product_by_barcode "A1" (working (db till_empty))
  = Some (a1_row 2) /\
  1 <= quantity_in_stock (a1_row 2) /\
  ~ In (row_id (a1_row 2)) (cart_ids (cart till_empty)) /\
  exists s1 s2,
    scan_and_add "A1" 2 till_empty = (Returned (Product_of_row (a1_row 2), 2), s1) /\
    scan_and_add "A1" 2 s1 = (Returned (Product_of_row (a1_row 2), 2), s2) /\
    lines_of 1 (cart s2) = [{| product := Product_of_row (a1_row 2); qty := 4 |}] /\
    2 < 4.
Proof.
  assert (Hst : 1 <= quantity_in_stock (a1_row 2)) by (simpl; lia).
  assert (Hnot : ~ In (row_id (a1_row 2)) (cart_ids (cart till_empty)))
    by (simpl; tauto).
  split; [ reflexivity | ]. split; [ reflexivity | ].
  split; [ exact Hst | ]. split; [ exact Hnot | ].
  pose proof (scan_and_add_twice_exceeds_stock "A1" (a1_row 2) till_empty
                eq_refl eq_refl Hst) as H.
  cbv zeta in H. destruct H as (s1 & s2 & E1 & E2 & _ & _ & _ & Hline).
  destruct (Hline Hnot) as (_ & Hl & Hlt).
  exists s1, s2. repeat split; assumption.
Defined.

(** ** C10 *)

(** Sale 1 holds a line for "A1" and a line for "B2"; after "A1" is
    deleted both rows are still stored and the details show "B2" only. *)
Lemma sale_details_omit_deleted_product_witness :
  healthy db_after_sale /\
  exists d1,
    delete_product 1 db_after_sale = (Returned true, d1) /\
    map si_product_id (sale_items (committed d1)) = [1; 2] /\
    (exists det,
       get_sale_details 1 db_after_sale = (Returned (Some det), db_after_sale) /\
       map d_product_id (details_items det) = [1; 2]) /\
    (exists det,
       get_sale_details 1 d1 = (Returned (Some det), d1) /\
       map d_product_id (details_items det) = [2]).
Proof.
  split; [ reflexivity | ].
  destruct (sale_details_omit_deleted_product 1 1 db_after_sale eq_refl)
    as (b & d1 & E & _ & _ & Hrows & Hsale & _).
  assert (Eb : delete_product 1 db_after_sale = (Returned true, d1)).
  { rewrite E. f_equal. f_equal.
    assert (Hb : fst (delete_product 1 db_after_sale) = Returned true)
      by (vm_compute; reflexivity).
    rewrite E in Hb. simpl in Hb. injection Hb as ->. reflexivity. }
  exists d1. split; [ exact Eb | ].
  split; [ rewrite Hrows; vm_compute; reflexivity | ].
  destruct (Hsale
              {| sale_id := 1; sale_timestamp := "12:00:00";
                 sale_total := cents 3247 |})
    as (Hbefore & Hafter); [ vm_compute; reflexivity | ].
  split; eexists; (split; [ eassumption | vm_compute; reflexivity ]).
Defined.

(** ** The database through sequences of calls *)

Lemma shelf_consistent : consistent (shelf 5 4).
Proof.
  unfold consistent, products_keyed, sales_keyed. simpl.
  repeat split; repeat constructor; simpl; try lia; intuition discriminate.
Defined.

(** On a new database, the calls of the day on a storage layer that
    fails at its tenth call, and the price list, leave consistent
    tables. *)
Lemma database_stays_consistent_witness :
  consistent (committed (open_db empty_tables (Some 9%nat))) /\
  consistent (working (open_db empty_tables (Some 9%nat))) /\
  consistent (committed (run_calls day_calls (open_db empty_tables (Some 9%nat)))) /\
  consistent (working (run_calls day_calls (open_db empty_tables (Some 9%nat)))) /\
  consistent
    (working (snd (import_inventory_csv price_list
                     (open_db empty_tables (Some 9%nat))))).
Proof.
  destruct (database_stays_consistent day_calls price_list
              (open_db empty_tables (Some 9%nat))
              empty_tables_consistent empty_tables_consistent)
    as [[H1 H2] [_ H3]].
  split; [ exact empty_tables_consistent | ].
  split; [ exact empty_tables_consistent | ].
  split; [ exact H1 | ]. split; [ exact H2 | exact H3 ].
Defined.

(** The three sales on the books stay in front through the calls of the
    day. *)
Lemma ledger_is_append_only_witness :
  extends (committed books) (working books) /\
  extends (committed books) (committed (run_calls day_calls books)) /\
  extends (working books) (working (run_calls day_calls books)) /\
  map sale_id (sales (committed (run_calls day_calls books))) = [1; 2; 3; 4].
Proof.
  assert (H : extends (committed books) (working books)).
  { split; exists []; symmetry; apply app_nil_r. }
  destruct (ledger_is_append_only day_calls books H) as (H1 & H2 & _).
  split; [ exact H | ]. split; [ exact H1 | ]. split; [ exact H2 | ].
  vm_compute. reflexivity.
Defined.

(** The calls of the day write the stocks 7, 1 and 0 and try to take 9
    of 7: no stock is negative afterwards. *)
Lemma stock_stays_nonneg_through_calls_witness :
  (forall call q,
     In call day_calls -> stock_written call = Some q -> 0 <= q) /\
  stocks_nonneg (committed (open_db (shelf 5 4) (Some 9%nat))) /\
  stocks_nonneg (working (open_db (shelf 5 4) (Some 9%nat))) /\
  stocks_nonneg (committed (run_calls day_calls (open_db (shelf 5 4) (Some 9%nat)))) /\
  stocks_nonneg (working (run_calls day_calls (open_db (shelf 5 4) (Some 9%nat)))).
Proof.
  assert (Hq : forall (call : @db_call spec_float) q,
             In call day_calls -> stock_written call = Some q -> 0 <= q).
  { intros call q Hin. simpl in Hin.
    repeat (destruct Hin as [<- | Hin]; simpl;
            [ intros E; try discriminate E; injection E as <-; lia | ]).
    destruct Hin. }
  assert (Hs : stocks_nonneg (shelf 5 4)) by (repeat constructor; simpl; lia).
  destruct (stock_stays_nonneg_through_calls day_calls
              (open_db (shelf 5 4) (Some 9%nat)) Hq Hs Hs) as [H1 H2].
  split; [ exact Hq | ]. split; [ exact Hs | ]. split; [ exact Hs | ].
  split; [ exact H1 | exact H2 ].
Defined.

(** "B2" is deleted and added again: the new row is not product 2. *)
Lemma deleted_id_is_never_reused_witness :
  products_keyed (working (open_db (shelf 5 4) None)) /\
  delete_product 2 (open_db (shelf 5 4) None)
  = (Returned true, snd (delete_product 2 (open_db (shelf 5 4) None))) /\
  sql_select_product_by_id 2
    (working (run_calls [Call_add_product "B2" "Gadget" (cents 250) 4]
                (snd (delete_product 2 (open_db (shelf 5 4) None)))))
  = None /\
  map row_id
    (products
       (working (run_calls [Call_add_product "B2" "Gadget" (cents 250) 4]
                   (snd (delete_product 2 (open_db (shelf 5 4) None))))))
  = [1; 3].
Proof.
  assert (E : delete_product 2 (open_db (shelf 5 4) None)
              = (Returned true, snd (delete_product 2 (open_db (shelf 5 4) None))))
    by (vm_compute; reflexivity).
  destruct (deleted_id_is_never_reused 2 (open_db (shelf 5 4) None) _
              [Call_add_product "B2" "Gadget" (cents 250) 4]
              (proj1 shelf_consistent) E) as (H1 & _ & _).
  split; [ exact (proj1 shelf_consistent) | ]. split; [ exact E | ].
  split; [ exact H1 | vm_compute; reflexivity ].
Defined.

(** ** The products *)

(** "C3" is new and found afterwards under id 3; "A1" is taken. *)
Lemma add_product_then_lookup_witness :
  healthy (open_db (shelf 5 4) None) /\
  (exists d1,
     add_product "C3" "Gizmo" (cents 100) 7 (open_db (shelf 5 4) None)
     = (Returned tt, d1) /\
     get_product_by_barcode "C3" d1
     = (Returned (Some {| row_id := 3; row_barcode := "C3"; row_name := "Gizmo";
                          row_price := cents 100; quantity_in_stock := 7 |}),
        d1)) /\
  add_product "A1" "Other" (cents 100) 1 (open_db (shelf 5 4) None)
  = (Raised IntegrityError, open_db (shelf 5 4) None).
Proof.
  destruct (add_product_then_lookup "C3" "Gizmo" (cents 100) 7
              (open_db (shelf 5 4) None) eq_refl) as [Hnew _].
  destruct (add_product_then_lookup "A1" "Other" (cents 100) 1
              (open_db (shelf 5 4) None) eq_refl) as [_ Htaken].
  split; [ reflexivity | ]. split.
  - destruct Hnew as (d1 & E & _ & _ & Hfound & _).
    + simpl. intros p [<- | [<- | []]]; discriminate.
    + exists d1. split; [ exact E | exact Hfound ].
  - apply (Htaken (a1_row 5)); [ left; reflexivity | reflexivity ].
Defined.

(** Product 1 gets a new name, price and stock; product 2 is as it
    was. *)
Lemma update_product_rewrites_witness :
  healthy (open_db (shelf 5 4) None) /\
  exists d1,
    update_product 1 "Widget XL" (cents 1099) 8 (open_db (shelf 5 4) None)
    = (Returned tt, d1) /\
    get_product_by_id 1 d1
    = (Returned (Some {| row_id := 1; row_barcode := "A1";
                         row_name := "Widget XL"; row_price := cents 1099;
                         quantity_in_stock := 8 |}), d1) /\
    get_product_by_id 2 d1 = (Returned (Some (b2_row 4)), d1).
Proof.
  split; [ reflexivity | ].
  destruct (update_product_rewrites 1 "Widget XL" (cents 1099) 8
              (open_db (shelf 5 4) None) eq_refl)
    as (d1 & E & _ & _ & _ & Hhit & Hother).
  exists d1. split; [ exact E | ]. split.
  - exact (Hhit (a1_row 5) eq_refl).
  - apply (Hother 2). discriminate.
Defined.

(** Deleting product 2 returns [True] and, a second time, [False]. *)
Lemma delete_product_reports_witness :
  healthy (open_db (shelf 5 4) None) /\
  exists d1,
    delete_product 2 (open_db (shelf 5 4) None) = (Returned true, d1) /\
    get_product_by_id 2 d1 = (Returned None, d1) /\
    delete_product 2 d1 = (Returned false, d1).
Proof.
  split; [ reflexivity | ].
  destruct (delete_product_reports 2 (open_db (shelf 5 4) None) eq_refl)
    as (b & d1 & E & Hb & Hnone & _ & Hagain).
  assert (Eb : b = true).
  { apply Hb. exists (b2_row 4).
    split; [ right; left; reflexivity | reflexivity ]. }
  exists d1. rewrite <- Eb.
  split; [ exact E | ]. split; [ exact Hnone | exact Hagain ].
Defined.

(** With the threshold 4, "B2" (stock 4) is listed and "A1" (stock 5) is
    not. *)
Lemma low_stock_products_listed_witness :
  healthy (open_db (shelf 5 4) None) /\
  exists rows,
    get_low_stock_products 4 (open_db (shelf 5 4) None)
    = (Returned rows, open_db (shelf 5 4) None) /\
    In (b2_row 4) rows /\ ~ In (a1_row 5) rows.
Proof.
  split; [ reflexivity | ].
  destruct (low_stock_products_listed 4 (open_db (shelf 5 4) None) eq_refl)
    as (rows & E & _ & Hin & _).
  exists rows. split; [ exact E | ]. split.
  - apply Hin. split; [ right; left; reflexivity | simpl; lia ].
  - intros H. apply Hin in H. destruct H as [_ H]. simpl in H. lia.
Defined.

(** From 2024-01-31 on: the sales of that day and of the next, not the
    one of the day before. *)
Lemma list_sales_filters_witness :
  healthy books /\
  exists rows,
    list_sales (Some "2024-01-31") None books = (Returned rows, books) /\
    In sale_jan31 rows /\ In sale_feb01 rows /\ ~ In sale_jan30 rows.
Proof.
  split; [ reflexivity | ].
  destruct (list_sales_filters (Some "2024-01-31") None books eq_refl)
    as (rows & E & _ & Hin & _).
  exists rows. split; [ exact E | ]. split; [ | split ].
  - apply Hin. split; [ right; left; reflexivity | ].
    split; [ reflexivity | discriminate ].
  - apply Hin. split; [ right; right; left; reflexivity | ].
    split; [ reflexivity | discriminate ].
  - intros H. apply Hin in H. destruct H as (_ & H & _).
    specialize (H eq_refl). vm_compute in H. discriminate H.
Defined.

(** Up to 2024-01-31: the sale of 10:30 on that day is not listed. *)
Lemma list_sales_end_date_excluded_witness :
  "2024-01-31" <> "" /\
  list_sales (Some "2024-01-30") (Some "2024-01-31") books
  = (Returned [sale_jan30], books) /\
  forall (x : @SaleRow spec_float) rest,
    In x [sale_jan30] -> rest <> "" ->
    sale_timestamp x <> ("2024-01-31" ++ rest)%string.
Proof.
  assert (Hday : "2024-01-31" <> "") by discriminate.
  assert (E : list_sales (Some "2024-01-30") (Some "2024-01-31") books
              = (Returned [sale_jan30], books)) by (vm_compute; reflexivity).
  destruct (list_sales_end_date_excluded (Some "2024-01-30") "2024-01-31"
              books books [sale_jan30] Hday E) as [H _].
  split; [ exact Hday | ]. split; [ exact E | exact H ].
Defined.

(** "wid" finds the Widget, and the empty keyword finds everything. *)
Lemma search_products_matches_witness :
  healthy (open_db (shelf 5 4) None) /\
  (exists rows,
     search_products "wid" (open_db (shelf 5 4) None)
     = (Returned rows, open_db (shelf 5 4) None) /\
     In (a1_row 5) rows) /\
  search_products "" (open_db (shelf 5 4) None)
  = (Returned [a1_row 5; b2_row 4], open_db (shelf 5 4) None).
Proof.
  split; [ reflexivity | ]. split.
  - destruct (search_products_matches "wid" (open_db (shelf 5 4) None) eq_refl)
      as (rows & E & _ & Hlit & _).
    exists rows. split; [ exact E | ]. apply (Hlit eq_refl).
    split; [ left; reflexivity | ]. left.
    exists "", "Wid", "get". split; reflexivity.
  - destruct (search_products_matches "" (open_db (shelf 5 4) None) eq_refl)
      as (rows & E & _ & _ & Hall & _).
    rewrite E, (Hall (or_introl eq_refl)). reflexivity.
Defined.

(** The price list: three lines, "A1" keeps id 1, and "C3" has the price
    and the stock of its last line. *)
Lemma import_is_upsert_witness :
  healthy (open_db (shelf 5 4) None) /\
  products_keyed (working (open_db (shelf 5 4) None)) /\
  exists d1,
    import_inventory_csv price_list (open_db (shelf 5 4) None)
    = (Returned 3, d1) /\
    (exists r,
       get_product_by_barcode "C3" d1 = (Returned (Some r), d1) /\
       row_barcode r = "C3" /\ row_name r = "Gizmo" /\
       row_price r = cents 120 /\ quantity_in_stock r = 6) /\
    (exists r,
       get_product_by_barcode "A1" d1 = (Returned (Some r), d1) /\
       row_id r = 1).
Proof.
  split; [ reflexivity | ]. split; [ exact (proj1 shelf_consistent) | ].
  destruct (import_is_upsert price_list (open_db (shelf 5 4) None) eq_refl
              (proj1 shelf_consistent))
    as (d1 & E & _ & _ & Hlast & Hids).
  exists d1. split; [ exact E | ]. split.
  - exact (Hlast "C3").
  - exact (Hids "A1" (a1_row 5) eq_refl).
Defined.

(** ** The sale history *)

(** The checkout of three "A1" is read back as sale 1 with one row. *)
Lemma checkout_sale_read_back_witness :
  healthy (db till_ready) /\
  sales_keyed (working (db till_ready)) /\
  exists r s',
    checkout "12:00:00" "12:00:01" five (Int 0) till_ready = (Returned r, s') /\
    get_sale_details 1 (db s')
    = (Returned
         (Some {| details_sale :=
                    {| sale_id := 1; sale_timestamp := "12:00:00";
                       sale_total := to_float (receipt_total r) |};
                  details_items := read_back 1 cart3 [a1_row 5; b2_row 4] |}),
       db s') /\
    map (fun r => (d_product_id r, d_quantity r, d_name r))
        (read_back 1 cart3 [a1_row 5; b2_row 4])
    = [(1, 3, "Widget")].
Proof.
  split; [ reflexivity | ]. split; [ exact (proj2 shelf_consistent) | ].
  destruct (checkout_sale_read_back "12:00:00" "12:00:01" five (Int 0)
              till_ready eq_refl (proj2 shelf_consistent))
    as (r & s' & E & Hd & _).
  exists r, s'. split; [ exact E | ]. split; [ exact Hd | ].
  vm_compute. reflexivity.
Defined.

(** After the sale, "A1" is renamed and repriced: sale 1 shows the new
    name with the line totals that were recorded. *)
Lemma sale_details_follow_product_update_witness :
  healthy db_after_sale /\
  get_sale_details 1 db_after_sale
  = (Returned (Some sale_one_details), db_after_sale) /\
  exists d1 det,
    update_product 1 "Widget XL" (cents 1099) 2 db_after_sale
    = (Returned tt, d1) /\
    get_sale_details 1 d1 = (Returned (Some det), d1) /\
    map d_name (details_items det) = ["Widget XL"; "Gadget"] /\
    map d_price (details_items det) = [cents 1099; cents 250] /\
    map d_line_total (details_items det) = [cents 2997; cents 250].
Proof.
  assert (H : healthy db_after_sale) by (vm_compute; reflexivity).
  assert (E0 : get_sale_details 1 db_after_sale
               = (Returned (Some sale_one_details), db_after_sale))
    by (vm_compute; reflexivity).
  destruct (sale_details_follow_product_update 1 "Widget XL" (cents 1099) 2 1
              db_after_sale H) as (d1 & E & Hsome & _).
  split; [ exact H | ]. split; [ exact E0 | ].
  exists d1. eexists. split; [ exact E | ].
  split; [ exact (Hsome _ E0) | ].
  repeat split; vm_compute; reflexivity.
Defined.


(** ** The till *)

(** The session leaves a cart of positive quantities and different
    products, on a storage layer that fails on the way too. *)
Lemma till_session_keeps_cart_witness :
  Forall answer_allowed till_session /\
  quantities_positive (cart till_failing) /\
  NoDup (cart_ids (cart till_failing)) /\
  quantities_positive (cart (run_events till_session till_failing)) /\
  NoDup (cart_ids (cart (run_events till_session till_failing))) /\
  cart_ids (cart (run_events till_session till_empty)) = [2].
Proof.
  assert (Ha : Forall answer_allowed till_session).
  { repeat (constructor; [ simpl; try exact I; lia | ]). constructor. }
  assert (Hp : quantities_positive (cart till_failing)).
  { repeat constructor. }
  assert (Hn : NoDup (cart_ids (cart till_failing))).
  { repeat constructor. simpl. tauto. }
  destruct (till_session_keeps_cart till_session till_failing Ha Hp Hn)
    as (H1 & H2 & _).
  split; [ exact Ha | ]. split; [ exact Hp | ]. split; [ exact Hn | ].
  split; [ exact H1 | ]. split; [ exact H2 | vm_compute; reflexivity ].
Defined.

End Scenarios.
